(** * TraceDroid heuristic scanner: a shallow embedding of
      [tracedroid/heuristic_detection.py]

    The development follows the layout of the Python module: the Python
    built-ins the scanner relies on ([str] methods, [int] formatting, list
    indexing, exceptions, [re]), the rule classes, the [CodeScanner] engine
    with its context extractor, and [report_issues].

    Modelling conventions.
    - A Python [str] is a [string]; every [ascii] stands for one code point
      below 256, so the character classes of [str.isspace], [str.lower] and
      [re] are the ones Python uses on that range.
    - A Python [int] is a [Z]; list positions that the code computes with
      [int] arithmetic are [Z] and go through [py_index], which raises
      [IndexError] out of range and wraps negative positions as Python does.
    - An exception is a value of [exn]; code that can raise returns a
      [result]; [try/except Exception] is a [match] on it.
    - The dictionaries a rule yields and the engine produces are
      [gmap string pyval]; a generator is the list of the values it yields
      together with the exception that ended it, if any.
    - [print] appends a line to an explicit standard output. *)

From Stdlib Require Import ZArith NArith Ascii String List Lia Bool.
From Stdlib Require Import Sorting.Permutation Sorting.Sorted.
From stdpp Require Import base option list gmap strings pretty.

Local Open Scope string_scope.
Local Open Scope Z_scope.

(** ** Exceptions and results *)

Record exn := Exn { exn_class : string; exn_msg : string }.

Inductive result (A : Type) : Type :=
| Ok (a : A)
| Raise (e : exn).
Arguments Ok {A} a.
Arguments Raise {A} e.

(** [result] is the error monad; [x ← r; k] runs [k] unless [r] raised. *)
#[global] Instance result_ret : MRet result := fun A a => Ok a.
#[global] Instance result_bind : MBind result := fun A B k r =>
  match r with
  | Ok a => k a
  | Raise e => Raise e
  end.

Definition IndexError : exn := Exn "IndexError" "list index out of range".
Definition KeyError (k : string) : exn := Exn "KeyError" ("'" ++ k ++ "'").
Definition NotImplementedError : exn := Exn "NotImplementedError" "".
Definition ValueError (msg : string) : exn := Exn "ValueError" msg.
Definition TypeError (msg : string) : exn := Exn "TypeError" msg.

(** [str(e)] as used by the f-strings that report an exception. *)
Definition str_exn (e : exn) : string := exn_msg e.

Fixpoint mapM {A B} (f : A -> result B) (l : list A) : result (list B) :=
  match l with
  | [] => Ok []
  | x :: l' => y ← f x; ys ← mapM f l'; Ok (y :: ys)
  end.

(** Code that produces output as it runs (a generator that yields, a
    function that prints) and may raise: what it emitted up to the end, and
    how it ended. *)
Record traced (W A : Type) := Traced {
  emitted : list W;
  outcome : result A;
}.
Arguments Traced {W A} emitted outcome.
Arguments emitted {W A} t.
Arguments outcome {W A} t.

#[global] Instance traced_ret {W} : MRet (traced W) := fun A a => Traced [] (Ok a).
#[global] Instance traced_bind {W} : MBind (traced W) := fun A B k m =>
  match outcome m with
  | Ok a => Traced (emitted m ++ emitted (k a)) (outcome (k a))
  | Raise e => Traced (emitted m) (Raise e)
  end.

Definition emit {W} (w : W) : traced W unit := Traced [w] (Ok tt).

(** A computation that emits nothing. *)
Definition lift {W A} (r : result A) : traced W A := Traced [] r.

(** ** Python values and dictionaries *)

Inductive pyval :=
| VInt (z : Z)
| VStr (s : string).

Abbreviation dict := (gmap string pyval).

(** [d[k]] *)
Definition getitem (d : dict) (k : string) : result pyval :=
  match d !! k with
  | Some v => Ok v
  | None => Raise (KeyError k)
  end.

(** [d.get(k, default)] *)
Definition dict_get (d : dict) (k : string) (default : pyval) : pyval :=
  match d !! k with
  | Some v => v
  | None => default
  end.

(** ** [str] methods *)

Definition ord (c : ascii) : N := N_of_ascii c.

(** [c.isspace()] on code points below 256. *)
Definition isspace (c : ascii) : bool :=
  let n := ord c in
  ((9 <=? n) && (n <=? 13) || (28 <=? n) && (n <=? 32)
   || (n =? 133) || (n =? 160))%N.

Fixpoint lstrip (s : string) : string :=
  match s with
  | EmptyString => EmptyString
  | String c s' => if isspace c then lstrip s' else s
  end.

Fixpoint rstrip (s : string) : string :=
  match s with
  | EmptyString => EmptyString
  | String c s' =>
      match rstrip s' with
      | EmptyString => if isspace c then EmptyString else String c EmptyString
      | r => String c r
      end
  end.

Definition strip (s : string) : string := rstrip (lstrip s).

(** [s.startswith(p)] *)
Fixpoint startswith (s p : string) {struct p} : bool :=
  match p, s with
  | EmptyString, _ => true
  | String _ _, EmptyString => false
  | String b p', String a s' => if Ascii.eqb a b then startswith s' p' else false
  end.

(** [s.endswith(p)] *)
Definition endswith (s p : string) : bool :=
  let n := String.length s in
  let m := String.length p in
  (m <=? n)%nat && String.eqb (substring (n - m) m s) p.

(** [p in s] *)
Fixpoint str_in (p s : string) : bool :=
  startswith s p ||
  match s with
  | EmptyString => false
  | String _ s' => str_in p s'
  end.

(** [s.count(c)] for a one-character [c]. *)
Fixpoint count_char (s : string) (c : ascii) : Z :=
  match s with
  | EmptyString => 0
  | String a s' => (if Ascii.eqb a c then 1 else 0) + count_char s' c
  end.

(** [c.lower()] on code points below 256. *)
Definition lower_char (c : ascii) : ascii :=
  let n := ord c in
  if ((65 <=? n) && (n <=? 90)
      || (192 <=? n) && (n <=? 222) && negb (n =? 215))%N
  then ascii_of_N (n + 32) else c.

Fixpoint lower (s : string) : string :=
  match s with
  | EmptyString => EmptyString
  | String c s' => String (lower_char c) (lower s')
  end.

(** [sep.join(l)] *)
Fixpoint join (sep : string) (l : list string) : string :=
  match l with
  | [] => ""
  | [x] => x
  | x :: l' => x ++ sep ++ join sep l'
  end.

Definition LF : string := String (ascii_of_N 10) EmptyString.

(** [s.split(c)] for a one-character separator [c]. *)
Fixpoint split_char (s : string) (c : ascii) : list string :=
  match s with
  | EmptyString => [""]
  | String a s' =>
      if Ascii.eqb a c then "" :: split_char s' c
      else
        match split_char s' c with
        | x :: xs => String a x :: xs
        | [] => [String a ""]
        end
  end.

(** [s.split()]: the maximal runs of characters that are not white
    space; [cur] is the run being read. *)
Fixpoint split_ws_from (s cur : string) : list string :=
  match s with
  | EmptyString => if String.eqb cur "" then [] else [cur]
  | String a s' =>
      if isspace a
      then (if String.eqb cur "" then split_ws_from s' ""
            else cur :: split_ws_from s' "")
      else split_ws_from s' (cur ++ String a "")
  end.

Definition split_ws (s : string) : list string := split_ws_from s "".

(** [len(s)] *)
Definition len_str (s : string) : Z := Z.of_nat (String.length s).

(** ** [int] formatting, ranges and list indexing *)

(** [str(n)] *)
Definition str_int (n : Z) : string := pretty n.

Fixpoint spaces (n : nat) : string :=
  match n with
  | O => ""
  | S n' => String " " (spaces n')
  end.

(** [f"{n:4d}"]: right-aligned in a field of at least four characters. *)
Definition fmt_4d (n : Z) : string :=
  let s := str_int n in
  spaces (4 - String.length s) ++ s.

(** [range(a, b)] and [range(start, stop, -1)] *)
Definition py_range (a b : Z) : list Z := seqZ a (b - a).

Definition py_range_down (start stop : Z) : list Z :=
  (fun k => start - k) <$> seqZ 0 (start - stop).

(** [len(l)] *)
Definition len {A} (l : list A) : Z := Z.of_nat (length l).

(** [l[i]] *)
Definition py_index {A} (l : list A) (i : Z) : result A :=
  let n := len l in
  let j := if i <? 0 then i + n else i in
  if (0 <=? j) && (j <? n) then
    match l !! Z.to_nat j with
    | Some x => Ok x
    | None => Raise IndexError
    end
  else Raise IndexError.

(** [l[a:b]] *)
Definition slice_bound {A} (l : list A) (a : Z) : Z :=
  let a := if a <? 0 then a + len l else a in
  Z.max 0 (Z.min (len l) a).

Definition py_slice {A} (l : list A) (a b : Z) : list A :=
  let a := slice_bound l a in
  let b := slice_bound l b in
  take (Z.to_nat (b - a)) (drop (Z.to_nat a) l).

(** ** The [re] module

    The fragment of Python's regular expressions that the modelled rules
    use: literals, [.], the classes [\w \s \d] and their complements, sets
    with ranges and negation, capturing and [(?:...)] groups, alternation
    and the greedy quantifiers [* + ?]. [re_parse] reads the pattern text
    the way [re.compile] does on this fragment and raises [re.error] on
    anything else (anchors, braces, lazy quantifiers, back-references).

    Matching is Python's backtracking search: alternatives are tried left
    to right, quantifiers are greedy, the leftmost start wins. In the
    patterns below the body of a [*] never matches the empty string. *)

Inductive class_kind := KWord | KSpace | KDigit.

Inductive set_item :=
| SChar (c : ascii)
| SRange (lo hi : ascii)
| SClass (neg : bool) (k : class_kind).

Inductive regex :=
| REps
| RChar (c : ascii)
| RAny
| RSet (neg : bool) (items : list set_item)
| RSeq (r1 r2 : regex)
| RAlt (r1 r2 : regex)
| RStar (r : regex)
| RGroup (n : nat) (r : regex).

Definition RPlus (r : regex) : regex := RSeq r (RStar r).
Definition ROpt (r : regex) : regex := RAlt r REps.

Definition in_range (lo hi n : N) : bool := ((lo <=? n) && (n <=? hi))%N.

(** [\d], [\s] and [\w] on code points below 256. *)
Definition isdigit (c : ascii) : bool := in_range 48 57 (ord c).

Definition isword (c : ascii) : bool :=
  let n := ord c in
  in_range 48 57 n || in_range 65 90 n || in_range 97 122 n || (n =? 95)%N
  || (n =? 170)%N || in_range 178 179 n || (n =? 181)%N || in_range 185 186 n
  || in_range 188 190 n || in_range 192 214 n || in_range 216 246 n
  || in_range 248 255 n.

Definition upper_char (c : ascii) : ascii :=
  let n := ord c in
  if in_range 97 122 n || in_range 224 254 n && negb (n =? 247)%N
  then ascii_of_N (n - 32) else c.

Definition in_class (k : class_kind) (c : ascii) : bool :=
  match k with
  | KWord => isword c
  | KSpace => isspace c
  | KDigit => isdigit c
  end.

Definition in_item (c : ascii) (it : set_item) : bool :=
  match it with
  | SChar a => Ascii.eqb c a
  | SRange lo hi => in_range (ord lo) (ord hi) (ord c)
  | SClass neg k => xorb neg (in_class k c)
  end.

Definition in_set (ic : bool) (neg : bool) (items : list set_item) (c : ascii) : bool :=
  let hit :=
    if ic then existsb (in_item (lower_char c)) items
              || existsb (in_item (upper_char c)) items
    else existsb (in_item c) items in
  xorb neg hit.

Definition char_eq (ic : bool) (a b : ascii) : bool :=
  if ic then Ascii.eqb (lower_char a) (lower_char b) else Ascii.eqb a b.

Definition captures := list (nat * string).

Fixpoint cap_lookup (n : nat) (caps : captures) : option string :=
  match caps with
  | [] => None
  | (m, s) :: caps' => if Nat.eqb m n then Some s else cap_lookup n caps'
  end.

(** The text consumed between the input [s] and its suffix [s']. *)
Definition consumed (s s' : string) : string :=
  substring 0 (String.length s - String.length s') s.

Fixpoint rmatch {R} (ic : bool) (r : regex) (s : string) (caps : captures)
    (k : string -> captures -> option R) {struct r} : option R :=
  match r with
  | REps => k s caps
  | RChar c =>
      match s with
      | String a s' => if char_eq ic a c then k s' caps else None
      | EmptyString => None
      end
  | RAny =>
      match s with
      | String a s' => if (ord a =? 10)%N then None else k s' caps
      | EmptyString => None
      end
  | RSet neg items =>
      match s with
      | String a s' => if in_set ic neg items a then k s' caps else None
      | EmptyString => None
      end
  | RSeq r1 r2 =>
      rmatch ic r1 s caps (fun s' caps' => rmatch ic r2 s' caps' k)
  | RAlt r1 r2 =>
      match rmatch ic r1 s caps k with
      | Some x => Some x
      | None => rmatch ic r2 s caps k
      end
  | RStar r' =>
      (fix star (fuel : nat) (s : string) (caps : captures) {struct fuel} : option R :=
         match fuel with
         | O => k s caps
         | S fuel' =>
             match rmatch ic r' s caps (fun s' caps' =>
                     if (String.length s' <? String.length s)%nat
                     then star fuel' s' caps' else None) with
             | Some x => Some x
             | None => k s caps
             end
         end) (String.length s) s caps
  | RGroup n r' =>
      rmatch ic r' s caps (fun s' caps' => k s' ((n, consumed s s') :: caps'))
  end.

(** A match object: where the match starts, [group()] and the groups. *)
Record match_obj := Match {
  m_start : nat;
  m_group0 : string;
  m_caps : captures;
}.

Fixpoint search_from (ic : bool) (r : regex) (s : string) (pos : nat) : option match_obj :=
  match rmatch ic r s [] (fun s' caps => Some (Match pos (consumed s s') caps)) with
  | Some m => Some m
  | None =>
      match s with
      | EmptyString => None
      | String _ s' => search_from ic r s' (S pos)
      end
  end.

(** [pattern.search(s)] for a compiled pattern; [ic] is [re.IGNORECASE]. *)
Definition regex_search (ic : bool) (r : regex) (s : string) : option match_obj :=
  search_from ic r s 0.

(** [m.group(n)] for [n >= 1]. Every group the rules read stands outside
    any alternative or repetition of its pattern, so it took part in the
    match; for a group that did not, Python gives [None]. *)
Definition group (m : match_obj) (n : nat) : string :=
  default "None" (cap_lookup n (m_caps m)).

(** [bool(x)] of a match result. *)
Definition found (m : option match_obj) : bool :=
  match m with
  | Some _ => true
  | None => false
  end.

(** *** Reading a pattern *)

Definition re_error (msg : string) : exn := Exn "re.error" msg.

Definition BACKSLASH : ascii := ascii_of_N 92.
Definition DQUOTE : ascii := ascii_of_N 34.

Definition is_char (c : ascii) (s : string) : bool :=
  match s with
  | String a EmptyString => Ascii.eqb c a
  | _ => false
  end.

Definition one_of (c : ascii) (s : string) : bool :=
  str_in (String c EmptyString) s && negb (String.eqb s "").

Definition is_ascii_alnum (c : ascii) : bool :=
  let n := ord c in in_range 48 57 n || in_range 65 90 n || in_range 97 122 n.

(** The character an escape such as [\n] or [\.] stands for. *)
Definition escape_char (c : ascii) : result ascii :=
  if is_char c "n" then Ok (ascii_of_N 10)
  else if is_char c "t" then Ok (ascii_of_N 9)
  else if is_char c "r" then Ok (ascii_of_N 13)
  else if is_char c "f" then Ok (ascii_of_N 12)
  else if is_char c "v" then Ok (ascii_of_N 11)
  else if is_char c "a" then Ok (ascii_of_N 7)
  else if is_ascii_alnum c then Raise (re_error "bad escape")
  else Ok c.

(** The class an escape such as [\w] or [\S] stands for, if any. *)
Definition escape_class (c : ascii) : option set_item :=
  if is_char c "w" then Some (SClass false KWord)
  else if is_char c "W" then Some (SClass true KWord)
  else if is_char c "s" then Some (SClass false KSpace)
  else if is_char c "S" then Some (SClass true KSpace)
  else if is_char c "d" then Some (SClass false KDigit)
  else if is_char c "D" then Some (SClass true KDigit)
  else None.

(** One member of a set (a character or a class) and the rest of the text. *)
Definition parse_set_atom (s : string) : result (set_item * string) :=
  match s with
  | EmptyString => Raise (re_error "unterminated character set")
  | String c s1 =>
      if Ascii.eqb c BACKSLASH then
        match s1 with
        | EmptyString => Raise (re_error "bad escape (end of pattern)")
        | String e s2 =>
            match escape_class e with
            | Some it => Ok (it, s2)
            | None => a ← escape_char e; Ok (SChar a, s2)
            end
        end
      else Ok (SChar c, s1)
  end.

(** The members of a set up to the closing bracket. [first] says that no
    member has been read yet, where a closing bracket is a literal. *)
Fixpoint parse_set_items (fuel : nat) (first : bool) (s : string)
    (acc : list set_item) : result (list set_item * string) :=
  match fuel with
  | O => Raise (re_error "unterminated character set")
  | S fuel' =>
      match s with
      | EmptyString => Raise (re_error "unterminated character set")
      | String c s1 =>
          if is_char c "]" && negb first then Ok (acc, s1)
          else
            '(lo, s2) ← parse_set_atom s;
            match s2 with
            | String d (String e s3) =>
                if is_char d "-" && negb (is_char e "]") then
                  '(hi, s4) ← parse_set_atom (String e s3);
                  match lo, hi with
                  | SChar a, SChar b =>
                      if (ord a <=? ord b)%N
                      then parse_set_items fuel' false s4 (acc ++ [SRange a b])
                      else Raise (re_error "bad character range")
                  | _, _ => Raise (re_error "bad character range")
                  end
                else parse_set_items fuel' false s2 (acc ++ [lo])
            | _ => parse_set_items fuel' false s2 (acc ++ [lo])
            end
      end
  end.

(** A quantifier after the atom [r], if there is one. *)
Definition parse_quant (r : regex) (s : string) : result (regex * string) :=
  match s with
  | String q s1 =>
      if one_of q "*+?" then
        let r' := if is_char q "*" then RStar r
                  else if is_char q "+" then RPlus r else ROpt r in
        match s1 with
        | String q2 _ =>
            if one_of q2 "*+?{" then Raise (re_error "unsupported quantifier")
            else Ok (r', s1)
        | EmptyString => Ok (r', s1)
        end
      else if is_char q "{" then Raise (re_error "unsupported quantifier")
      else Ok (r, s)
  | EmptyString => Ok (r, s)
  end.

(** Alternatives, sequences and atoms; [g] is the number of groups opened
    so far. *)
Fixpoint parse_alt (fuel : nat) (s : string) (g : nat)
    : result (regex * string * nat) :=
  match fuel with
  | O => Raise (re_error "pattern too deep")
  | S fuel' =>
      '(r1, s1, g1) ← parse_seq fuel' s g;
      match s1 with
      | String c s2 =>
          if is_char c "|" then
            '(r2, s3, g2) ← parse_alt fuel' s2 g1;
            Ok (RAlt r1 r2, s3, g2)
          else Ok (r1, s1, g1)
      | EmptyString => Ok (r1, s1, g1)
      end
  end
with parse_seq (fuel : nat) (s : string) (g : nat)
    : result (regex * string * nat) :=
  match fuel with
  | O => Raise (re_error "pattern too deep")
  | S fuel' =>
      match s with
      | EmptyString => Ok (REps, s, g)
      | String c _ =>
          if one_of c "|)" then Ok (REps, s, g)
          else
            '(a, s1, g1) ← parse_atom fuel' s g;
            '(q, s2) ← parse_quant a s1;
            '(rest, s3, g3) ← parse_seq fuel' s2 g1;
            Ok (RSeq q rest, s3, g3)
      end
  end
with parse_atom (fuel : nat) (s : string) (g : nat)
    : result (regex * string * nat) :=
  match fuel with
  | O => Raise (re_error "pattern too deep")
  | S fuel' =>
      match s with
      | EmptyString => Raise (re_error "unexpected end of pattern")
      | String c s1 =>
          if is_char c "(" then
            if startswith s1 "?:" then
              '(r, s2, g1) ← parse_alt fuel' (substring 2 (String.length s1 - 2) s1) g;
              match s2 with
              | String d s3 =>
                  if is_char d ")" then Ok (r, s3, g1)
                  else Raise (re_error "missing ), unterminated subpattern")
              | EmptyString => Raise (re_error "missing ), unterminated subpattern")
              end
            else if startswith s1 "?" then Raise (re_error "unsupported extension")
            else
              '(r, s2, g1) ← parse_alt fuel' s1 (S g);
              match s2 with
              | String d s3 =>
                  if is_char d ")" then Ok (RGroup (S g) r, s3, g1)
                  else Raise (re_error "missing ), unterminated subpattern")
              | EmptyString => Raise (re_error "missing ), unterminated subpattern")
              end
          else if is_char c "[" then
            let '(neg, s2) :=
              match s1 with
              | String d s2 => if is_char d "^" then (true, s2) else (false, s1)
              | EmptyString => (false, s1)
              end in
            '(items, s3) ← parse_set_items (String.length s2) true s2 [];
            Ok (RSet neg items, s3, g)
          else if is_char c "." then Ok (RAny, s1, g)
          else if Ascii.eqb c BACKSLASH then
            match s1 with
            | EmptyString => Raise (re_error "bad escape (end of pattern)")
            | String e s2 =>
                match escape_class e with
                | Some it => Ok (RSet false [it], s2, g)
                | None => a ← escape_char e; Ok (RChar a, s2, g)
                end
            end
          else if one_of c "*+?" then Raise (re_error "nothing to repeat")
          else if one_of c "{^$" then Raise (re_error "unsupported syntax")
          else Ok (RChar c, s1, g)
      end
  end.

(** [re.compile(pattern)] *)
Definition re_parse (pattern : string) : result regex :=
  '(r, rest, _) ← parse_alt (3 * String.length pattern + 3) pattern 0%nat;
  match rest with
  | EmptyString => Ok r
  | _ => Raise (re_error "unbalanced parenthesis")
  end.

(** A pattern compiled when its class is defined: the definition is only
    well typed when the pattern text is accepted by [re_parse]. *)
Definition compiled (pattern : string) : Type :=
  match re_parse pattern with
  | Ok _ => regex
  | Raise _ => exn
  end.

Definition re_compile (pattern : string) : compiled pattern :=
  match re_parse pattern as r
    return (match r with Ok _ => regex | Raise _ => exn end) with
  | Ok r => r
  | Raise e => e
  end.

(** [re.search(pattern, s)] and [re.search(pattern, s, re.IGNORECASE)] *)
Definition re_search (ic : bool) (pattern : string) (s : string)
    : result (option match_obj) :=
  r ← re_parse pattern; Ok (regex_search ic r s).

(** [re.escape(s)] *)
Definition re_special (c : ascii) : bool :=
  one_of c "()[]{}?*+-|^$.&~# " || Ascii.eqb c BACKSLASH
  || in_range 9 13 (ord c).

Fixpoint re_escape (s : string) : string :=
  match s with
  | EmptyString => EmptyString
  | String c s' =>
      if re_special c then String BACKSLASH (String c (re_escape s'))
      else String c (re_escape s')
  end.

(** ** Rules

    A generator is modelled by what it yields and by how it ends: [Ok]
    when the body returns, [Raise e] when it raises [e] after the issues
    already yielded. The bodies of [analyze_file] are written in the
    monad [gen]. *)

Abbreviation gen := (traced dict).
Abbreviation generator := (gen unit).
Abbreviation Gen := (@Traced dict _).
Abbreviation yielded := (@emitted dict _).

(** [yield d] *)
Definition yield (d : dict) : gen unit := emit d.

(** A rule carries its name (the class name), its [issue_type] and
    [suggestion] (properties that raise [NotImplementedError] in the
    abstract base class) and [analyze_file]. *)
Record Rule := {
  name : string;
  issue_type : result string;
  suggestion : result string;
  analyze_file : string -> list string -> generator;
}.

(** The abstract base class [Rule] itself. *)
Definition base_Rule : Rule := {|
  name := "Rule";
  issue_type := Raise NotImplementedError;
  suggestion := Raise NotImplementedError;
  analyze_file := fun _ _ => Gen [] (Raise NotImplementedError);
|}.

(** The dictionary literal every rule yields. *)
Definition issue (line_num : Z) (code detail severity : string) : dict :=
  <["severity" := VStr severity]>
    (<["detail" := VStr detail]>
       (<["code" := VStr code]>
          (<["line_num" := VInt line_num]> ∅))).

(** [for i, line in enumerate(lines): body] for a body that updates the
    loop state [S]; [i] is the index of the first element of [ls]. A
    [continue] is a body that returns early. *)
Fixpoint for_enumerate {S} (body : S -> Z -> string -> gen S)
    (st : S) (i : Z) (ls : list string) : generator :=
  match ls with
  | [] => mret tt
  | line :: ls' => st' ← body st i line; for_enumerate body st' (i + 1) ls'
  end.

(** [not stripped_line or stripped_line.startswith("//")] *)
Definition blank_or_comment (stripped_line : string) : bool :=
  String.eqb stripped_line "" || startswith stripped_line "//".

(** [for pattern in patterns: if re.search(pattern, line, flags): ...]:
    whether some pattern of the list is found in [line]. *)
Fixpoint any_search (ic : bool) (patterns : list string) (line : string)
    : result bool :=
  match patterns with
  | [] => Ok false
  | pattern :: ps =>
      m ← re_search ic pattern line;
      if found m then Ok true else any_search ic ps line
  end.

(** [UnsafeArrayIndexAccessRule] and [UnsafeNullableObjectAccessRule]
    define the same two boundary finders. *)
Module MethodBounds.

Fixpoint _find_method_start_loop (lines : list string) (range : list Z)
    : result Z :=
  match range with
  | [] => Ok (-1)
  | i :: range' =>
      line ← py_index lines i;
      if (str_in "public " line || str_in "private " line
          || str_in "protected " line)
         && (str_in "(" line && str_in ")" line)
      then Ok i
      else _find_method_start_loop lines range'
  end.

Definition _find_method_start (lines : list string) (current_line : Z)
    : result Z :=
  _find_method_start_loop lines (py_range_down current_line (-1)).

Fixpoint _find_method_end_loop (lines : list string) (brace_count : Z)
    (in_method : bool) (range : list Z) : result Z :=
  match range with
  | [] => Ok (-1)
  | i :: range' =>
      line ← py_index lines i;
      let '(brace_count, in_method) :=
        if str_in "{" line
        then (brace_count + count_char line "{", true)
        else (brace_count, in_method) in
      if str_in "}" line then
        let brace_count := brace_count - count_char line "}" in
        if in_method && (brace_count =? 0) then Ok i
        else _find_method_end_loop lines brace_count in_method range'
      else _find_method_end_loop lines brace_count in_method range'
  end.

Definition _find_method_end (lines : list string) (current_line : Z)
    : result Z :=
  _find_method_end_loop lines 0 false (py_range current_line (len lines)).

End MethodBounds.

Module UnsafeStartActivityRule.

Definition issue_type : string :=
  "Unsafe startActivity Call Without Exception Handling".
Definition suggestion : string :=
  "The startActivity() call can throw an ActivityNotFoundException if no app can handle the Intent (e.g., no browser for ACTION_VIEW). Wrap it in a try-catch block with ActivityNotFoundException handling.".

Definition START_ACTIVITY_PATTERN : regex :=
  Eval vm_compute in re_compile "(startActivity|startActivityForResult)\s*\(".
Definition ACTION_VIEW_PATTERN : regex :=
  Eval vm_compute in re_compile "Intent\.ACTION_VIEW".

Record state := State {
  try_block_stack : list Z;
  catch_activity_not_found : bool;
}.

Definition is_empty {A} (l : list A) : bool :=
  match l with
  | [] => true
  | _ => false
  end.

Definition body (st : state) (i : Z) (line : string) : gen state :=
  let line_num := i + 1 in
  let stripped_line := strip line in
  if blank_or_comment stripped_line then mret st
  else
    let st :=
      if str_in "try " stripped_line || startswith stripped_line "try {"
         || endswith stripped_line " try"
      then State (try_block_stack st ++ [line_num]) false
      else st in
    let st :=
      if str_in "catch" stripped_line
         && str_in "ActivityNotFoundException" stripped_line
      then State (try_block_stack st) true
      else st in
    let st :=
      if startswith stripped_line "}" then
        if negb (is_empty (try_block_stack st)) then
          let stack := removelast (try_block_stack st) in
          State stack
            (if is_empty stack then false else catch_activity_not_found st)
        else st
      else st in
    match regex_search false START_ACTIVITY_PATTERN line with
    | Some m =>
        let is_action_view :=
          found (regex_search false ACTION_VIEW_PATTERN line) in
        if is_empty (try_block_stack st) then
          let severity := if is_action_view then "HIGH" else "MEDIUM" in
          yield (issue line_num (strip line)
                   ("Unsafe " ++ severity ++ " risk call found: `"
                    ++ strip (m_group0 m)
                    ++ "`. No exception handling detected.")
                   severity);;
          mret st
        else if negb (catch_activity_not_found st) then
          let severity := if is_action_view then "MEDIUM" else "LOW" in
          yield (issue line_num (strip line)
                   ("Unsafe " ++ severity ++ " risk call found: `"
                    ++ strip (m_group0 m)
                    ++ "`. Try block exists but no ActivityNotFoundException handling detected.")
                   severity);;
          mret st
        else mret st
    | None => mret st
    end.

Definition analyze_file (file_path : string) (lines : list string)
    : generator :=
  for_enumerate body (State [] false) 0 lines.

Definition rule : Rule :=
  Build_Rule "UnsafeStartActivityRule" (Ok issue_type) (Ok suggestion) analyze_file.

End UnsafeStartActivityRule.

Module StrictPeertubeChannelIdParsingRule.

Definition issue_type : string :=
  "PeerTube channel ID parsing too permissive/incorrect".
Definition suggestion : string :=
  "Use '/((accounts|a)|(video-channels|c))/([^/?&#]*)' and normalize IDs by removing leading '/' and expanding 'a/'/'c/'.".

(** The two characters of an escaped double quote in a pattern. *)
Definition Q : string := String BACKSLASH (String DQUOTE EmptyString).

Definition MISSING_URL_SCOPED_PATTERN : regex :=
  Eval vm_compute in re_compile "ID_URL_PATTERN".
Definition FIXID_SIGNATURE_PATTERN : regex :=
  Eval vm_compute in
    re_compile "fixId\s*\(\s*(@Nonnull\s*)?final\s*String\s+id\s*\)".
Definition CLEAN_LEADING_SLASH_PATTERN : regex :=
  Eval vm_compute in
    re_compile ("startsWith\s*\(\s*" ++ Q ++ "/" ++ Q
      ++ "\s*\)\s*\?\s*id\.substring\(1\)\s*:\s*id|cleanedId\s*=\s*id\.startsWith\("
      ++ Q ++ "/" ++ Q ++ "\)\s*\?\s*id\.substring\(1\)\s*:\s*id").
Definition EXPAND_PREFIX_A_PATTERN : regex :=
  Eval vm_compute in
    re_compile ("startsWith\s*\(\s*" ++ Q ++ "a/" ++ Q ++ "\s*\).*accounts").
Definition EXPAND_PREFIX_C_PATTERN : regex :=
  Eval vm_compute in
    re_compile ("startsWith\s*\(\s*" ++ Q ++ "c/" ++ Q ++ "\s*\).*video-channels").

Definition analyze_file (file_path : string) (lines : list string)
    : generator :=
  if negb (endswith file_path ".java") then mret tt
  else if negb (str_in "peertube" (lower file_path)) then mret tt
  else
    let content := join LF lines in
    let has_id_url_pattern :=
      found (regex_search false MISSING_URL_SCOPED_PATTERN content) in
    let has_fixid_signature :=
      found (regex_search false FIXID_SIGNATURE_PATTERN content) in
    let has_clean_leading :=
      found (regex_search false CLEAN_LEADING_SLASH_PATTERN content) in
    let has_expand_a :=
      found (regex_search false EXPAND_PREFIX_A_PATTERN content) in
    let has_expand_c :=
      found (regex_search false EXPAND_PREFIX_C_PATTERN content) in
    if negb has_id_url_pattern
       || negb (has_fixid_signature && has_clean_leading
                && has_expand_a && has_expand_c)
    then
      let line_num := 1 in
      let detail_bits : list string :=
        ((if negb has_id_url_pattern
          then ["Define ID_URL_PATTERN='/((accounts|a)|(video-channels|c))/([^/?&#]*)'"]
          else [])
         ++ (if negb has_clean_leading
             then ["Remove leading '/' in fixId"] else [])
         ++ (if negb has_expand_a
             then ["Expand 'a/' -> 'accounts/' in fixId"] else [])
         ++ (if negb has_expand_c
             then ["Expand 'c/' -> 'video-channels/' in fixId"] else []))%list in
      let joined := join "; " detail_bits in
      yield (issue line_num "PeerTube link handler patterns"
               (if String.eqb joined ""
                then "PeerTube channel ID parsing likely incomplete."
                else joined)
               "MEDIUM")
    else mret tt.

Definition rule : Rule :=
  Build_Rule "StrictPeertubeChannelIdParsingRule" (Ok issue_type) (Ok suggestion) analyze_file.

End StrictPeertubeChannelIdParsingRule.

Module UnsafeArrayIndexAccessRule.

Definition issue_type : string :=
  "Unsafe Array Index Access Without Bounds Check".
Definition suggestion : string :=
  "Array indices should be validated against array bounds before use to prevent IndexOutOfBoundsException. Add bounds checking or use safe access methods.".

Definition ARRAY_ACCESS_PATTERN : regex :=
  Eval vm_compute in re_compile "(\w+)\s*\[\s*(\w+)\s*\]".
Definition STRING_ACCESS_PATTERN : regex :=
  Eval vm_compute in
    re_compile "(\w+)\.(charAt|substring|setSpan)\s*\(\s*(\w+)\s*".

Definition _find_method_start := MethodBounds._find_method_start.
Definition _find_method_end := MethodBounds._find_method_end.

(** The f-strings of [bounds_patterns]. *)
Definition bounds_patterns (container_name index_var : string)
    : list string :=
  [ index_var ++ "\s*<\s*" ++ container_name ++ "\.length";
    index_var ++ "\s*<=\s*" ++ container_name ++ "\.length";
    index_var ++ "\s*>=?\s*0\s*&&\s*" ++ index_var ++ "\s*<";
    container_name ++ "\.length\s*>\s*" ++ index_var;
    "isInsideTextRange" ].

Fixpoint _has_bounds_check_loop (lines : list string)
    (patterns : list string) (range : list Z) : result bool :=
  match range with
  | [] => Ok false
  | line_num :: range' =>
      line ← py_index lines line_num;
      hit ← any_search true patterns line;
      if hit : bool then Ok true
      else _has_bounds_check_loop lines patterns range'
  end.

Definition _has_bounds_check (lines : list string) (current_line : Z)
    (container_name index_var : string) : result bool :=
  method_start ← _find_method_start lines current_line;
  method_end ← _find_method_end lines current_line;
  if (method_start =? -1) || (method_end =? -1) then Ok false
  else
    _has_bounds_check_loop lines
      (bounds_patterns container_name index_var)
      (py_range method_start (method_end + 1)).

(** The first [if array_match:] block of the loop body. *)
Definition check_array (lines : list string) (i : Z) (line : string)
    : gen unit :=
  let line_num := i + 1 in
  match regex_search false ARRAY_ACCESS_PATTERN line with
  | Some array_match =>
      let array_name := group array_match 1 in
      let index_var := group array_match 2 in
      guarded ← lift (W:=dict) (_has_bounds_check lines i array_name index_var);
      if negb guarded then
        yield (issue line_num (strip line)
                 ("Unsafe array access: `" ++ array_name ++ "[" ++ index_var
                  ++ "]` without bounds checking. This can cause IndexOutOfBoundsException.")
                 "HIGH")
      else mret tt
  | None => mret tt
  end.

(** The second [if string_match:] block of the loop body. *)
Definition check_string (lines : list string) (i : Z) (line : string)
    : gen unit :=
  let line_num := i + 1 in
  match regex_search false STRING_ACCESS_PATTERN line with
  | Some string_match =>
      let string_name := group string_match 1 in
      let method_name := group string_match 2 in
      let index_var := group string_match 3 in
      guarded ← lift (W:=dict) (_has_bounds_check lines i string_name index_var);
      if negb guarded then
        yield (issue line_num (strip line)
                 ("Unsafe " ++ method_name ++ " access: `" ++ string_name
                  ++ "." ++ method_name ++ "(" ++ index_var
                  ++ ")` without bounds checking. This can cause IndexOutOfBoundsException.")
                 "HIGH")
      else mret tt
  | None => mret tt
  end.

Definition body (lines : list string) (st : unit) (i : Z) (line : string)
    : gen unit :=
  let stripped_line := strip line in
  if blank_or_comment stripped_line then mret tt
  else check_array lines i line;; check_string lines i line.

Definition analyze_file (file_path : string) (lines : list string)
    : generator :=
  for_enumerate (body lines) tt 0 lines.

Definition rule : Rule :=
  Build_Rule "UnsafeArrayIndexAccessRule" (Ok issue_type) (Ok suggestion) analyze_file.

End UnsafeArrayIndexAccessRule.

Module UnsafeNullableObjectAccessRule.

Definition issue_type : string := "Unsafe Nullable Object Method Call".
Definition suggestion : string :=
  "Method call on a potentially null object without a null check. Add `if (object != null)` or use safe call operator (`?.`) to prevent NullPointerException.".

Definition METHOD_CALL_PATTERN : regex :=
  Eval vm_compute in re_compile "(\w+(?:\.\w+)*)\.(\w+)\s*\(".
Definition SAFE_CALL_PATTERN : regex :=
  Eval vm_compute in re_compile "(\w+(?:\.\w+)*)\?\.(\w+)\s*\(".

Definition NULLABLE_CONTEXTS : list string :=
  ["player"; "view"; "binding"; "context"; "activity"; "fragment"].

Definition _find_method_start := MethodBounds._find_method_start.
Definition _find_method_end := MethodBounds._find_method_end.

Definition nullable_patterns (object_name : string) : list string :=
  [ re_escape object_name ++ "\s*\?[^=]*=";
    re_escape object_name ++ "\s*=\s*null";
    "@Nullable.*" ++ re_escape object_name;
    "Optional<.*" ++ re_escape object_name ].

Fixpoint _is_likely_nullable_loop (patterns : list string)
    (lines : list string) : result bool :=
  match lines with
  | [] => Ok false
  | line :: lines' =>
      hit ← any_search false patterns line;
      if hit : bool then Ok true
      else _is_likely_nullable_loop patterns lines'
  end.

Definition _is_likely_nullable (lines : list string) (object_name : string)
    : result bool :=
  if existsb (fun nullable_context =>
                str_in (lower nullable_context) (lower object_name))
       NULLABLE_CONTEXTS
  then Ok true
  else _is_likely_nullable_loop (nullable_patterns object_name) lines.

Definition positive_patterns (object_name : string) : list string :=
  [ "if\s*\(\s*" ++ re_escape object_name ++ "\s*!=\s*null";
    "if\s*\(\s*null\s*!=\s*" ++ re_escape object_name;
    "Objects\.requireNonNull\s*\(\s*" ++ re_escape object_name ].

Definition _is_protective_null_check (line object_name : string)
    : result bool :=
  any_search true (positive_patterns object_name) line.

Definition null_check_patterns (object_name : string) : list string :=
  [ "if\s*\(\s*" ++ re_escape object_name ++ "\s*!=\s*null\s*\)";
    "if\s*\(\s*null\s*!=\s*" ++ re_escape object_name ++ "\s*\)";
    "if\s*\(\s*" ++ re_escape object_name ++ "\s*!=\s*null\s*&&";
    "if\s*\(\s*" ++ re_escape object_name ++ "\s*&&\s*"
      ++ re_escape object_name ++ "\s*!=\s*null";
    "Objects\.requireNonNull\s*\(\s*" ++ re_escape object_name;
    "assert\s+" ++ re_escape object_name ++ "\s*!=\s*null" ].

(** The inner [for pattern in null_check_patterns] of the second loop:
    a pattern that is found counts only when the check is protective. *)
Fixpoint protective_search (patterns : list string)
    (line object_name : string) : result bool :=
  match patterns with
  | [] => Ok false
  | pattern :: ps =>
      m ← re_search true pattern line;
      if found m then
        protective ← _is_protective_null_check line object_name;
        if protective : bool then Ok true
        else protective_search ps line object_name
      else protective_search ps line object_name
  end.

Fixpoint _has_null_check_loop (lines : list string) (object_name : string)
    (range : list Z) : result bool :=
  match range with
  | [] => Ok false
  | line_num :: range' =>
      line ← py_index lines line_num;
      hit ← protective_search (null_check_patterns object_name)
              line object_name;
      if hit : bool then Ok true
      else _has_null_check_loop lines object_name range'
  end.

Definition _has_null_check (lines : list string) (current_line : Z)
    (object_name : string) : result bool :=
  method_start ← _find_method_start lines current_line;
  method_end ← _find_method_end lines current_line;
  if (method_start =? -1) || (method_end =? -1) then Ok false
  else
    current_line_content ← py_index lines current_line;
    in_if ←
      (if str_in "if" current_line_content
       then any_search false (null_check_patterns object_name)
              current_line_content
       else Ok false);
    if in_if : bool then Ok true
    else
      _has_null_check_loop lines object_name
        (py_range method_start (current_line + 1)).

Definition body (lines : list string) (st : unit) (i : Z) (line : string)
    : gen unit :=
  let line_num := i + 1 in
  let stripped_line := strip line in
  if blank_or_comment stripped_line then mret tt
  else
    match regex_search false METHOD_CALL_PATTERN line with
    | Some method_match =>
        let object_name := group method_match 1 in
        let method_name := group method_match 2 in
        if found (regex_search false SAFE_CALL_PATTERN line) then mret tt
        else
          nullable ← lift (W:=dict) (_is_likely_nullable lines object_name);
          if nullable : bool then
            guarded ← lift (W:=dict) (_has_null_check lines i object_name);
            if negb guarded then
              yield (issue line_num (strip line)
                       ("Unsafe method call: `" ++ object_name ++ "."
                        ++ method_name
                        ++ "()` called without null check. This can cause NullPointerException if "
                        ++ object_name ++ " is null.")
                       "HIGH")
            else mret tt
          else mret tt
    | None => mret tt
    end.

Definition analyze_file (file_path : string) (lines : list string)
    : generator :=
  for_enumerate (body lines) tt 0 lines.

Definition rule : Rule :=
  Build_Rule "UnsafeNullableObjectAccessRule" (Ok issue_type) (Ok suggestion) analyze_file.

End UnsafeNullableObjectAccessRule.

Module StrictFailedRequirementExceptionRule.

Definition issue_type : string :=
  "Potential IllegalArgumentException: Failed Requirement".
Definition suggestion : string :=
  "Add precondition checks before performing operations that can throw IllegalArgumentException: Failed requirement. Validate inputs and state before calling methods that have strict requirements.".

Definition FAILED_REQUIREMENT_OPERATIONS : list string :=
  [ "createLayout"; "layoutChildren"; "measureChildren"; "onLayout";
    "onMeasure"; "createRecipientLayout"; "layoutRecipients";
    "drawRecipients"; "setScale"; "setRotation"; "setTranslation";
    "setAlpha"; "addView"; "removeView"; "removeViewAt" ].

Definition SIZE_COUNT_CHECK_PATTERN : regex :=
  Eval vm_compute in
    re_compile "(\w+)\s*(==\s*0|>\s*0|!=\s*0|\.isEmpty\(\)|\.isNotEmpty\(\)|\.size\s*==\s*0|\.count\s*==\s*0)".
Definition NULL_CHECK_PATTERN : regex :=
  Eval vm_compute in re_compile "(\w+)\s*(==\s*null|!=\s*null)".
Definition EARLY_RETURN_PATTERN : regex :=
  Eval vm_compute in re_compile "return\s*;".

Record state := State {
  in_method : bool;
  method_start : Z;
  method_name : string;
  has_validation : bool;
  has_early_return : bool;
}.

(** [stripped_line.split('(')[0].split()[-1]] *)
Definition method_name_of (stripped_line : string) : result string :=
  before ← py_index (split_char stripped_line "(") 0;
  py_index (split_ws before) (-1).

(** The block under [# Check if we're exiting the method]: [true] when
    it reaches its [continue]. *)
Definition leaves_method (lines : list string) (st : state) (i : Z)
    (line stripped_line : string) : result bool :=
  if in_method st && String.eqb stripped_line "}" && (method_start st <? i)
  then
    if 0 <? i then
      prev ← py_index lines (i - 1);
      if 0 <? len_str (strip prev) then
        let prev_indent := len_str prev - len_str (lstrip prev) in
        let curr_indent := len_str line - len_str (lstrip line) in
        Ok (curr_indent <=? prev_indent)
      else Ok false
    else Ok false
  else Ok false.

(** The operation chosen by [for operation in ...: if operation in
    stripped_line: ...; break]. *)
Definition first_operation (stripped_line : string) : option string :=
  List.find (fun operation => str_in operation stripped_line)
    FAILED_REQUIREMENT_OPERATIONS.

Definition body (lines : list string) (st : state) (i : Z) (line : string)
    : gen state :=
  let line_num := i + 1 in
  let stripped_line := strip line in
  if blank_or_comment stripped_line then mret st
  else if str_in "fun " stripped_line || str_in "void " stripped_line
          || str_in "override fun " stripped_line
  then
    method_name ← lift (W:=dict) (method_name_of stripped_line);
    mret (State true i method_name false false)
  else
    leaving ← lift (W:=dict) (leaves_method lines st i line stripped_line);
    if leaving : bool then
      mret (State false (method_start st) (method_name st)
              (has_validation st) (has_early_return st))
    else if in_method st then
      match first_operation stripped_line with
      | Some operation =>
          let method_lines := py_slice lines (method_start st) (i + 1) in
          let method_text := join LF method_lines in
          let has_validation :=
            found (regex_search false SIZE_COUNT_CHECK_PATTERN method_text)
            || found (regex_search false NULL_CHECK_PATTERN method_text) in
          let has_early_return :=
            found (regex_search false EARLY_RETURN_PATTERN method_text) in
          let st := State (in_method st) (method_start st) (method_name st)
                      has_validation has_early_return in
          if negb has_validation then
            yield (issue line_num stripped_line
                     ("Operation '" ++ operation
                      ++ "' without validation in " ++ method_name st
                      ++ "() can cause IllegalArgumentException: Failed requirement. Add precondition checks.")
                     "HIGH");;
            mret st
          else if has_validation && negb has_early_return then
            yield (issue line_num stripped_line
                     ("Operation '" ++ operation ++ "' in " ++ method_name st
                      ++ "() with validation but no early return. Consider adding early return when preconditions are not met.")
                     "MEDIUM");;
            mret st
          else mret st
      | None => mret st
      end
    else mret st.

Definition analyze_file (file_path : string) (lines : list string)
    : generator :=
  if negb (endswith file_path ".kt" || endswith file_path ".java")
  then mret tt
  else for_enumerate (body lines) (State false 0 "" false false) 0 lines.

Definition rule : Rule :=
  Build_Rule "StrictFailedRequirementExceptionRule" (Ok issue_type) (Ok suggestion) analyze_file.

End StrictFailedRequirementExceptionRule.
(** ** Further rules

    Rules of the module whose loop strips each line, skips blank lines and
    line comments, and looks at windows of the file around the line. *)

(** [x.strip() for x in lines[a:b]] joined by new lines. *)
Definition window_text (lines : list string) (a b : Z) : string :=
  join LF (strip <$> py_slice lines a b).

(** A double quote, and the two characters of an escaped double quote in
    a pattern. *)
Definition DQ : string := String DQUOTE EmptyString.
Definition BQ : string := String BACKSLASH (String DQUOTE EmptyString).

Module UnsafeBrowserIntentRule.

Definition issue_type : string :=
  "Unsafe Browser Intent Without Exception Handling".
Definition suggestion : string :=
  "Browser intent calls can fail if no browser app is installed. Wrap startActivity in try-catch with ActivityNotFoundException handling and show user-friendly error message.".

Definition BROWSER_INTENT_PATTERN : regex :=
  Eval vm_compute in
    re_compile "startActivity\s*\(\s*new\s+Intent\s*\(\s*Intent\.ACTION_VIEW\s*,\s*Uri\.parse\s*\(".

Record state := State {
  try_block_stack : list Z;
  catch_activity_not_found : bool;
  in_try_block : bool;
}.

Definition is_empty {A} (l : list A) : bool :=
  match l with
  | [] => true
  | _ => false
  end.

Definition body (st : state) (i : Z) (line : string) : gen state :=
  let line_num := i + 1 in
  let stripped_line := strip line in
  if blank_or_comment stripped_line then mret st
  else
    let st :=
      if str_in "try" stripped_line
         && (str_in "{" stripped_line || endswith stripped_line "try")
      then State (try_block_stack st ++ [line_num]) false true
      else st in
    let st :=
      if str_in "catch" stripped_line
         && str_in "ActivityNotFoundException" stripped_line
      then State (try_block_stack st) true (in_try_block st)
      else st in
    let st :=
      if String.eqb stripped_line "}" && negb (is_empty (try_block_stack st))
      then
        let stack := removelast (try_block_stack st) in
        if is_empty stack then State stack false false
        else State stack (catch_activity_not_found st) (in_try_block st)
      else st in
    if found (regex_search false BROWSER_INTENT_PATTERN line) then
      if negb (in_try_block st) then
        yield (issue line_num (strip line)
                 "Browser intent call without any exception handling. This will crash if no browser app is installed."
                 "HIGH");;
        mret st
      else if in_try_block st && negb (catch_activity_not_found st) then
        yield (issue line_num (strip line)
                 "Browser intent call in try block but no ActivityNotFoundException handling. Generic exception handling may not provide user-friendly error message."
                 "MEDIUM");;
        mret st
      else mret st
    else mret st.

Definition analyze_file (file_path : string) (lines : list string)
    : generator :=
  for_enumerate body (State [] false false) 0 lines.

Definition rule : Rule :=
  Build_Rule "UnsafeBrowserIntentRule" (Ok issue_type) (Ok suggestion) analyze_file.

End UnsafeBrowserIntentRule.

Module StrictQuickTileForegroundStartRule.

Definition issue_type : string :=
  "QuickTile starts service in background on Android 14+ without workaround".
Definition suggestion : string :=
  "For Android 14+, start an intermediate Activity via startActivityAndCollapse(PendingIntent) to initiate foreground work.".

Definition TILE_SERVICE_PATTERN : regex :=
  Eval vm_compute in re_compile "class\s+\w*Tile\w*\s*:\s*\w*TileService".
Definition DIRECT_ENABLE_CALL_PATTERN : regex :=
  Eval vm_compute in re_compile "\.(enable\(|enableMonitor\(|start\()".
Definition WORKAROUND_CALL_PATTERN : regex :=
  Eval vm_compute in re_compile "startActivityAndCollapse\s*\(.*PendingIntent".
Definition WORKAROUND_HELPER_PATTERN : regex :=
  Eval vm_compute in
    re_compile "isForegroundWorkaroundNeeded\s*\(\)|startWorkaround\s*\(".

(** The loop state is [in_tile]. *)
Definition body (lines : list string) (in_tile : bool) (i : Z) (raw : string)
    : gen bool :=
  let s := strip raw in
  if blank_or_comment s then mret in_tile
  else if found (regex_search false TILE_SERVICE_PATTERN s) then mret true
  else
    let in_tile := if in_tile && str_in "class " s then false else in_tile in
    if in_tile && (str_in "override fun start(" s
                   || str_in "override fun onClick(" s
                   || str_in "override fun onStartListening(" s)
    then
      let window_end := Z.min (len lines) (i + 20) in
      let window_text := window_text lines i window_end in
      let has_workaround :=
        found (regex_search false WORKAROUND_CALL_PATTERN window_text)
        || found (regex_search false WORKAROUND_HELPER_PATTERN window_text) in
      let has_direct_enable :=
        found (regex_search false DIRECT_ENABLE_CALL_PATTERN window_text) in
      if has_direct_enable && negb has_workaround then
        yield (issue (i + 1) s
                 "Tile triggers foreground work directly; add Android 14 workaround with startActivityAndCollapse(PendingIntent)."
                 "HIGH");;
        mret in_tile
      else mret in_tile
    else mret in_tile.

Definition analyze_file (file_path : string) (lines : list string)
    : generator :=
  if negb (endswith file_path ".kt") then mret tt
  else for_enumerate (body lines) false 0 lines.

Definition rule : Rule :=
  Build_Rule "StrictQuickTileForegroundStartRule" (Ok issue_type) (Ok suggestion) analyze_file.

End StrictQuickTileForegroundStartRule.

Module StrictTilePendingIntentWorkaroundRule.

Definition issue_type : string :=
  "Missing QuickTile PendingIntent + startActivityAndCollapse workaround".
Definition suggestion : string :=
  "Provide TileActivity.pendingIntent(...) and call startActivityAndCollapse(pendingIntent) on Android 14+.".

Definition PENDING_INTENT_CREATION_PATTERN : regex :=
  Eval vm_compute in
    re_compile "PendingIntent\.getActivity\s*\(.*PendingIntent\.(FLAG_IMMUTABLE|FLAG_UPDATE_CURRENT).*(\|\s*PendingIntent\.(FLAG_IMMUTABLE|FLAG_CANCEL_CURRENT))?".
Definition START_AND_COLLAPSE_PATTERN : regex :=
  Eval vm_compute in
    re_compile "startActivityAndCollapse\s*\(\s*pendingIntent\s*\)".

Definition analyze_file (file_path : string) (lines : list string)
    : generator :=
  if negb (endswith file_path ".kt") then mret tt
  else
    let content := join LF lines in
    let has_pending_intent :=
      found (regex_search false PENDING_INTENT_CREATION_PATTERN content) in
    let has_start_and_collapse :=
      found (regex_search false START_AND_COLLAPSE_PATTERN content) in
    if has_pending_intent && negb has_start_and_collapse then
      let line_num := 1 in
      yield (issue line_num "PendingIntent workaround incomplete"
               "Create PendingIntent for TileActivity but also call startActivityAndCollapse(pendingIntent) to trigger foreground work."
               "MEDIUM")
    else mret tt.

Definition rule : Rule :=
  Build_Rule "StrictTilePendingIntentWorkaroundRule" (Ok issue_type) (Ok suggestion) analyze_file.

End StrictTilePendingIntentWorkaroundRule.

Module StrictWithResumedUsageRule.

Definition issue_type : string :=
  "Use withResumed instead of repeatOnLifecycle(State.RESUMED)".
Definition suggestion : string :=
  "Replace repeatOnLifecycle(State.RESUMED) { ... } with withResumed { ... } when doing UI/navigation actions.".

Definition REPEAT_ON_RESUMED_PATTERN : regex :=
  Eval vm_compute in
    re_compile "repeatOnLifecycle\s*\(\s*Lifecycle\.State\.RESUMED\s*\)".
Definition UI_ACTION_HINT_PATTERN : regex :=
  Eval vm_compute in
    re_compile "(navigate|open|show|launch|commit|replace|fullScroll|isVisible|isGone|isInvisible)".

Definition body (lines : list string) (st : unit) (i : Z) (raw : string)
    : gen unit :=
  let s := strip raw in
  if blank_or_comment s then mret tt
  else if found (regex_search false REPEAT_ON_RESUMED_PATTERN s) then
    let window_end := Z.min (len lines) (i + 12) in
    let window_text := window_text lines i window_end in
    let has_ui_action :=
      found (regex_search false UI_ACTION_HINT_PATTERN window_text) in
    let severity := if has_ui_action then "HIGH" else "MEDIUM" in
    let detail :=
      "repeatOnLifecycle(RESUMED) used for UI/navigation; prefer withResumed to avoid state issues." in
    yield (issue (i + 1) s detail severity)
  else mret tt.

Definition analyze_file (file_path : string) (lines : list string)
    : generator :=
  if negb (endswith file_path ".kt" || endswith file_path ".java")
  then mret tt
  else for_enumerate (body lines) tt 0 lines.

Definition rule : Rule :=
  Build_Rule "StrictWithResumedUsageRule" (Ok issue_type) (Ok suggestion) analyze_file.

End StrictWithResumedUsageRule.

Module StrictRepeatOnLifecycleCreatedInitRule.

Definition issue_type : string :=
  "Avoid repeatOnLifecycle(CREATED) for one-shot initialization".
Definition suggestion : string :=
  "Call initialization directly or from lifecycleScope without repeatOnLifecycle(CREATED).".

Definition REPEAT_ON_CREATED_PATTERN : regex :=
  Eval vm_compute in
    re_compile "repeatOnLifecycle\s*\(\s*Lifecycle\.State\.CREATED\s*\)".
Definition ONE_SHOT_INIT_HINT_PATTERN : regex :=
  Eval vm_compute in
    re_compile "(initialize\s*\(|setup\s*\(|bind\s*\(|load\s*\(|onCreate\s*\()".

Definition body (lines : list string) (st : unit) (i : Z) (raw : string)
    : gen unit :=
  let s := strip raw in
  if blank_or_comment s then mret tt
  else if found (regex_search false REPEAT_ON_CREATED_PATTERN s) then
    let window_end := Z.min (len lines) (i + 10) in
    let window_text := window_text lines i window_end in
    let is_one_shot :=
      found (regex_search false ONE_SHOT_INIT_HINT_PATTERN window_text) in
    if is_one_shot then
      yield (issue (i + 1) s
               "repeatOnLifecycle(CREATED) wrapping a one-shot initializer; invoke directly instead."
               "LOW")
    else mret tt
  else mret tt.

Definition analyze_file (file_path : string) (lines : list string)
    : generator :=
  if negb (endswith file_path ".kt" || endswith file_path ".java")
  then mret tt
  else for_enumerate (body lines) tt 0 lines.

Definition rule : Rule :=
  Build_Rule "StrictRepeatOnLifecycleCreatedInitRule" (Ok issue_type) (Ok suggestion) analyze_file.

End StrictRepeatOnLifecycleCreatedInitRule.

Module StrictFileProviderAuthorityRule.

Definition issue_type : string := "Incorrect FileProvider authority".
Definition suggestion : string :=
  "Use the host app applicationId when building authority (applicationId + '.provider'); avoid library BuildConfig.".

Definition WRONG_AUTH_PATTERN : regex :=
  Eval vm_compute in
    re_compile
      ("FileProvider\.getUriForFile\s*\([^,]+,\s*([\w\.]+)\.BuildConfig\.APPLICATION_ID\s*\+\s*"
       ++ BQ ++ "\\.provider" ++ BQ).
Definition HARD_CODED_FOREIGN_PATTERN : regex :=
  Eval vm_compute in
    re_compile
      ("FileProvider\.getUriForFile\s*\([^,]+,\s*" ++ BQ
       ++ "[a-zA-Z0-9_\.]+\.provider" ++ BQ).

Definition body (st : unit) (i : Z) (raw : string) : gen unit :=
  let s := strip raw in
  if blank_or_comment s then mret tt
  else
    (if found (regex_search false WRONG_AUTH_PATTERN s) then
       yield (issue (i + 1) s
                "FileProvider authority built from library BuildConfig.APPLICATION_ID; may not match host app."
                "HIGH")
     else mret tt);;
    (if found (regex_search false HARD_CODED_FOREIGN_PATTERN s)
        && negb (str_in "BuildConfig.APPLICATION_ID" s)
        && negb (str_in ("+ " ++ DQ ++ ".provider" ++ DQ) s)
     then
       yield (issue (i + 1) s
                "Hard-coded authority may not match applicationId; prefer applicationId + '.provider'."
                "MEDIUM")
     else mret tt).

Definition analyze_file (file_path : string) (lines : list string)
    : generator :=
  if negb (endswith file_path ".java" || endswith file_path ".kt")
  then mret tt
  else for_enumerate body tt 0 lines.

Definition rule : Rule :=
  Build_Rule "StrictFileProviderAuthorityRule" (Ok issue_type) (Ok suggestion) analyze_file.

End StrictFileProviderAuthorityRule.

Module StrictFileProviderHelperSignatureRule.

Definition issue_type : string :=
  "FileProvider helper missing applicationId parameter".
Definition suggestion : string :=
  "Add applicationId parameter to helper and use it to build authority.".

Definition JAVA_HELPER_PATTERN : regex :=
  Eval vm_compute in
    re_compile "public\s+static\s+[\w\.]+\s+getUriFromFile\s*\(\s*Context\s+\w+\s*,\s*File\s+\w+\s*\)".
Definition KOTLIN_HELPER_PATTERN : regex :=
  Eval vm_compute in
    re_compile "fun\s+getUriFromFile\s*\(\s*context\s*:\s*Context\s*,\s*file\s*:\s*File\s*\)".

Definition body (st : unit) (i : Z) (raw : string) : gen unit :=
  let s := strip raw in
  if blank_or_comment s then mret tt
  else if found (regex_search false JAVA_HELPER_PATTERN s)
          || found (regex_search false KOTLIN_HELPER_PATTERN s)
  then
    yield (issue (i + 1) s
             "Helper should accept applicationId and avoid using library BuildConfig.APPLICATION_ID."
             "MEDIUM")
  else mret tt.

Definition analyze_file (file_path : string) (lines : list string)
    : generator :=
  if negb (endswith file_path ".java" || endswith file_path ".kt")
  then mret tt
  else for_enumerate body tt 0 lines.

Definition rule : Rule :=
  Build_Rule "StrictFileProviderHelperSignatureRule" (Ok issue_type) (Ok suggestion) analyze_file.

End StrictFileProviderHelperSignatureRule.

(** [m.group(n)], which is [None] for a group that took no part in the
    match. *)
Definition group_opt (m : match_obj) (n : nat) : option string :=
  cap_lookup n (m_caps m).

Definition AttributeError_startswith : exn :=
  Exn "AttributeError" "'NoneType' object has no attribute 'startswith'".

(** [literal.startswith("http://") or literal.startswith("https://")];
    on [None] the method call raises [AttributeError]. *)
Definition has_http_scheme (literal : option string) : result bool :=
  match literal with
  | Some literal =>
      Ok (startswith literal "http://" || startswith literal "https://")
  | None => Raise AttributeError_startswith
  end.

Module StrictSponsorBlockApiUrlRule.

Definition issue_type : string :=
  "SponsorBlock submit with empty/invalid API URL".
Definition suggestion : string :=
  "Pass a valid http/https base URL (e.g., apiUrl) to submitSponsorBlockSegment instead of an empty string.".

Definition EMPTY_URL_CALL_PATTERN : regex :=
  Eval vm_compute in
    re_compile ("submitSponsorBlockSegment\s*\([^\)]*,\s*" ++ BQ ++ BQ ++ "\s*\)").
Definition LITERAL_URL_CALL_PATTERN : regex :=
  Eval vm_compute in
    re_compile ("submitSponsorBlockSegment\s*\([^\)]*,\s*" ++ BQ ++ "([^" ++ BQ
                ++ "]+)" ++ BQ ++ "\s*\)").

Definition body (st : unit) (i : Z) (raw : string) : gen unit :=
  let s := strip raw in
  if blank_or_comment s then mret tt
  else
    (if found (regex_search false EMPTY_URL_CALL_PATTERN s) then
       yield (issue (i + 1) s
                "submitSponsorBlockSegment called with empty apiUrl string."
                "HIGH")
     else mret tt);;
    match regex_search false LITERAL_URL_CALL_PATTERN s with
    | Some m =>
        let literal := group_opt m 1 in
        with_scheme ← lift (W:=dict) (has_http_scheme literal);
        if negb with_scheme then
          yield (issue (i + 1) s
                   "submitSponsorBlockSegment uses a URL literal without http/https scheme."
                   "HIGH")
        else mret tt
    | None => mret tt
    end.

Definition analyze_file (file_path : string) (lines : list string)
    : generator :=
  if negb (endswith file_path ".java" || endswith file_path ".kt")
  then mret tt
  else for_enumerate body tt 0 lines.

Definition rule : Rule :=
  Build_Rule "StrictSponsorBlockApiUrlRule" (Ok issue_type) (Ok suggestion) analyze_file.

End StrictSponsorBlockApiUrlRule.

Module StrictHttpUrlSchemeRule.

Definition issue_type : string := "OkHttp URL without http/https scheme".
Definition suggestion : string :=
  "Ensure Request.Builder().url(...) and HttpUrl.get(...) receive a non-empty http/https URL.".

Definition REQUEST_BUILDER_URL_PATTERN : regex :=
  Eval vm_compute in
    re_compile ("Request\.Builder\s*\(\)\.url\s*\(\s*" ++ BQ ++ "([^" ++ BQ
                ++ "]*)" ++ BQ ++ "\s*\)").
Definition HTTPURL_GET_PATTERN : regex :=
  Eval vm_compute in
    re_compile ("HttpUrl\.(get|Companion\.get)\s*\(\s*" ++ BQ ++ "([^" ++ BQ
                ++ "]*)" ++ BQ ++ "\s*\)").

(** [literal == "" or not (literal.startswith("http://") or
    literal.startswith("https://"))]; [None == ""] is [False]. *)
Definition bad_literal (literal : option string) : result bool :=
  if match literal with
     | Some literal => String.eqb literal ""
     | None => false
     end
  then Ok true
  else with_scheme ← has_http_scheme literal; Ok (negb with_scheme).

Definition body (st : unit) (i : Z) (raw : string) : gen unit :=
  let s := strip raw in
  if blank_or_comment s then mret tt
  else
    match regex_search false REQUEST_BUILDER_URL_PATTERN s with
    | Some m1 =>
        let literal := group_opt m1 1 in
        bad ← lift (W:=dict) (bad_literal literal);
        if bad : bool then
          yield (issue (i + 1) s
                   "Request.Builder().url(...) is given an empty or non-http(s) literal."
                   "HIGH")
        else mret tt
    | None => mret tt
    end;;
    match regex_search false HTTPURL_GET_PATTERN s with
    | Some m2 =>
        let literal := group_opt m2 2 in
        bad ← lift (W:=dict) (bad_literal literal);
        if bad : bool then
          yield (issue (i + 1) s
                   "HttpUrl.get(...) is given an empty or non-http(s) literal."
                   "HIGH")
        else mret tt
    | None => mret tt
    end.

Definition analyze_file (file_path : string) (lines : list string)
    : generator :=
  if negb (endswith file_path ".java" || endswith file_path ".kt")
  then mret tt
  else for_enumerate body tt 0 lines.

Definition rule : Rule :=
  Build_Rule "StrictHttpUrlSchemeRule" (Ok issue_type) (Ok suggestion) analyze_file.

End StrictHttpUrlSchemeRule.

Module StrictFragmentDialogStateLossRule.

Definition issue_type : string :=
  "Dialog shown after onSaveInstanceState (state loss risk)".
Definition suggestion : string :=
  "Check isAdded() and !isStateSaved() before calling show() on a dialog or FragmentManager.".

Definition SHOW_DIALOG_PATTERN : regex :=
  Eval vm_compute in
    re_compile "\.show\s*\(\s*.*(getChildFragmentManager\(|getParentFragmentManager\(|getSupportFragmentManager\()".
Definition IS_ADDED_CHECK_PATTERN : regex :=
  Eval vm_compute in re_compile "isAdded\s*\(\s*\)".
Definition IS_STATE_SAVED_NEG_PATTERN : regex :=
  Eval vm_compute in re_compile "!\s*isStateSaved\s*\(\s*\)".

Definition body (lines : list string) (st : unit) (i : Z) (raw : string)
    : gen unit :=
  let s := strip raw in
  if blank_or_comment s then mret tt
  else if found (regex_search false SHOW_DIALOG_PATTERN s) then
    let window_start := Z.max 0 (i - 8) in
    let window_text := window_text lines window_start (i + 1) in
    let has_is_added :=
      found (regex_search false IS_ADDED_CHECK_PATTERN window_text) in
    let has_not_state_saved :=
      found (regex_search false IS_STATE_SAVED_NEG_PATTERN window_text) in
    if negb (has_is_added && has_not_state_saved) then
      yield (issue (i + 1) s
               "Dialog shown without checking isAdded() and !isStateSaved(); can crash after onSaveInstanceState."
               "HIGH")
    else mret tt
  else mret tt.

Definition analyze_file (file_path : string) (lines : list string)
    : generator :=
  if negb (endswith file_path ".java" || endswith file_path ".kt")
  then mret tt
  else for_enumerate (body lines) tt 0 lines.

Definition rule : Rule :=
  Build_Rule "StrictFragmentDialogStateLossRule" (Ok issue_type) (Ok suggestion) analyze_file.

End StrictFragmentDialogStateLossRule.
(** ** The file system seen by the scanner

    [os_walk] is what [os.walk(repo_path)] enumerates: for each directory
    its path, its sub-directories and its files. [open_readlines] is
    [open(path, 'r', encoding='utf-8')] followed by [readlines()]. *)

Record FileSystem := {
  os_walk : string -> list (string * list string * list string);
  open_readlines : string -> result (list string);
}.

(** [os.path.join(a, b)] *)
Definition path_join (a b : string) : string :=
  if startswith b "/" then b
  else if String.eqb a "" || endswith a "/" then a ++ b
  else a ++ "/" ++ b.

(** Printing: each [print] call emits one entry of the standard output. *)
Abbreviation io := (traced string).
Abbreviation printed := (@emitted string _).

Definition print (s : string) : io unit := emit s.

(** [str(v)], as an f-string renders a value. *)
Definition str_val (v : pyval) : string :=
  match v with
  | VInt n => str_int n
  | VStr s => s
  end.

(** [bool(v)] *)
Definition truthy (v : pyval) : bool :=
  match v with
  | VInt n => negb (n =? 0)
  | VStr s => negb (String.eqb s "")
  end.

(** ** Scanner engine *)

Module CodeScanner.

Record self := { rules : list Rule }.

(** [repr] of the list of rule names; a class name needs no escaping. *)
Definition repr_names (names : list string) : string :=
  "[" ++ join ", " ((fun n => "'" ++ n ++ "'") <$> names) ++ "]".

Definition __init__ (rules : list Rule) : io self :=
  match rules with
  | [] =>
      lift (Raise (ValueError
        "CodeScanner must be initialized with at least one rule."))
  | _ =>
      print ("✅ Scanner engine initialized, loaded "
             ++ str_int (len rules) ++ " rules: "
             ++ repr_names (name <$> rules));;
      mret {| rules := rules |}
  end.

(** *** Context extractor *)

(** One iteration of the loop of [_get_context_lines]. *)
Definition context_line (lines : list string) (target_line i : Z)
    : result string :=
  let line_num := i + 1 in
  let prefix := if line_num =? target_line then ">>> " else "    " in
  line ← py_index lines i;
  Ok (prefix ++ fmt_4d line_num ++ ": " ++ rstrip line).

Definition TypeError_sub_str_int : exn :=
  TypeError "unsupported operand type(s) for -: 'str' and 'int'".

(** The body of the [try] once the file has been read. *)
Definition context_block (lines : list string) (target_line : pyval)
    (context_size : Z) : result string :=
  match target_line with
  | VStr _ => Raise TypeError_sub_str_int
  | VInt target_line =>
      let start_line := Z.max 0 (target_line - context_size - 1) in
      let end_line := Z.min (len lines) (target_line + context_size) in
      context_lines ←
        mapM (context_line lines target_line) (py_range start_line end_line);
      Ok (join LF context_lines)
  end.

Definition _get_context_lines (fs : FileSystem) (file_path : string)
    (target_line : pyval) (context_size : Z) : string :=
  match (lines ← open_readlines fs file_path;
         context_block lines target_line context_size) with
  | Ok s => s
  | Raise e => "Unable to get context code: " ++ str_exn e
  end.

(** *** Formatting and scanning *)

Definition _format_issue (fs : FileSystem) (file_path : string)
    (rule : Rule) (issue_details : dict) : result dict :=
  target_line ← getitem issue_details "line_num";
  let context_lines := _get_context_lines fs file_path target_line 10 in
  line_num ← getitem issue_details "line_num";
  issue_type ← issue_type rule;
  code ← getitem issue_details "code";
  suggestion ← suggestion rule;
  Ok (<["detail" := dict_get issue_details "detail" (VStr "")]>
        (<["rule_name" := VStr (name rule)]>
           (<["suggestion" := VStr suggestion]>
              (<["context_code" := VStr context_lines]>
                 (<["code" := code]>
                    (<["issue_type" := VStr issue_type]>
                       (<["line_num" := line_num]>
                          (<["file_path" := VStr file_path]> ∅)))))))).

(** [for issue in rule.analyze_file(file_path, lines):
       all_issues.append(self._format_issue(file_path, rule, issue))]
    over the issues the generator yields before it ends. *)
Fixpoint append_issues (fs : FileSystem) (file_path : string) (rule : Rule)
    (issues : list dict) (all_issues : list dict)
    : list dict * result unit :=
  match issues with
  | [] => (all_issues, Ok tt)
  | issue :: issues' =>
      match _format_issue fs file_path rule issue with
      | Ok finding =>
          append_issues fs file_path rule issues' (all_issues ++ [finding])
      | Raise e => (all_issues, Raise e)
      end
  end.

Definition run_rule (fs : FileSystem) (file_path : string)
    (lines : list string) (rule : Rule) (all_issues : list dict)
    : list dict * result unit :=
  let g := analyze_file rule file_path lines in
  match append_issues fs file_path rule (yielded g) all_issues with
  | (all_issues, Ok _) => (all_issues, outcome g)
  | (all_issues, Raise e) => (all_issues, Raise e)
  end.

(** [for rule in self.rules: ...] *)
Fixpoint run_rules (fs : FileSystem) (file_path : string)
    (lines : list string) (rules : list Rule) (all_issues : list dict)
    : list dict * result unit :=
  match rules with
  | [] => (all_issues, Ok tt)
  | rule :: rules' =>
      match run_rule fs file_path lines rule all_issues with
      | (all_issues, Ok _) => run_rules fs file_path lines rules' all_issues
      | (all_issues, Raise e) => (all_issues, Raise e)
      end
  end.

(** The [try] block of one file and its [except Exception] handler. *)
Definition scan_file (self : self) (fs : FileSystem) (file_path : string)
    (all_issues : list dict) : io (list dict) :=
  let '(all_issues, status) :=
    match open_readlines fs file_path with
    | Ok lines => run_rules fs file_path lines (rules self) all_issues
    | Raise e => (all_issues, Raise e)
    end in
  match status with
  | Ok _ => mret all_issues
  | Raise e =>
      print ("❌ Error processing file " ++ file_path ++ ": " ++ str_exn e);;
      mret all_issues
  end.

(** [for file in files: ...] *)
Fixpoint scan_files (self : self) (fs : FileSystem) (root : string)
    (files : list string) (all_issues : list dict) : io (list dict) :=
  match files with
  | [] => mret all_issues
  | file :: files' =>
      all_issues ←
        (if endswith file ".kt" || endswith file ".java"
         then scan_file self fs (path_join root file) all_issues
         else mret all_issues);
      scan_files self fs root files' all_issues
  end.

(** [for root, _, files in os.walk(repo_path): ...] *)
Fixpoint scan_walk (self : self) (fs : FileSystem)
    (walk : list (string * list string * list string))
    (all_issues : list dict) : io (list dict) :=
  match walk with
  | [] => mret all_issues
  | (root, _, files) :: walk' =>
      all_issues ← scan_files self fs root files all_issues;
      scan_walk self fs walk' all_issues
  end.

Definition scan_repository (self : self) (fs : FileSystem)
    (repo_path : string) : io (list dict) :=
  scan_walk self fs (os_walk fs repo_path) [].

End CodeScanner.
(** ** Reporter: [report_issues] *)

(** [a < b] on values: integers by value, strings by code points; other
    pairs raise [TypeError]. *)
Fixpoint str_lt (a b : string) : bool :=
  match a, b with
  | _, EmptyString => false
  | EmptyString, String _ _ => true
  | String x a', String y b' =>
      if (ord x <? ord y)%N then true
      else if (ord y <? ord x)%N then false
      else str_lt a' b'
  end.

Definition py_lt (a b : pyval) : result bool :=
  match a, b with
  | VInt x, VInt y => Ok (x <? y)
  | VStr x, VStr y => Ok (str_lt x y)
  | _, _ => Raise (TypeError "'<' not supported between instances")
  end.

(** [sorted(l, key=...)] on a list already paired with its keys. Python's
    sort is stable and compares keys with [<] only; so does this insertion
    sort, which therefore returns the same list, and raises [TypeError]
    on the same inputs. *)
Fixpoint insert_by_key {A} (x : pyval * A) (l : list (pyval * A))
    : result (list (pyval * A)) :=
  match l with
  | [] => Ok [x]
  | y :: l' =>
      before ← py_lt (fst y) (fst x);
      if before : bool then l'' ← insert_by_key x l'; Ok (y :: l'')
      else Ok (x :: y :: l')
  end.

Fixpoint sort_by_key {A} (l : list (pyval * A)) : result (list (pyval * A)) :=
  match l with
  | [] => Ok []
  | x :: l' => s ← sort_by_key l'; insert_by_key x s
  end.

Definition with_key {A} (key : A -> result pyval) (x : A)
    : result (pyval * A) :=
  k ← key x; Ok (k, x).

Definition sorted {A} (l : list A) (key : A -> result pyval)
    : result (list A) :=
  keyed ← mapM (with_key key) l;
  s ← sort_by_key keyed;
  Ok (snd <$> (s : list (pyval * A))).

Definition pyval_eqb (a b : pyval) : bool :=
  match a, b with
  | VInt x, VInt y => x =? y
  | VStr x, VStr y => String.eqb x y
  | _, _ => false
  end.

(** [issues_by_file]: a dictionary in insertion order, which is the order
    in which [items()] enumerates it. *)
Definition groups := list (pyval * list dict).

Fixpoint has_key (k : pyval) (d : groups) : bool :=
  match d with
  | [] => false
  | (k', _) :: d' => pyval_eqb k k' || has_key k d'
  end.

(** [d[k].append(x)] for a key that is present. *)
Fixpoint append_at (k : pyval) (x : dict) (d : groups) : groups :=
  match d with
  | [] => []
  | (k', l) :: d' =>
      if pyval_eqb k k' then (k', (l ++ [x])%list) :: d'
      else (k', l) :: append_at k x d'
  end.

(** The grouping loop. *)
Fixpoint group_by_file (issues : list dict) (issues_by_file : groups)
    : result groups :=
  match issues with
  | [] => Ok issues_by_file
  | issue :: issues' =>
      file_path ← getitem issue "file_path";
      let issues_by_file :=
        if negb (has_key file_path issues_by_file)
        then (issues_by_file ++ [(file_path, [])])%list
        else issues_by_file in
      group_by_file issues' (append_at file_path issue issues_by_file)
  end.

Fixpoint repeat_str (s : string) (n : nat) : string :=
  match n with
  | O => ""
  | S n' => s ++ repeat_str s n'
  end.

Definition severity_icon (severity : pyval) : string :=
  if pyval_eqb severity (VStr "HIGH") then "🔴"
  else if pyval_eqb severity (VStr "MEDIUM") then "🟡"
  else if pyval_eqb severity (VStr "LOW") then "🟢"
  else "⚪".

(** The body of the inner loop: the lines printed for one issue. *)
Definition print_issue (issue : dict) : io unit :=
  let severity := dict_get issue "severity" (VStr "UNKNOWN") in
  let severity_icon := severity_icon severity in
  line_num ← lift (getitem issue "line_num");
  issue_type ← lift (getitem issue "issue_type");
  print ("  - " ++ severity_icon ++ " [L" ++ str_val line_num ++ "] "
         ++ str_val issue_type ++ " (" ++ str_val severity ++ ")");;
  code ← lift (getitem issue "code");
  print ("    Code: `" ++ str_val code ++ "`");;
  print "    Context:";;
  print ("    " ++ str_val (dict_get issue "context_code"
                              (VStr "No context information")));;
  suggestion ← lift (getitem issue "suggestion");
  print ("    Suggestion: " ++ str_val suggestion);;
  detail ← lift (getitem issue "detail");
  (if truthy detail
   then detail ← lift (getitem issue "detail");
        print ("    Detail: " ++ str_val detail)
   else mret tt);;
  print (repeat_str "-" 40).

Fixpoint print_issues (issues : list dict) : io unit :=
  match issues with
  | [] => mret tt
  | issue :: issues' => print_issue issue;; print_issues issues'
  end.

(** The body of the outer loop: one file and its issues. *)
Definition print_file (file_path : pyval) (file_issues : list dict)
    : io unit :=
  print (LF ++ repeat_str "=" 80);;
  print ("📄 File: " ++ str_val file_path);;
  print (repeat_str "=" 80);;
  ordered ← lift (sorted file_issues (fun x => getitem x "line_num"));
  print_issues ordered.

Fixpoint print_files (issues_by_file : groups) : io unit :=
  match issues_by_file with
  | [] => mret tt
  | (file_path, file_issues) :: rest =>
      print_file file_path file_issues;; print_files rest
  end.

Definition report_issues (issues : list dict) : io unit :=
  match issues with
  | [] => print (LF ++ "🎉 Scan completed! No issues found.")
  | _ =>
      print (LF ++ "🚨 Scan completed! Found " ++ str_int (len issues)
             ++ " potential issues:");;
      issues_by_file ← lift (group_by_file issues []);
      print_files issues_by_file
  end.
(** ** Vocabulary of the statements *)

(** [enumerate(lines, k)]: every line with its number. *)
Fixpoint enumerate_from (k : Z) (lines : list string) : list (Z * string) :=
  match lines with
  | [] => []
  | line :: lines' => (k, line) :: enumerate_from (k + 1) lines'
  end.

(** A line of a context block: the marker on the target line, the number
    in a field of four, the text without trailing white space. *)
Definition render_line (target_line : Z) (p : Z * string) : string :=
  (if fst p =? target_line then ">>> " else "    ")
  ++ fmt_4d (fst p) ++ ": " ++ rstrip (snd p).

(** The numbered lines whose number lies in [lo, hi]. *)
Definition window (lo hi : Z) (numbered : list (Z * string))
    : list (Z * string) :=
  List.filter (fun p => (lo <=? fst p) && (fst p <=? hi)) numbered.

(** The files a scan opens, in the order of the walk. *)
Definition is_candidate (file : string) : bool :=
  endswith file ".kt" || endswith file ".java".

Definition candidates (walk : list (string * list string * list string))
    : list string :=
  flat_map (fun '(root, _, files) =>
              path_join root <$> List.filter is_candidate files) walk.

(** What the [try] block of one file appends to [all_issues], and how the
    block ends. *)
Definition file_run (self : CodeScanner.self) (fs : FileSystem)
    (file_path : string) : list dict * result unit :=
  match open_readlines fs file_path with
  | Ok lines => CodeScanner.run_rules fs file_path lines (CodeScanner.rules self) []
  | Raise e => ([], Raise e)
  end.

Definition file_findings (self : CodeScanner.self) (fs : FileSystem)
    (file_path : string) : list dict :=
  fst (file_run self fs file_path).

(** The line printed by the handler when the block of a file raises. *)
Definition file_log (self : CodeScanner.self) (fs : FileSystem)
    (file_path : string) : list string :=
  match snd (file_run self fs file_path) with
  | Ok _ => []
  | Raise e => ["❌ Error processing file " ++ file_path ++ ": " ++ str_exn e]
  end.


Definition of_rule (rule_name : string) (finding : dict) : bool :=
  match finding !! "rule_name" with
  | Some v => pyval_eqb v (VStr rule_name)
  | None => false
  end.


(** Findings as the reporter needs them: the keys it reads are present
    and the line number is an integer. *)
Definition wf_finding (f : dict) : Prop :=
  is_Some (f !! "file_path")
  /\ (exists n, f !! "line_num" = Some (VInt n))
  /\ is_Some (f !! "issue_type")
  /\ is_Some (f !! "code")
  /\ is_Some (f !! "suggestion")
  /\ is_Some (f !! "detail").

Definition line_of (f : dict) : Z :=
  match f !! "line_num" with
  | Some (VInt n) => n
  | _ => 0
  end.

(** Whether the finding is filed under the key [p] of [issues_by_file]. *)
Definition path_is (p : pyval) (f : dict) : bool :=
  match f !! "file_path" with
  | Some v => pyval_eqb v p
  | None => false
  end.

(** The order of the report inside a file, on findings and on the pairs
    of a key and a finding that [sorted] works on. *)
Definition line_le (a b : dict) : Prop := line_of a <= line_of b.

Definition key_of {A} (p : pyval * A) : Z :=
  match fst p with
  | VInt n => n
  | VStr _ => 0
  end.

Definition key_le {A} (a b : pyval * A) : Prop := key_of a <= key_of b.

Definition int_key {A} (p : pyval * A) : Prop := exists n, fst p = VInt n.

(** The dictionary [issues_by_file] after the issues [processed]: under
    every key, the issues filed under it, in their order. *)
Definition groups_of (processed : list dict) (keys : list pyval) : groups :=
  (fun p => (p, List.filter (path_is p) processed)) <$> keys.

(** What the reporter prints for one finding, for the head of a file and
    for the summary. *)
Definition issue_lines (f : dict) : list string := printed (print_issue f).

Definition file_header (p : pyval) : list string :=
  [LF ++ repeat_str "=" 80; "📄 File: " ++ str_val p; repeat_str "=" 80].

Definition file_section (g : pyval * list dict) : list string :=
  file_header (fst g) ++ flat_map issue_lines (snd g).

Definition summary_line (issues : list dict) : string :=
  LF ++ "🚨 Scan completed! Found " ++ str_int (len issues)
  ++ " potential issues:".

Definition findings_of (t : io (list dict)) : list dict :=
  match outcome t with
  | Ok l => l
  | Raise _ => []
  end.

(** The rules of the module that are modelled here. *)
Definition modelled_rules : list Rule :=
  [ UnsafeStartActivityRule.rule;
    StrictPeertubeChannelIdParsingRule.rule;
    UnsafeArrayIndexAccessRule.rule;
    UnsafeNullableObjectAccessRule.rule;
    StrictFailedRequirementExceptionRule.rule ].

(** ** Example inputs *)

(** A repository with one Kotlin file of three lines. *)
Definition lines_A : list string :=
  ["fun f() {" ++ LF; "  addView(x)  " ++ LF; "}"].

Definition fs_one_file : FileSystem := {|
  os_walk := fun _ => [("repo", [], ["A.kt"])];
  open_readlines := fun path =>
    if String.eqb path "repo/A.kt" then Ok lines_A
    else Raise (Exn "FileNotFoundError" "No such file or directory");
|}.

(** The same repository on a file system that also holds other files. *)
Definition fs_one_file_more : FileSystem := {|
  os_walk := fun _ => [("repo", [], ["A.kt"])];
  open_readlines := fun path =>
    if String.eqb path "repo/A.kt" then Ok lines_A
    else if String.eqb path "notes.txt" then Ok ["addView(y)"]
    else Raise (Exn "FileNotFoundError" "No such file or directory");
|}.

Definition scanner_one : CodeScanner.self :=
  {| CodeScanner.rules := [StrictFailedRequirementExceptionRule.rule] |}.

(** One valid file and one that cannot be opened. *)
Definition fs_unreadable : FileSystem := {|
  os_walk := fun _ => [("repo", [], ["A.kt"; "B.kt"])];
  open_readlines := fun path =>
    if String.eqb path "repo/A.kt" then Ok lines_A
    else Raise (Exn "PermissionError" "[Errno 13] Permission denied: 'repo/B.kt'");
|}.

(** A Kotlin file with a call of [startActivity] and, on its second line,
    an anonymous function in parentheses. *)
Definition lines_C : list string :=
  ["startActivity(Intent(Intent.ACTION_VIEW, uri))" ++ LF;
   "(fun (x: Int) = x + 1)(41)" ++ LF].

Definition fs_C : FileSystem := {|
  os_walk := fun _ => [("repo", [], ["C.kt"])];
  open_readlines := fun path =>
    if String.eqb path "repo/C.kt" then Ok lines_C
    else Raise (Exn "FileNotFoundError" "No such file or directory");
|}.

Definition scanner_start : CodeScanner.self :=
  {| CodeScanner.rules := [UnsafeStartActivityRule.rule] |}.

(** Findings of two files, out of order. *)
Definition finding_at (path : string) (line : Z) : dict :=
  <["detail" := VStr ""]>
    (<["rule_name" := VStr "UnsafeStartActivityRule"]>
       (<["suggestion" := VStr UnsafeStartActivityRule.suggestion]>
          (<["context_code" := VStr ""]>
             (<["code" := VStr "startActivity(i)"]>
                (<["issue_type" := VStr UnsafeStartActivityRule.issue_type]>
                   (<["line_num" := VInt line]>
                      (<["file_path" := VStr path]> ∅))))))).


(** A Java file of one line, outside any method. *)
Definition lines_D : list string := ["x = arr[i];"].

(** A Java file of one line that calls a method on [player]. *)
Definition lines_E : list string := ["player.start();"].

(** ** Vocabulary of the further properties *)

(** The keys of a finding of the scanner. *)
Definition finding_keys : gset string :=
  list_to_set ["file_path"; "line_num"; "issue_type"; "code"; "context_code";
               "suggestion"; "rule_name"; "detail"].

(** The further rules modelled here. *)
Definition further_rules : list Rule :=
  [ UnsafeBrowserIntentRule.rule;
    StrictQuickTileForegroundStartRule.rule;
    StrictTilePendingIntentWorkaroundRule.rule;
    StrictWithResumedUsageRule.rule;
    StrictRepeatOnLifecycleCreatedInitRule.rule;
    StrictFileProviderAuthorityRule.rule;
    StrictFileProviderHelperSignatureRule.rule;
    StrictSponsorBlockApiUrlRule.rule;
    StrictHttpUrlSchemeRule.rule;
    StrictFragmentDialogStateLossRule.rule ].

(** The rules that report inside the loop over the lines of the file. *)
Definition line_rules : list Rule :=
  [ UnsafeStartActivityRule.rule;
    UnsafeArrayIndexAccessRule.rule;
    UnsafeNullableObjectAccessRule.rule;
    StrictFailedRequirementExceptionRule.rule;
    UnsafeBrowserIntentRule.rule;
    StrictQuickTileForegroundStartRule.rule;
    StrictWithResumedUsageRule.rule;
    StrictRepeatOnLifecycleCreatedInitRule.rule;
    StrictFileProviderAuthorityRule.rule;
    StrictFileProviderHelperSignatureRule.rule;
    StrictSponsorBlockApiUrlRule.rule;
    StrictHttpUrlSchemeRule.rule;
    StrictFragmentDialogStateLossRule.rule ].

(** The rules whose code has no operation that can raise. *)
Definition quiet_rules : list Rule :=
  UnsafeStartActivityRule.rule
  :: StrictPeertubeChannelIdParsingRule.rule :: further_rules.

(** The issues the rules of a scanner yield on one file, each with the
    path and the rule it comes from, in the order of the two loops. *)
Definition yielded_in (self : CodeScanner.self) (fs : FileSystem)
    (path : string) : list (string * Rule * dict) :=
  match open_readlines fs path with
  | Ok lines =>
      flat_map (fun r => (fun d => (path, r, d))
                           <$> yielded (analyze_file r path lines))
        (CodeScanner.rules self)
  | Raise _ => []
  end.

(** The line printed for a file that cannot be opened. *)
Definition open_log (fs : FileSystem) (path : string) : list string :=
  match open_readlines fs path with
  | Ok _ => []
  | Raise e => ["❌ Error processing file " ++ path ++ ": " ++ str_exn e]
  end.

(** The same tree with only the files a scan opens. *)
Definition prune (fs : FileSystem) : FileSystem := {|
  os_walk := fun repo_path =>
    (fun '(root, dirs, files) => (root, [], List.filter is_candidate files))
      <$> os_walk fs repo_path;
  open_readlines := open_readlines fs;
|}.

(** The test of [_find_method_start] on a line. *)
Definition is_method_header (line : string) : bool :=
  (str_in "public " line || str_in "private " line
   || str_in "protected " line)
  && (str_in "(" line && str_in ")" line).

(** The test of [StrictFailedRequirementExceptionRule] for the first line
    of a method. *)
Definition enters_method (stripped_line : string) : bool :=
  str_in "fun " stripped_line || str_in "void " stripped_line
  || str_in "override fun " stripped_line.

(** ** Further example inputs *)

(** The tree of [fs_unreadable], enumerated in the other order. *)
Definition fs_unreadable_rev : FileSystem := {|
  os_walk := fun _ => [("repo", [], ["B.kt"; "A.kt"])];
  open_readlines := open_readlines fs_unreadable;
|}.

(** A tree with a file that is not a candidate. *)
Definition fs_with_notes : FileSystem := {|
  os_walk := fun _ => [("repo", ["docs"], ["notes.txt"; "A.kt"])];
  open_readlines := open_readlines fs_one_file_more;
|}.

(** A Java method whose array access is guarded on the line above. *)
Definition lines_F : list string :=
  ["public int get(int[] arr, int i) {" ++ LF;
   "  if (i < arr.length)" ++ LF;
   "    return arr[i];" ++ LF;
   "}" ++ LF].



(** An issue about the line [line] read at index [i] of the loop: the
    line is neither blank nor a line comment, and the issue quotes it,
    stripped, under its number, with one of the three severities. *)
Definition reports_line (i : Z) (line : string) (d : dict) : Prop :=
  blank_or_comment (strip line) = false
  /\ exists detail severity,
       d = issue (i + 1) (strip line) detail severity
       /\ In severity ["HIGH"; "MEDIUM"; "LOW"].

(** A Kotlin file that calls [repeatOnLifecycle] twice. *)
Definition lines_G : list string :=
  ["// repeatOnLifecycle(Lifecycle.State.RESUMED)" ++ LF;
   "  repeatOnLifecycle(Lifecycle.State.RESUMED) {" ++ LF;
   "    navigate()" ++ LF;
   "  }" ++ LF;
   LF;
   "repeatOnLifecycle(Lifecycle.State.RESUMED) { }" ++ LF].

Definition fs_G : FileSystem := {|
  os_walk := fun _ => [("repo", [], ["G.kt"; "README.md"])];
  open_readlines := fun path =>
    if String.eqb path "repo/G.kt" then Ok lines_G
    else Raise (Exn "FileNotFoundError" "No such file or directory");
|}.

Definition scanner_quiet : CodeScanner.self :=
  {| CodeScanner.rules :=
       [StrictWithResumedUsageRule.rule; UnsafeBrowserIntentRule.rule] |}.

(** A line on which [StrictFailedRequirementExceptionRule] finds the start
    of a method but no name before the first parenthesis. *)
Definition nameless_method_line (line : string) : bool :=
  let stripped_line := strip line in
  negb (blank_or_comment stripped_line)
  && enters_method stripped_line
  && startswith stripped_line "(".

(** Whether group [n] stands where every match of the pattern goes
    through it: not under a repetition, and in both branches of an
    alternative it is under. *)
Fixpoint always_sets (n : nat) (r : regex) : bool :=
  match r with
  | RGroup m r' => Nat.eqb m n || always_sets n r'
  | RSeq r1 r2 => always_sets n r1 || always_sets n r2
  | RAlt r1 r2 => always_sets n r1 && always_sets n r2
  | _ => false
  end.
(** * Properties *)

Local Open Scope list_scope.

(** ** The error monad and indexing *)

Lemma bind_Ok {A B} (a : A) (k : A -> result B) : (Ok a ≫= k) = k a.
Proof. reflexivity. Qed.

Lemma py_index_lookup {A} (l : list A) (i : nat) (x : A) :
  l !! i = Some x -> py_index l (Z.of_nat i) = Ok x.
Proof.
  intros H. unfold py_index, len.
  pose proof (lookup_lt_Some _ _ _ H) as Hlt.
  destruct (Z.ltb_spec (Z.of_nat i) 0) as [?|_]; [lia|].
  destruct (Z.leb_spec 0 (Z.of_nat i)) as [_|?]; [|lia].
  destruct (Z.ltb_spec (Z.of_nat i) (Z.of_nat (length l))) as [_|?]; [|lia].
  simpl. rewrite Nat2Z.id, H. reflexivity.
Qed.

Lemma py_index_in_range {A} (l : list A) (i : Z) :
  0 <= i < len l -> exists x, l !! Z.to_nat i = Some x /\ py_index l i = Ok x.
Proof.
  intros Hi. unfold len in Hi.
  destruct (lookup_lt_is_Some_2 l (Z.to_nat i)) as [x Hx]; [lia|].
  exists x. split; [exact Hx|].
  rewrite <- (Z2Nat.id i) by lia. by apply py_index_lookup.
Qed.

(** ** Context extractor *)

Lemma enumerate_from_lookup (lines : list string) (k : Z) (i : nat) (l : string) :
  lines !! i = Some l ->
  enumerate_from k lines !! i = Some (k + Z.of_nat i, l).
Proof.
  revert k i. induction lines as [|x lines IH]; intros k [|i] H; simpl in *;
    try discriminate.
  - inversion H; subst. f_equal. f_equal. lia.
  - rewrite (IH (k + 1) i H). f_equal. f_equal. lia.
Qed.

Lemma enumerate_from_bounds (lines : list string) (k : Z) (p : Z * string) :
  In p (enumerate_from k lines) ->
  k <= fst p < k + len lines /\ lines !! Z.to_nat (fst p - k) = Some (snd p).
Proof.
  unfold len. revert k. induction lines as [|x lines IH]; intros k H; simpl in *.
  - contradiction.
  - destruct H as [<-|H]; simpl.
    + split; [lia|]. by rewrite Z.sub_diag.
    + destruct (IH _ H) as [Hb Hl]. split; [lia|].
      replace (Z.to_nat (fst p - k)) with (S (Z.to_nat (fst p - (k + 1)))) by lia.
      exact Hl.
Qed.

Lemma context_line_lookup (lines : list string) (t : Z) (a : nat) (l : string) :
  lines !! a = Some l ->
  CodeScanner.context_line lines t (Z.of_nat a)
  = Ok (render_line t (Z.of_nat a + 1, l)).
Proof.
  intros Hl. unfold CodeScanner.context_line.
  rewrite (py_index_lookup _ _ _ Hl). reflexivity.
Qed.

(** The loop of [_get_context_lines] over [range(a, a + n)] renders the
    slice of the numbered file that starts at position [a]. *)
Lemma mapM_context_line (lines : list string) (t : Z) (n a : nat) :
  (a + n <= length lines)%nat ->
  mapM (CodeScanner.context_line lines t) (seqZ (Z.of_nat a) (Z.of_nat n))
  = Ok (render_line t <$> take n (drop a (enumerate_from 1 lines))).
Proof.
  revert a. induction n as [|n IH]; intros a Hle.
  - reflexivity.
  - destruct (lookup_lt_is_Some_2 lines a) as [l Hl]; [lia|].
    rewrite Nat2Z.inj_succ, seqZ_cons by lia.
    replace (Z.succ (Z.of_nat a)) with (Z.of_nat (S a)) by lia.
    replace (Z.pred (Z.succ (Z.of_nat n))) with (Z.of_nat n) by lia.
    cbn [mapM]. rewrite (context_line_lookup _ _ _ _ Hl), IH by lia.
    rewrite (drop_S _ _ _ (enumerate_from_lookup lines 1 a l Hl)).
    replace (1 + Z.of_nat a) with (Z.of_nat a + 1) by lia. reflexivity.
Qed.

(** Filtering the numbered lines on a window of numbers is slicing. *)
Lemma window_slice (lines : list string) (lo hi k : Z) :
  window lo hi (enumerate_from k lines)
  = take (Z.to_nat (Z.min (k + len lines - 1) hi - Z.max k lo + 1))
         (drop (Z.to_nat (Z.max k lo - k)) (enumerate_from k lines)).
Proof.
  unfold window, len. revert k.
  induction lines as [|x lines IH]; intros k.
  - simpl. by rewrite drop_nil, take_nil.
  - cbn [enumerate_from List.filter fst length].
    rewrite IH. rewrite Nat2Z.inj_succ.
    destruct (Z.leb_spec lo k) as [Hlo|Hlo]; simpl.
    + destruct (Z.leb_spec k hi) as [Hhi|Hhi]; simpl.
      * replace (Z.to_nat (Z.max k lo - k)) with 0%nat by lia.
        replace (Z.to_nat (Z.max (k + 1) lo - (k + 1))) with 0%nat by lia.
        rewrite !drop_0.
        replace (Z.to_nat (Z.min (k + Z.succ (Z.of_nat (length lines)) - 1) hi
                           - Z.max k lo + 1))
          with (S (Z.to_nat (Z.min (k + 1 + Z.of_nat (length lines) - 1) hi
                             - Z.max (k + 1) lo + 1))) by lia.
        reflexivity.
      * replace (Z.to_nat (Z.min (k + 1 + Z.of_nat (length lines) - 1) hi
                           - Z.max (k + 1) lo + 1)) with 0%nat by lia.
        replace (Z.to_nat (Z.min (k + Z.succ (Z.of_nat (length lines)) - 1) hi
                           - Z.max k lo + 1)) with 0%nat by lia.
        reflexivity.
    + replace (Z.to_nat (Z.max k lo - k))
        with (S (Z.to_nat (Z.max (k + 1) lo - (k + 1)))) by lia.
      simpl.
      replace (Z.min (k + Z.succ (Z.of_nat (length lines)) - 1) hi - Z.max k lo)
        with (Z.min (k + 1 + Z.of_nat (length lines) - 1) hi - Z.max (k + 1) lo)
        by lia.
      reflexivity.
Qed.

(** For every target and every window size, the block is the rendering of
    the lines whose number is within [context_size] of the target. *)
Lemma context_block_window (lines : list string) (t w : Z) :
  CodeScanner.context_block lines (VInt t) w
  = Ok (join LF (render_line t <$> window (t - w) (t + w) (enumerate_from 1 lines))).
Proof.
  unfold CodeScanner.context_block, py_range.
  set (a := Z.max 0 (t - w - 1)). set (b := Z.min (len lines) (t + w)).
  assert (Hm : mapM (CodeScanner.context_line lines t) (seqZ a (b - a))
               = Ok (render_line t <$> window (t - w) (t + w) (enumerate_from 1 lines))).
  { rewrite window_slice.
    destruct (Z.le_gt_cases b a) as [Hba|Hba].
    - replace (seqZ a (b - a)) with (@nil Z)
        by (unfold seqZ; replace (Z.to_nat (b - a)) with 0%nat by lia; done).
      replace (Z.to_nat (Z.min (1 + len lines - 1) (t + w) - Z.max 1 (t - w) + 1))
        with 0%nat by (subst a b; lia).
      reflexivity.
    - replace a with (Z.of_nat (Z.to_nat a)) at 1 by (subst a; lia).
      replace (b - a) with (Z.of_nat (Z.to_nat (b - a))) by lia.
      rewrite mapM_context_line by (subst a b; unfold len in *; lia).
      subst a b; unfold len in *. do 2 f_equal. f_equal; [lia|]. f_equal. lia. }
  rewrite Hm. reflexivity.
Qed.

(** Clipping the window to the file changes nothing: the numbers of a file
    of [n] lines are [1..n]. *)
Lemma window_clip (lines : list string) (lo hi : Z) :
  window lo hi (enumerate_from 1 lines)
  = window (Z.max 1 lo) (Z.min (len lines) hi) (enumerate_from 1 lines).
Proof.
  unfold window. apply List.filter_ext_in. intros p Hp.
  destruct (enumerate_from_bounds _ _ _ Hp) as [Hb _].
  destruct (Z.leb_spec lo (fst p)), (Z.leb_spec (fst p) hi),
    (Z.leb_spec (Z.max 1 lo) (fst p)), (Z.leb_spec (fst p) (Z.min (len lines) hi));
    simpl; try reflexivity; lia.
Qed.

Lemma py_range_bounds (a b i : Z) : In i (py_range a b) -> a <= i < b.
Proof.
  unfold py_range. intros H. apply list_elem_of_In, elem_of_seqZ in H. lia.
Qed.

Lemma get_context_lines_read (fs : FileSystem) (file_path : string)
    (lines : list string) (t w : Z) :
  open_readlines fs file_path = Ok lines ->
  CodeScanner._get_context_lines fs file_path (VInt t) w
  = join LF (render_line t <$> window (t - w) (t + w) (enumerate_from 1 lines)).
Proof.
  intros Hr. unfold CodeScanner._get_context_lines.
  rewrite Hr, bind_Ok, context_block_window. reflexivity.
Qed.

(** C7. For a file of [n] lines and a target line [t] with [1 <= t <= n],
    the context block for the default window of 10 is made of exactly the
    lines numbered from [max 1 (t - 10)] to [min n (t + 10)], in order, each
    rendered with its 1-based number; the marker is on line [t] and on no
    other line, line [t] is part of the block, and every position read by
    the loop is a valid position of the file. *)
Theorem C7_context_window (fs : FileSystem) (file_path : string)
    (lines : list string) (t : Z) :
  open_readlines fs file_path = Ok lines ->
  1 <= t <= len lines ->
  let lo := Z.max 1 (t - 10) in
  let hi := Z.min (len lines) (t + 10) in
  CodeScanner._get_context_lines fs file_path (VInt t) 10
  = join LF (render_line t <$> window lo hi (enumerate_from 1 lines))
  /\ (forall p, In p (window lo hi (enumerate_from 1 lines)) ->
        lo <= fst p <= hi
        /\ lines !! Z.to_nat (fst p - 1) = Some (snd p)
        /\ (startswith (render_line t p) ">>> " = true <-> fst p = t))
  /\ (exists l, lines !! Z.to_nat (t - 1) = Some l
        /\ In (t, l) (window lo hi (enumerate_from 1 lines)))
  /\ Forall (fun i => 0 <= i < len lines)
       (py_range (Z.max 0 (t - 10 - 1)) (Z.min (len lines) (t + 10))).
Proof.
  intros Hr Ht lo hi. split; [|split; [|split]].
  - rewrite (get_context_lines_read _ _ _ _ _ Hr). by rewrite window_clip.
  - intros p Hp. apply List.filter_In in Hp as [Hin Hw].
    destruct (enumerate_from_bounds _ _ _ Hin) as [_ Hl].
    split; [lia|]. split; [exact Hl|].
    unfold render_line. destruct (Z.eqb_spec (fst p) t); simpl; split;
      try done; intros; congruence.
  - destruct (py_index_in_range lines (t - 1)) as [l [Hl _]]; [lia|].
    exists l. split; [exact Hl|].
    apply List.filter_In. split.
    + replace t with (1 + Z.of_nat (Z.to_nat (t - 1))) at 1 by lia.
      apply list_elem_of_In, list_elem_of_lookup. exists (Z.to_nat (t - 1)).
      by apply enumerate_from_lookup.
    + simpl. subst lo hi.
      destruct (Z.leb_spec (Z.max 1 (t - 10)) t),
        (Z.leb_spec t (Z.min (len lines) (t + 10))); simpl; try reflexivity; lia.
  - apply List.Forall_forall. intros i Hi. apply py_range_bounds in Hi.
    unfold len in *. lia.
Qed.

Lemma window_empty (lo hi : Z) (numbered : list (Z * string)) :
  hi < lo -> window lo hi numbered = [].
Proof.
  intros Hlt. unfold window. induction numbered as [|p l IH]; simpl; [done|].
  rewrite IH.
  destruct (Z.leb_spec lo (fst p)), (Z.leb_spec (fst p) hi); simpl;
    try reflexivity; lia.
Qed.

(** C10. For every file and every integer target line, also one below 1 or
    beyond the end of the file, the context extractor returns a block and
    not a failure: the block is the rendering of lines of the file whose
    1-based numbers lie in [1, n], every position the loop reads is a valid
    position, and for a target wholly outside the file (beyond [n + 10],
    below [-9], or any target on an empty file) the block is empty. *)
Theorem C10_context_total (fs : FileSystem) (file_path : string)
    (lines : list string) (t : Z) :
  open_readlines fs file_path = Ok lines ->
  (exists rendered : list (Z * string),
     CodeScanner.context_block lines (VInt t) 10
     = Ok (join LF (render_line t <$> rendered))
     /\ CodeScanner._get_context_lines fs file_path (VInt t) 10
        = join LF (render_line t <$> rendered)
     /\ Forall (fun p => 1 <= fst p <= len lines
                         /\ lines !! Z.to_nat (fst p - 1) = Some (snd p))
          rendered)
  /\ Forall (fun i => 0 <= i < len lines)
       (py_range (Z.max 0 (t - 10 - 1)) (Z.min (len lines) (t + 10)))
  /\ (t > len lines + 10 \/ t + 10 < 1 \/ lines = [] ->
      CodeScanner._get_context_lines fs file_path (VInt t) 10 = "").
Proof.
  intros Hr. split; [|split].
  - exists (window (t - 10) (t + 10) (enumerate_from 1 lines)).
    split; [apply context_block_window|].
    split; [by apply get_context_lines_read|].
    apply List.Forall_forall. intros p Hp.
    apply List.filter_In in Hp as [Hin _].
    destruct (enumerate_from_bounds _ _ _ Hin) as [Hb Hl].
    split; [lia|exact Hl].
  - apply List.Forall_forall. intros i Hi. apply py_range_bounds in Hi.
    unfold len in *. lia.
  - intros Hout. rewrite (get_context_lines_read _ _ _ _ _ Hr), window_clip.
    rewrite window_empty; [reflexivity|].
    destruct Hout as [H | [H | H] ]; [| |subst lines]; unfold len in *; simpl; lia.
Qed.

Lemma C7_context_window_witness :
  CodeScanner._get_context_lines fs_one_file "repo/A.kt" (VInt 2) 10
  = join LF ["       1: fun f() {"; ">>>    2:   addView(x)"; "       3: }"].
Proof.
  refine (proj1 (C7_context_window fs_one_file "repo/A.kt" lines_A 2 eq_refl _)).
  unfold len; simpl; lia.
Defined.

Lemma C10_context_total_witness :
  CodeScanner._get_context_lines fs_one_file "repo/A.kt" (VInt 14) 10 = "".
Proof.
  refine (proj2 (proj2 (C10_context_total fs_one_file "repo/A.kt" lines_A 14
                          eq_refl)) _).
  left. unfold len; simpl; lia.
Defined.

(** ** Scanner engine *)

Lemma traced_bind_Ok {W A B} (m : traced W A) (k : A -> traced W B) (a : A) :
  outcome m = Ok a ->
  (m ≫= k) = Traced (emitted m ++ emitted (k a)) (outcome (k a)).
Proof. intros H. unfold mbind, traced_bind. by rewrite H. Qed.

Lemma lift_Ok_bind {W A B} (a : A) (k : A -> traced W B) :
  (lift (Ok a) ≫= k) = k a.
Proof.
  unfold lift. erewrite traced_bind_Ok by reflexivity.
  by destruct (k a).
Qed.

(** The engine only ever appends to [all_issues]. *)
Lemma append_issues_acc fs file_path rule issues (acc : list dict) :
  CodeScanner.append_issues fs file_path rule issues acc
  = (acc ++ fst (CodeScanner.append_issues fs file_path rule issues []),
     snd (CodeScanner.append_issues fs file_path rule issues [])).
Proof.
  revert acc. induction issues as [|d issues IH]; intros acc; simpl.
  - by rewrite app_nil_r.
  - destruct (CodeScanner._format_issue fs file_path rule d) as [f|e]; simpl.
    + rewrite (IH (acc ++ [f])), (IH [f]). simpl. by rewrite <- app_assoc.
    + by rewrite app_nil_r.
Qed.

Lemma run_rule_acc fs file_path lines rule (acc : list dict) :
  CodeScanner.run_rule fs file_path lines rule acc
  = (acc ++ fst (CodeScanner.run_rule fs file_path lines rule []),
     snd (CodeScanner.run_rule fs file_path lines rule [])).
Proof.
  unfold CodeScanner.run_rule.
  rewrite (append_issues_acc _ _ _ _ acc).
  destruct (CodeScanner.append_issues fs file_path rule
              (yielded (analyze_file rule file_path lines)) []) as [l [[]|e]];
    reflexivity.
Qed.

Lemma run_rules_acc fs file_path lines rules (acc : list dict) :
  CodeScanner.run_rules fs file_path lines rules acc
  = (acc ++ fst (CodeScanner.run_rules fs file_path lines rules []),
     snd (CodeScanner.run_rules fs file_path lines rules [])).
Proof.
  revert acc. induction rules as [|r rules IH]; intros acc; simpl.
  - by rewrite app_nil_r.
  - rewrite (run_rule_acc _ _ _ _ acc).
    destruct (CodeScanner.run_rule fs file_path lines r []) as [l [[]|e]]; simpl.
    + rewrite (IH (acc ++ l)), (IH l). simpl. by rewrite app_assoc.
    + reflexivity.
Qed.

(** One file: the scan goes on whatever happens in the [try] block. *)
Lemma scan_file_spec self fs file_path (acc : list dict) :
  CodeScanner.scan_file self fs file_path acc
  = Traced (file_log self fs file_path)
           (Ok (acc ++ file_findings self fs file_path)).
Proof.
  unfold CodeScanner.scan_file, file_log, file_findings, file_run.
  destruct (open_readlines fs file_path) as [lines|e]; simpl.
  - rewrite (run_rules_acc _ _ _ _ acc).
    destruct (CodeScanner.run_rules fs file_path lines (CodeScanner.rules self) [])
      as [l [[]|e]]; reflexivity.
  - by rewrite app_nil_r.
Qed.

Lemma scan_files_spec self fs root files (acc : list dict) :
  CodeScanner.scan_files self fs root files acc
  = Traced
      (flat_map (file_log self fs) (path_join root <$> List.filter is_candidate files))
      (Ok (acc ++ flat_map (file_findings self fs)
                    (path_join root <$> List.filter is_candidate files))).
Proof.
  revert acc. induction files as [|file files IH]; intros acc.
  - simpl. by rewrite app_nil_r.
  - cbn [CodeScanner.scan_files List.filter]. fold (is_candidate file).
    destruct (is_candidate file).
    + rewrite scan_file_spec.
      erewrite traced_bind_Ok by reflexivity. rewrite IH.
      cbn [emitted outcome fmap list_fmap flat_map].
      by rewrite <- app_assoc.
    + erewrite traced_bind_Ok by reflexivity. rewrite IH. reflexivity.
Qed.

Lemma scan_walk_spec self fs walk (acc : list dict) :
  CodeScanner.scan_walk self fs walk acc
  = Traced (flat_map (file_log self fs) (candidates walk))
           (Ok (acc ++ flat_map (file_findings self fs) (candidates walk))).
Proof.
  revert acc. induction walk as [|[[root dirs] files] walk IH]; intros acc.
  - simpl. by rewrite app_nil_r.
  - cbn [CodeScanner.scan_walk]. rewrite scan_files_spec.
    erewrite traced_bind_Ok by reflexivity. rewrite IH.
    cbn [emitted outcome candidates flat_map].
    rewrite !flat_map_app, <- app_assoc. reflexivity.
Qed.

(** [scan_repository] never raises: it returns the findings of the
    candidate files in the order of the walk, and prints one line for each
    file whose block raised. *)
Lemma scan_repository_spec self fs repo_path :
  CodeScanner.scan_repository self fs repo_path
  = Traced (flat_map (file_log self fs) (candidates (os_walk fs repo_path)))
           (Ok (flat_map (file_findings self fs) (candidates (os_walk fs repo_path)))).
Proof. unfold CodeScanner.scan_repository. by rewrite scan_walk_spec. Qed.

Lemma scan_outcome self fs repo_path :
  outcome (CodeScanner.scan_repository self fs repo_path)
  = Ok (flat_map (file_findings self fs) (candidates (os_walk fs repo_path))).
Proof. by rewrite scan_repository_spec. Qed.

(** A formatted finding carries the path of its file and the name of its
    rule; it has no entry for the severity the rule assigned. *)
Lemma format_issue_keys fs file_path rule d finding :
  CodeScanner._format_issue fs file_path rule d = Ok finding ->
  finding !! "file_path" = Some (VStr file_path)
  /\ finding !! "rule_name" = Some (VStr (name rule))
  /\ finding !! "line_num" = d !! "line_num"
  /\ finding !! "severity" = None.
Proof.
  unfold CodeScanner._format_issue, getitem.
  destruct (d !! "line_num") as [n|]; [|discriminate]. rewrite !bind_Ok.
  destruct (issue_type rule) as [ty|]; [|discriminate]. rewrite bind_Ok.
  destruct (d !! "code") as [c|]; [|discriminate]. rewrite bind_Ok.
  destruct (suggestion rule) as [sg|]; [|discriminate]. rewrite bind_Ok.
  intros [= <-]. by simplify_map_eq.
Qed.

Lemma append_issues_keys fs file_path rule issues finding :
  In finding (fst (CodeScanner.append_issues fs file_path rule issues [])) ->
  finding !! "file_path" = Some (VStr file_path)
  /\ finding !! "rule_name" = Some (VStr (name rule))
  /\ finding !! "severity" = None
  /\ exists d, In d issues /\ finding !! "line_num" = d !! "line_num".
Proof.
  induction issues as [|d issues IH]; simpl; [done|].
  destruct (CodeScanner._format_issue fs file_path rule d) as [f|e] eqn:Hf;
    simpl; [|done].
  rewrite append_issues_acc. simpl. intros [<-|Hin].
  - destruct (format_issue_keys _ _ _ _ _ Hf) as (? & ? & ? & ?).
    repeat split; try done. exists d. auto.
  - destruct (IH Hin) as (? & ? & ? & d' & ? & ?).
    repeat split; try done. exists d'. auto.
Qed.

Lemma run_rule_keys fs file_path lines rule finding :
  In finding (fst (CodeScanner.run_rule fs file_path lines rule [])) ->
  finding !! "file_path" = Some (VStr file_path)
  /\ finding !! "rule_name" = Some (VStr (name rule))
  /\ finding !! "severity" = None
  /\ exists d, In d (yielded (analyze_file rule file_path lines))
       /\ finding !! "line_num" = d !! "line_num".
Proof.
  unfold CodeScanner.run_rule. intros H. apply (append_issues_keys fs).
  destruct (CodeScanner.append_issues fs file_path rule
              (yielded (analyze_file rule file_path lines)) []) as [l [[]|e]];
    exact H.
Qed.

Lemma run_rules_keys fs file_path lines rules finding :
  In finding (fst (CodeScanner.run_rules fs file_path lines rules [])) ->
  finding !! "file_path" = Some (VStr file_path)
  /\ finding !! "severity" = None
  /\ exists rule, In rule rules
       /\ finding !! "rule_name" = Some (VStr (name rule))
       /\ exists d, In d (yielded (analyze_file rule file_path lines))
            /\ finding !! "line_num" = d !! "line_num".
Proof.
  induction rules as [|r rules IH]; simpl; [done|].
  rewrite (run_rule_acc _ _ _ _ []). simpl.
  destruct (CodeScanner.run_rule fs file_path lines r []) as [l [[]|e]] eqn:Hr;
    simpl.
  - rewrite run_rules_acc. simpl. intros H. apply in_app_or in H as [H|H].
    + assert (Hl : In finding (fst (CodeScanner.run_rule fs file_path lines r [])))
        by (by rewrite Hr).
      destruct (run_rule_keys _ _ _ _ _ Hl) as (? & ? & ? & ?).
      repeat split; try done. exists r. auto.
    + destruct (IH H) as (? & ? & r' & ? & ?).
      repeat split; try done. exists r'. auto.
  - intros H.
    assert (Hl : In finding (fst (CodeScanner.run_rule fs file_path lines r [])))
      by (by rewrite Hr).
    destruct (run_rule_keys _ _ _ _ _ Hl) as (? & ? & ? & ?).
    repeat split; try done. exists r. auto.
Qed.

Lemma file_findings_keys self fs file_path finding :
  In finding (file_findings self fs file_path) ->
  finding !! "file_path" = Some (VStr file_path)
  /\ finding !! "severity" = None.
Proof.
  unfold file_findings, file_run.
  destruct (open_readlines fs file_path) as [lines|e]; simpl; [|done].
  intros H. destruct (run_rules_keys _ _ _ _ _ H) as (? & ? & _). done.
Qed.

(** The engine reads a file system through [os_walk] at the root and
    [open_readlines] at the file it is scanning, and through nothing else. *)
Lemma format_issue_ext fs1 fs2 file_path rule d :
  open_readlines fs1 file_path = open_readlines fs2 file_path ->
  CodeScanner._format_issue fs1 file_path rule d
  = CodeScanner._format_issue fs2 file_path rule d.
Proof.
  intros H. unfold CodeScanner._format_issue, CodeScanner._get_context_lines.
  by rewrite H.
Qed.

Lemma append_issues_ext fs1 fs2 file_path rule issues acc :
  open_readlines fs1 file_path = open_readlines fs2 file_path ->
  CodeScanner.append_issues fs1 file_path rule issues acc
  = CodeScanner.append_issues fs2 file_path rule issues acc.
Proof.
  intros H. revert acc. induction issues as [|d issues IH]; intros acc; simpl.
  - reflexivity.
  - rewrite (format_issue_ext fs1 fs2 _ _ _ H).
    destruct (CodeScanner._format_issue fs2 file_path rule d); auto.
Qed.

Lemma run_rules_ext fs1 fs2 file_path lines rules acc :
  open_readlines fs1 file_path = open_readlines fs2 file_path ->
  CodeScanner.run_rules fs1 file_path lines rules acc
  = CodeScanner.run_rules fs2 file_path lines rules acc.
Proof.
  intros H. revert acc. induction rules as [|r rules IH]; intros acc; simpl.
  - reflexivity.
  - unfold CodeScanner.run_rule. rewrite (append_issues_ext fs1 fs2 _ _ _ _ H).
    destruct (CodeScanner.append_issues fs2 file_path r
                (yielded (analyze_file r file_path lines)) acc) as [l [[]|e]];
      try reflexivity.
    destruct (outcome (analyze_file r file_path lines)); auto.
Qed.

Lemma file_run_ext self fs1 fs2 file_path :
  open_readlines fs1 file_path = open_readlines fs2 file_path ->
  file_run self fs1 file_path = file_run self fs2 file_path.
Proof.
  intros H. unfold file_run. rewrite <- H.
  destruct (open_readlines fs1 file_path) eqn:E; [|reflexivity].
  apply run_rules_ext. congruence.
Qed.

Lemma flat_map_ext_in {A B} (f g : A -> list B) (l : list A) :
  (forall x, In x l -> f x = g x) -> flat_map f l = flat_map g l.
Proof.
  induction l as [|x l IH]; intros H; simpl; [done|].
  rewrite (H x) by (by left). rewrite IH; [done|]. intros y Hy. apply H. by right.
Qed.

(** C9. Constructing the engine with an empty rule list raises
    [ValueError] at once, before anything is printed and without producing
    a scanner that could scan; constructing it with any non-empty rule list
    returns the scanner that holds exactly these rules. *)
Theorem C9_constructor :
  CodeScanner.__init__ []
  = Traced [] (Raise (ValueError
      "CodeScanner must be initialized with at least one rule."))
  /\ forall rules : list Rule, rules <> [] ->
       outcome (CodeScanner.__init__ rules)
       = Ok {| CodeScanner.rules := rules |}.
Proof.
  split; [reflexivity|]. intros [|r rules] H; [done|reflexivity].
Qed.

Lemma C9_constructor_witness :
  outcome (CodeScanner.__init__ [UnsafeStartActivityRule.rule])
  = Ok {| CodeScanner.rules := [UnsafeStartActivityRule.rule] |}.
Proof.
  apply (proj2 C9_constructor [UnsafeStartActivityRule.rule]). discriminate.
Defined.



(** The order of the enumeration only decides the order of the findings. *)
Lemma scan_order_independent (self : CodeScanner.self) (fs1 fs2 : FileSystem)
    (repo_path : string) (all1 all2 : list dict) :
  Permutation (candidates (os_walk fs1 repo_path))
              (candidates (os_walk fs2 repo_path)) ->
  (forall path, In path (candidates (os_walk fs1 repo_path)) ->
     open_readlines fs1 path = open_readlines fs2 path) ->
  outcome (CodeScanner.scan_repository self fs1 repo_path) = Ok all1 ->
  outcome (CodeScanner.scan_repository self fs2 repo_path) = Ok all2 ->
  Permutation all1 all2.
Proof.
  intros Hp Hr. rewrite !scan_repository_spec. simpl. intros [= <-] [= <-].
  rewrite (flat_map_ext_in (file_findings self fs1) (file_findings self fs2)).
  - by apply Permutation_flat_map.
  - intros path Hin. unfold file_findings.
    by rewrite (file_run_ext _ _ _ _ (Hr path Hin)).
Qed.

(** ** One bad file *)






(** ** Rule isolation *)

Lemma filter_run_rule_own fs file_path lines (r : Rule) :
  List.filter (fun f => negb (of_rule (name r) f))
    (fst (CodeScanner.run_rule fs file_path lines r [])) = [].
Proof.
  assert (H : forall f, In f (fst (CodeScanner.run_rule fs file_path lines r [])) ->
                of_rule (name r) f = true).
  { intros f Hf. destruct (run_rule_keys _ _ _ _ _ Hf) as (_ & Hn & _).
    unfold of_rule. rewrite Hn. simpl. apply String.eqb_refl. }
  induction (fst (CodeScanner.run_rule fs file_path lines r [])) as [|f l IH].
  - reflexivity.
  - cbn [List.filter]. rewrite (H f) by (by left). simpl.
    apply IH. intros. apply H. by right.
Qed.

Lemma run_rules_isolation fs file_path lines (rules1 rules2 : list Rule) (r : Rule) :
  snd (CodeScanner.run_rule fs file_path lines r []) = Ok tt ->
  List.filter (fun f => negb (of_rule (name r) f))
    (fst (CodeScanner.run_rules fs file_path lines (rules1 ++ r :: rules2) []))
  = List.filter (fun f => negb (of_rule (name r) f))
      (fst (CodeScanner.run_rules fs file_path lines (rules1 ++ rules2) [])).
Proof.
  intros Hok. induction rules1 as [|r1 rules1 IH].
  - cbn [app CodeScanner.run_rules].
    pose proof (filter_run_rule_own fs file_path lines r) as Hown.
    destruct (CodeScanner.run_rule fs file_path lines r []) as [l st].
    simpl in Hok, Hown. subst st.
    rewrite run_rules_acc. cbn [fst]. by rewrite List.filter_app, Hown.
  - cbn [app CodeScanner.run_rules].
    destruct (CodeScanner.run_rule fs file_path lines r1 []) as [l [[]|e]];
      [|reflexivity].
    rewrite (run_rules_acc _ _ _ (rules1 ++ r :: rules2) l).
    rewrite (run_rules_acc _ _ _ (rules1 ++ rules2) l).
    cbn [fst]. by rewrite !List.filter_app, IH.
Qed.

(** C4 (amended). When the removed rule raises on no candidate file
    (neither its generator nor the formatting of its issues), removing it
    from the rule list changes only the findings that carry its name: all
    other findings of the scan are the same, in the same order. *)
Theorem C4_rule_isolation (fs : FileSystem) (repo_path : string)
    (rules1 rules2 : list Rule) (r : Rule) :
  (forall path lines,
     In path (candidates (os_walk fs repo_path)) ->
     open_readlines fs path = Ok lines ->
     snd (CodeScanner.run_rule fs path lines r []) = Ok tt) ->
  exists full reduced : list dict,
    outcome (CodeScanner.scan_repository
               {| CodeScanner.rules := rules1 ++ r :: rules2 |} fs repo_path)
    = Ok full
    /\ outcome (CodeScanner.scan_repository
                  {| CodeScanner.rules := rules1 ++ rules2 |} fs repo_path)
       = Ok reduced
    /\ List.filter (fun f => negb (of_rule (name r) f)) full
       = List.filter (fun f => negb (of_rule (name r) f)) reduced.
Proof.
  intros Hok. rewrite !scan_repository_spec. cbn [outcome].
  eexists. eexists. split; [reflexivity|]. split; [reflexivity|].
  induction (candidates (os_walk fs repo_path)) as [|path paths IH].
  - reflexivity.
  - cbn [flat_map]. rewrite !List.filter_app. f_equal.
    + unfold file_findings, file_run. cbn [CodeScanner.rules].
      destruct (open_readlines fs path) as [lines|e] eqn:Hr; [|reflexivity].
      apply run_rules_isolation. apply Hok; [by left|exact Hr].
    + apply IH. intros p ls Hp. apply Hok. by right.
Qed.

Lemma C4_rule_isolation_witness :
  exists full reduced : list dict,
    outcome (CodeScanner.scan_repository
               {| CodeScanner.rules :=
                    [StrictFailedRequirementExceptionRule.rule]
                    ++ UnsafeStartActivityRule.rule
                    :: [UnsafeArrayIndexAccessRule.rule] |}
               fs_one_file "repo")
    = Ok full
    /\ outcome (CodeScanner.scan_repository
                  {| CodeScanner.rules :=
                       [StrictFailedRequirementExceptionRule.rule]
                       ++ [UnsafeArrayIndexAccessRule.rule] |}
                  fs_one_file "repo")
       = Ok reduced
    /\ List.filter (fun f => negb (of_rule "UnsafeStartActivityRule" f)) full
       = List.filter (fun f => negb (of_rule "UnsafeStartActivityRule" f)) reduced.
Proof.
  apply (C4_rule_isolation fs_one_file "repo"
           [StrictFailedRequirementExceptionRule.rule]
           [UnsafeArrayIndexAccessRule.rule] UnsafeStartActivityRule.rule).
  intros path lines [<-|[]] [= <-]. vm_compute. reflexivity.
Defined.

(** C4 as stated fails: with the rule list
    [StrictFailedRequirementExceptionRule; UnsafeStartActivityRule], the
    first rule raises [IndexError] on the second line of the file, the
    handler of the file drops the rest of its rules, and the scan has no
    finding; without the first rule the scan has the finding of
    [UnsafeStartActivityRule], which does not carry the name of the rule
    that was removed. *)
Lemma C4_counterexample :
  exists full reduced : list dict,
    outcome (CodeScanner.scan_repository
               {| CodeScanner.rules :=
                    [StrictFailedRequirementExceptionRule.rule;
                     UnsafeStartActivityRule.rule] |} fs_C "repo")
    = Ok full
    /\ outcome (CodeScanner.scan_repository
                  {| CodeScanner.rules := [UnsafeStartActivityRule.rule] |}
                  fs_C "repo")
       = Ok reduced
    /\ List.filter
         (fun f => negb (of_rule "StrictFailedRequirementExceptionRule" f)) full
       <> List.filter
            (fun f => negb (of_rule "StrictFailedRequirementExceptionRule" f))
            reduced.
Proof.
  do 2 eexists. split; [apply scan_outcome|]. split; [apply scan_outcome|].
  intros Heq. apply (f_equal length) in Heq. vm_compute in Heq. discriminate.
Qed.

(** ** Severity *)

(** No finding of a scan has a severity. *)
Lemma scan_findings_no_severity self fs repo_path all_issues finding :
  outcome (CodeScanner.scan_repository self fs repo_path) = Ok all_issues ->
  In finding all_issues ->
  finding !! "severity" = None
  /\ severity_icon (dict_get finding "severity" (VStr "UNKNOWN")) = "⚪".
Proof.
  rewrite scan_outcome. intros [= <-] Hin.
  apply in_flat_map in Hin as (path & _ & Hin).
  destruct (file_findings_keys _ _ _ _ Hin) as [_ Hs].
  split; [exact Hs|]. unfold dict_get. by rewrite Hs.
Qed.

(** C1 fails on the code. On the file [repo/C.kt] the rule
    [UnsafeStartActivityRule] yields one issue and assigns it the severity
    HIGH; the finding the engine builds from it has no severity, and the
    reporter prints it with the marker and the label of an unknown
    severity. *)
Theorem C1_severity_dropped :
  (fun d : dict => d !! "severity")
    <$> yielded (analyze_file UnsafeStartActivityRule.rule "repo/C.kt" lines_C)
  = [Some (VStr "HIGH")]
  /\ (fun f : dict => (f !! "rule_name", f !! "line_num", f !! "severity"))
       <$> findings_of (CodeScanner.scan_repository scanner_start fs_C "repo")
     = [(Some (VStr "UnsafeStartActivityRule"), Some (VInt 1), None)]
  /\ printed (report_issues
                (findings_of (CodeScanner.scan_repository scanner_start fs_C "repo")))
       !! 4%nat
     = Some "  - ⚪ [L1] Unsafe startActivity Call Without Exception Handling (UNKNOWN)".
Proof. repeat split; vm_compute; reflexivity. Qed.

(** ** Reporter *)

Lemma pyval_eqb_spec (a b : pyval) : reflect (a = b) (pyval_eqb a b).
Proof.
  destruct a as [x|x], b as [y|y]; simpl; try (constructor; discriminate).
  - destruct (Z.eqb_spec x y); constructor; congruence.
  - destruct (String.eqb_spec x y); constructor; congruence.
Qed.

Lemma pyval_eqb_refl (a : pyval) : pyval_eqb a a = true.
Proof. by destruct (pyval_eqb_spec a a). Qed.

(** *** Printing the findings of a file *)

Lemma print_issue_ok (f : dict) :
  wf_finding f -> print_issue f = Traced (issue_lines f) (Ok tt).
Proof.
  intros (_ & [n Hn] & [ty Hty] & [c Hc] & [sg Hsg] & [dt Hdt]).
  unfold issue_lines. destruct (print_issue f) as [out res] eqn:E.
  cbn [emitted]. f_equal.
  change res with (outcome (Traced out res)). rewrite <- E.
  unfold print_issue, getitem. rewrite Hn, Hty, Hc, Hsg, Hdt.
  cbn [mbind traced_bind lift print emit outcome emitted mret traced_ret].
  destruct (truthy dt); reflexivity.
Qed.

Lemma print_issues_ok (l : list dict) :
  Forall wf_finding l ->
  print_issues l = Traced (flat_map issue_lines l) (Ok tt).
Proof.
  induction 1 as [|f l Hf _ IH]; [reflexivity|].
  cbn [print_issues flat_map]. rewrite (print_issue_ok f Hf), IH. reflexivity.
Qed.

(** *** [sorted] on integer keys *)

Lemma insert_by_key_int {A} (x : pyval * A) (s : list (pyval * A)) :
  int_key x -> Forall int_key s ->
  exists s', insert_by_key x s = Ok s'
    /\ Permutation s' (x :: s)
    /\ Forall int_key s'
    /\ (forall y, key_le y x -> HdRel key_le y s -> HdRel key_le y s')
    /\ (Sorted key_le s -> Sorted key_le s').
Proof.
  intros [n Hn] Hs. induction Hs as [|y s [m Hm] Hs IH].
  - exists [x]. repeat split; auto.
    constructor; [|constructor]. by exists n.
  - destruct IH as (s' & Hi & Hp & Hk & Hh & Hsorted).
    cbn [insert_by_key]. rewrite Hm, Hn. cbn [py_lt]. rewrite bind_Ok.
    destruct (Z.ltb_spec m n) as [Hlt|Hge].
    + rewrite Hi, bind_Ok. exists (y :: s'). split; [reflexivity|].
      split; [rewrite Hp; apply perm_swap|].
      split; [constructor; [by exists m|exact Hk]|].
      split.
      * intros z Hzx Hz. constructor. by inversion Hz.
      * intros Hso. inversion Hso as [|? ? Hso' Hhd]; subst.
        constructor; [by apply Hsorted|]. apply Hh; [|exact Hhd].
        unfold key_le, key_of. rewrite Hm, Hn. lia.
    + exists (x :: y :: s). split; [reflexivity|]. split; [reflexivity|].
      split; [constructor; [by exists n|constructor; [by exists m|exact Hs] ]|].
      split.
      * intros z Hzx _. by constructor.
      * intros Hso. constructor; [exact Hso|]. constructor.
        unfold key_le, key_of. rewrite Hm, Hn. lia.
Qed.

Lemma sort_by_key_int {A} (l : list (pyval * A)) :
  Forall int_key l ->
  exists s, sort_by_key l = Ok s
    /\ Permutation s l /\ Forall int_key s /\ Sorted key_le s.
Proof.
  induction 1 as [|x l Hx _ IH].
  - exists []. repeat split; constructor.
  - destruct IH as (s & Hs & Hp & Hk & Hso).
    destruct (insert_by_key_int x s Hx Hk) as (s' & Hi & Hp' & Hk' & _ & Hso').
    exists s'. cbn [sort_by_key]. rewrite Hs, bind_Ok.
    split; [exact Hi|]. split; [by rewrite Hp', Hp|]. split; [exact Hk'|auto].
Qed.

Lemma mapM_with_key (l : list dict) :
  Forall wf_finding l ->
  mapM (with_key (fun x => getitem x "line_num")) l
  = Ok ((fun f => (VInt (line_of f), f)) <$> l).
Proof.
  induction 1 as [|f l Hf _ IH]; [reflexivity|].
  destruct Hf as (_ & [n Hn] & _).
  cbn [mapM fmap list_fmap]. rewrite IH.
  unfold with_key, getitem, line_of. rewrite Hn. reflexivity.
Qed.

(** [sorted(file_issues, key=lambda x: x['line_num'])] returns the same
    findings in ascending order of their line numbers. *)
Lemma sorted_by_line_num (l : list dict) :
  Forall wf_finding l ->
  exists ordered, sorted l (fun x => getitem x "line_num") = Ok ordered
    /\ Permutation ordered l /\ Sorted line_le ordered.
Proof.
  intros Hwf. unfold sorted. rewrite (mapM_with_key l Hwf), bind_Ok.
  set (keyed := (fun f => (VInt (line_of f), f)) <$> l).
  assert (Hfst : forall p, In p keyed -> fst p = VInt (line_of (snd p))).
  { intros p Hp. apply list_elem_of_In, list_elem_of_fmap in Hp as (f & -> & _).
    reflexivity. }
  destruct (sort_by_key_int keyed) as (s & Hs & Hp & _ & Hso).
  { apply List.Forall_forall. intros p Hp. exists (line_of (snd p)). auto. }
  rewrite Hs, bind_Ok. exists (snd <$> s). split; [reflexivity|]. split.
  - rewrite Hp. unfold keyed. rewrite <- list_fmap_compose.
    by rewrite list_fmap_id.
  - assert (Hin : forall p, In p s -> fst p = VInt (line_of (snd p))).
    { intros p Hin. apply Hfst. eapply Permutation_in; eauto. }
    clear Hs Hp. induction Hso as [|p s Hso IH Hhd]; [constructor|].
    cbn [fmap list_fmap]. constructor.
    + apply IH. intros q Hq. apply Hin. by right.
    + destruct Hhd as [|q s' Hpq]; [constructor|]. constructor.
      unfold key_le, key_of in Hpq.
      rewrite (Hin p) in Hpq by (by left).
      rewrite (Hin q) in Hpq by (right; by left). exact Hpq.
Qed.

(** *** Grouping by file *)

Lemma has_key_spec (p : pyval) (g : groups) :
  has_key p g = true <-> In p (fst <$> g).
Proof.
  induction g as [|[k l] g IH]; simpl; [split; [discriminate|tauto]|].
  destruct (pyval_eqb_spec p k) as [->|Hne]; simpl.
  - split; auto.
  - rewrite IH. split; [auto|]. intros [H|H]; [congruence|exact H].
Qed.

Lemma groups_of_keys (processed : list dict) (keys : list pyval) :
  fst <$> groups_of processed keys = keys.
Proof.
  unfold groups_of. rewrite <- list_fmap_compose. apply list_fmap_id.
Qed.

Lemma path_is_eq (f : dict) (v p : pyval) :
  f !! "file_path" = Some v -> path_is p f = pyval_eqb v p.
Proof. intros H. unfold path_is. by rewrite H. Qed.

Lemma filter_snoc {A} (P : A -> bool) (l : list A) (x : A) :
  List.filter P (l ++ [x]) = List.filter P l ++ (if P x then [x] else []).
Proof. rewrite List.filter_app. reflexivity. Qed.

(** Filing [f] under a key that is present. *)
Lemma append_at_groups (processed : list dict) (keys : list pyval)
    (f : dict) (v : pyval) :
  f !! "file_path" = Some v -> List.NoDup keys -> In v keys ->
  append_at v f (groups_of processed keys) = groups_of (processed ++ [f]) keys.
Proof.
  intros Hv. unfold groups_of.
  induction keys as [|k keys IH]; intros Hnd Hin; [destruct Hin|].
  inversion Hnd as [|? ? Hk Hnd']; subst.
  cbn [fmap list_fmap append_at].
  rewrite filter_snoc, (path_is_eq f v k Hv).
  destruct (pyval_eqb_spec v k) as [->|Hne].
  - f_equal. apply list_fmap_ext. intros i p Hp. f_equal.
    rewrite filter_snoc, (path_is_eq f k p Hv).
    destruct (pyval_eqb_spec k p) as [->|_]; [|by rewrite app_nil_r].
    apply list_elem_of_lookup_2, list_elem_of_In in Hp. contradiction.
  - rewrite app_nil_r. f_equal. apply IH; [exact Hnd'|].
    destruct Hin as [->|Hin]; [congruence|exact Hin].
Qed.

(** Filing [f] under a key that is new. *)
Lemma append_at_last (g : groups) (f : dict) (v : pyval) :
  ~ In v (fst <$> g) -> append_at v f (g ++ [(v, [])]) = g ++ [(v, [f])].
Proof.
  induction g as [|[k l] g IH]; intros Hnew; cbn [app append_at].
  - by rewrite pyval_eqb_refl.
  - destruct (pyval_eqb_spec v k) as [->|Hne]; [exfalso; apply Hnew; by left|].
    f_equal. apply IH. intros H. apply Hnew. by right.
Qed.

Lemma groups_of_new (processed : list dict) (keys : list pyval)
    (f : dict) (v : pyval) :
  f !! "file_path" = Some v -> ~ In v keys ->
  (forall f', In f' processed ->
     exists v', f' !! "file_path" = Some v' /\ In v' keys) ->
  groups_of (processed ++ [f]) (keys ++ [v])
  = groups_of processed keys ++ [(v, [f])].
Proof.
  intros Hv Hnew Hcov. unfold groups_of. rewrite fmap_app. f_equal.
  - apply list_fmap_ext. intros i p Hp. f_equal.
    rewrite filter_snoc, (path_is_eq f v p Hv).
    destruct (pyval_eqb_spec v p) as [->|_]; [|by rewrite app_nil_r].
    apply list_elem_of_lookup_2, list_elem_of_In in Hp. contradiction.
  - cbn [fmap list_fmap]. do 2 f_equal.
    rewrite filter_snoc, (path_is_eq f v v Hv), pyval_eqb_refl.
    replace (List.filter (path_is v) processed) with (@nil dict); [reflexivity|].
    symmetry. clear Hv. induction processed as [|f' l IH]; [reflexivity|].
    cbn [List.filter]. destruct (Hcov f') as (v' & Hv' & Hin'); [by left|].
    rewrite (path_is_eq f' v' v Hv').
    destruct (pyval_eqb_spec v' v) as [->|_]; [contradiction|].
    apply IH. intros. apply Hcov. by right.
Qed.

(** The grouping loop: from the dictionary of the issues already
    processed to the dictionary of all of them. *)
Lemma group_by_file_spec (issues processed : list dict) (keys : list pyval) :
  Forall wf_finding issues ->
  List.NoDup keys ->
  (forall f, In f processed ->
     exists v, f !! "file_path" = Some v /\ In v keys) ->
  exists keys',
    group_by_file issues (groups_of processed keys)
    = Ok (groups_of (processed ++ issues) keys')
    /\ List.NoDup keys'
    /\ (forall f, In f (processed ++ issues) ->
          exists v, f !! "file_path" = Some v /\ In v keys').
Proof.
  intros Hwf. revert processed keys.
  induction Hwf as [|f issues Hf _ IH]; intros processed keys Hnd Hcov.
  - exists keys. rewrite app_nil_r. auto.
  - destruct Hf as ([v Hv] & _).
    cbn [group_by_file]. unfold getitem. rewrite Hv, bind_Ok.
    destruct (has_key v (groups_of processed keys)) eqn:Hk; cbn [negb].
    + apply has_key_spec in Hk. rewrite groups_of_keys in Hk.
      rewrite (append_at_groups _ _ _ _ Hv Hnd Hk).
      destruct (IH (processed ++ [f]) keys Hnd) as (keys' & Hg & Hnd' & Hcov').
      { intros f' Hf'. apply in_app_or in Hf' as [Hf'|[<-|[]]]; eauto. }
      exists keys'. rewrite <- app_assoc in Hg, Hcov'. auto.
    + assert (Hnew : ~ In v keys).
      { intros Hin. rewrite <- (groups_of_keys processed keys) in Hin.
        apply has_key_spec in Hin. congruence. }
      rewrite append_at_last by (by rewrite groups_of_keys).
      rewrite <- (groups_of_new _ _ _ _ Hv Hnew Hcov).
      destruct (IH (processed ++ [f]) (keys ++ [v])) as (keys' & Hg & Hnd' & Hcov').
      { apply List.NoDup_app; [exact Hnd|constructor; [tauto|constructor]|].
        intros x Hx [<-|[]]. contradiction. }
      { intros f' Hf'. apply in_app_or in Hf' as [Hf'|[<-|[]]].
        - destruct (Hcov f' Hf') as (v' & ? & ?). exists v'. split; auto.
          apply in_or_app. by left.
        - exists v. split; auto. apply in_or_app. right. by left. }
      exists keys'. rewrite <- app_assoc in Hg, Hcov'. auto.
Qed.

(** *** The report *)







(** The findings of a scan are findings the reporter can print, as long
    as the rules give integers for line numbers. *)
Lemma format_issue_wf fs file_path rule d finding :
  CodeScanner._format_issue fs file_path rule d = Ok finding ->
  (exists n, d !! "line_num" = Some (VInt n)) ->
  wf_finding finding.
Proof.
  unfold CodeScanner._format_issue, getitem. intros H [n Hn]. rewrite Hn in H.
  rewrite !bind_Ok in H.
  destruct (issue_type rule) as [ty|]; [|discriminate]. rewrite bind_Ok in H.
  destruct (d !! "code") as [c|]; [|discriminate]. rewrite bind_Ok in H.
  destruct (suggestion rule) as [sg|]; [|discriminate]. rewrite bind_Ok in H.
  injection H as <-. unfold wf_finding.
  repeat split; try (eexists; by simplify_map_eq).
Qed.

(** ** Rules: line numbers *)

Lemma traced_bind_In {W A B} (m : traced W A) (k : A -> traced W B) (w : W) :
  In w (emitted (m ≫= k)) ->
  In w (emitted m) \/ exists a, outcome m = Ok a /\ In w (emitted (k a)).
Proof.
  unfold mbind, traced_bind. destruct (outcome m) as [a|e]; cbn [emitted].
  - intros H. apply in_app_or in H as [H|H]; eauto.
  - auto.
Qed.

Lemma issue_line_num (n : Z) (code detail severity : string) :
  issue n code detail severity !! "line_num" = Some (VInt n).
Proof. unfold issue. by simplify_map_eq. Qed.

(** Case analysis on a hypothesis [H : In d (emitted body)]: follows the
    binds and the branches of [body] down to the [yield]s. *)
Ltac yields H :=
  repeat first
    [ apply traced_bind_In in H as [H | (? & ? & H)]
    | match type of H with
      | In _ (emitted (if ?c then _ else _)) => destruct c
      | In _ (emitted (match ?x with _ => _ end)) => destruct x
      | In _ (emitted (mret _)) => destruct H
      | In _ (emitted (lift _)) => destruct H
      | In _ (emitted (yield _)) => destruct H as [<- | []]
      | In _ [] => destruct H
      end ].

(** A loop over [enumerate(lines)] whose body only yields issues at the
    line it is looking at yields line numbers of the file. *)
Lemma for_enumerate_line_nums {S} (body : S -> Z -> string -> gen S)
    (ls : list string) :
  (forall st i line d, In d (yielded (body st i line)) ->
     d !! "line_num" = Some (VInt (i + 1))) ->
  forall st i d, In d (yielded (for_enumerate body st i ls)) ->
    exists n, d !! "line_num" = Some (VInt n) /\ i + 1 <= n <= i + len ls.
Proof.
  intros Hbody. induction ls as [|line ls IH]; intros st i d H.
  - destruct H.
  - cbn [for_enumerate] in H.
    apply traced_bind_In in H as [H | (st' & _ & H)].
    + exists (i + 1). split; [by apply (Hbody st i line)|].
      unfold len. cbn [length]. lia.
    + destruct (IH _ _ _ H) as (n & Hn & Hr). exists n. split; [exact Hn|].
      unfold len in *. cbn [length]. lia.
Qed.

Lemma UnsafeStartActivityRule_body_line st i line d :
  In d (yielded (UnsafeStartActivityRule.body st i line)) ->
  d !! "line_num" = Some (VInt (i + 1)).
Proof.
  unfold UnsafeStartActivityRule.body. cbv zeta. intros H.
  yields H; apply issue_line_num.
Qed.

Lemma UnsafeArrayIndexAccessRule_body_line lines st i line d :
  In d (yielded (UnsafeArrayIndexAccessRule.body lines st i line)) ->
  d !! "line_num" = Some (VInt (i + 1)).
Proof.
  unfold UnsafeArrayIndexAccessRule.body, UnsafeArrayIndexAccessRule.check_array,
    UnsafeArrayIndexAccessRule.check_string. cbv zeta. intros H.
  yields H; apply issue_line_num.
Qed.

Lemma UnsafeNullableObjectAccessRule_body_line lines st i line d :
  In d (yielded (UnsafeNullableObjectAccessRule.body lines st i line)) ->
  d !! "line_num" = Some (VInt (i + 1)).
Proof.
  unfold UnsafeNullableObjectAccessRule.body. cbv zeta. intros H.
  yields H; apply issue_line_num.
Qed.

Lemma StrictFailedRequirementExceptionRule_body_line lines st i line d :
  In d (yielded (StrictFailedRequirementExceptionRule.body lines st i line)) ->
  d !! "line_num" = Some (VInt (i + 1)).
Proof.
  unfold StrictFailedRequirementExceptionRule.body. cbv zeta. intros H.
  yields H; apply issue_line_num.
Qed.

Lemma StrictPeertubeChannelIdParsingRule_line file_path lines d :
  In d (yielded (StrictPeertubeChannelIdParsingRule.analyze_file file_path lines)) ->
  d !! "line_num" = Some (VInt 1).
Proof.
  unfold StrictPeertubeChannelIdParsingRule.analyze_file. cbv zeta. intros H.
  yields H; apply issue_line_num.
Qed.

(** C2 (amended). For each of the modelled rules and every file, every
    issue the rule yields has an integer line number [n] with
    [1 <= n <= len lines], provided the file has at least one line or the
    rule is not [StrictPeertubeChannelIdParsingRule], whose finding is about
    the whole file and is always filed at line 1. *)
Theorem C2_line_numbers_in_range (rule : Rule) (file_path : string)
    (lines : list string) (d : dict) :
  In rule modelled_rules ->
  lines <> [] \/ name rule <> "StrictPeertubeChannelIdParsingRule" ->
  In d (yielded (analyze_file rule file_path lines)) ->
  exists n, d !! "line_num" = Some (VInt n) /\ 1 <= n <= len lines.
Proof.
  intros Hrule Hlines Hd.
  destruct Hrule as [<-|[<-|[<-|[<-|[<-|[]]]]]];
    unfold UnsafeStartActivityRule.rule, StrictPeertubeChannelIdParsingRule.rule,
      UnsafeArrayIndexAccessRule.rule, UnsafeNullableObjectAccessRule.rule,
      StrictFailedRequirementExceptionRule.rule in Hd;
    cbn [analyze_file] in Hd.
  - apply (for_enumerate_line_nums _ _ UnsafeStartActivityRule_body_line) in Hd.
    exact Hd.
  - destruct Hlines as [Hne|Hname]; [|exfalso; by apply Hname].
    exists 1. split; [by apply (StrictPeertubeChannelIdParsingRule_line file_path lines)|].
    destruct lines; [done|]. unfold len. cbn [length]. lia.
  - apply (for_enumerate_line_nums _ _
             (UnsafeArrayIndexAccessRule_body_line lines)) in Hd.
    exact Hd.
  - apply (for_enumerate_line_nums _ _
             (UnsafeNullableObjectAccessRule_body_line lines)) in Hd.
    exact Hd.
  - unfold StrictFailedRequirementExceptionRule.analyze_file in Hd.
    destruct (negb (endswith file_path ".kt" || endswith file_path ".java"));
      [destruct Hd|].
    apply (for_enumerate_line_nums _ _
             (StrictFailedRequirementExceptionRule_body_line lines)) in Hd.
    exact Hd.
Qed.

Lemma C2_line_numbers_in_range_witness :
  exists n,
    issue 2 "addView(x)"
      "Operation 'addView' without validation in f() can cause IllegalArgumentException: Failed requirement. Add precondition checks."
      "HIGH" !! "line_num" = Some (VInt n)
    /\ 1 <= n <= len lines_A.
Proof.
  apply (C2_line_numbers_in_range StrictFailedRequirementExceptionRule.rule
           "repo/A.kt" lines_A).
  - do 4 right. left. reflexivity.
  - left. discriminate.
  - vm_compute. left. reflexivity.
Defined.

(** C2 as stated fails on a file with zero lines: for an empty Java file
    under a [peertube] path, [StrictPeertubeChannelIdParsingRule] yields a
    finding at line 1. *)
Lemma C2_counterexample :
  ~ (forall (rule : Rule) (file_path : string) (lines : list string) (d : dict),
       In rule modelled_rules ->
       In d (yielded (analyze_file rule file_path lines)) ->
       exists n, d !! "line_num" = Some (VInt n) /\ 1 <= n <= len lines).
Proof.
  intros H.
  set (path := "extractor/services/peertube/PeertubeChannelLinkHandlerFactory.java").
  set (g := analyze_file StrictPeertubeChannelIdParsingRule.rule path []).
  destruct (H StrictPeertubeChannelIdParsingRule.rule path []
              (hd ∅ (yielded g))) as (n & _ & Hn).
  - right. left. reflexivity.
  - vm_compute. left. reflexivity.
  - unfold len in Hn. cbn [length] in Hn. lia.
Qed.

(** ** Rules: unresolved method boundaries *)

Lemma find_method_start_loop_total (lines : list string) (range : list Z) :
  Forall (fun i => 0 <= i < len lines) range ->
  exists z, MethodBounds._find_method_start_loop lines range = Ok z.
Proof.
  induction 1 as [|i range Hi _ [z IH]]; [by exists (-1)|].
  destruct (py_index_in_range lines i Hi) as (line & _ & Hl).
  cbn [MethodBounds._find_method_start_loop]. rewrite Hl, bind_Ok.
  destruct ((str_in "public " line || str_in "private " line
             || str_in "protected " line)
            && (str_in "(" line && str_in ")" line)); eauto.
Qed.

Lemma find_method_end_loop_total (lines : list string) (range : list Z)
    (brace_count : Z) (in_method : bool) :
  Forall (fun i => 0 <= i < len lines) range ->
  exists z,
    MethodBounds._find_method_end_loop lines brace_count in_method range = Ok z.
Proof.
  intros H. revert brace_count in_method.
  induction H as [|i range Hi _ IH]; intros brace_count in_method;
    [by exists (-1)|].
  destruct (py_index_in_range lines i Hi) as (line & _ & Hl).
  cbn [MethodBounds._find_method_end_loop]. rewrite Hl, bind_Ok.
  destruct (str_in "{" line); destruct (str_in "}" line); try apply IH.
  - destruct (true && (brace_count + count_char line "{" - count_char line "}" =? 0));
      [eauto|apply IH].
  - destruct (in_method && (brace_count - count_char line "}" =? 0));
      [eauto|apply IH].
Qed.

Lemma py_range_down_bounds (start stop i : Z) :
  In i (py_range_down start stop) -> stop < i <= start.
Proof.
  unfold py_range_down. intros H.
  apply list_elem_of_In, list_elem_of_fmap in H as (k & -> & Hk).
  apply elem_of_seqZ in Hk. lia.
Qed.

(** At a line of the file both boundary searches return: a position, or
    -1 when there is none. *)
Lemma find_method_start_total (lines : list string) (i : nat) (line : string) :
  lines !! i = Some line ->
  exists z, MethodBounds._find_method_start lines (Z.of_nat i) = Ok z.
Proof.
  intros Hl. apply find_method_start_loop_total, List.Forall_forall.
  intros j Hj. apply py_range_down_bounds in Hj.
  apply lookup_lt_Some in Hl. unfold len. lia.
Qed.

Lemma find_method_end_total (lines : list string) (i : nat) (line : string) :
  lines !! i = Some line ->
  exists z, MethodBounds._find_method_end lines (Z.of_nat i) = Ok z.
Proof.
  intros Hl. apply find_method_end_loop_total, List.Forall_forall.
  intros j Hj. apply py_range_bounds in Hj. lia.
Qed.

Lemma has_bounds_check_unresolved (lines : list string) (i : nat) (line : string)
    (container_name index_var : string) :
  lines !! i = Some line ->
  MethodBounds._find_method_start lines (Z.of_nat i) = Ok (-1)
  \/ MethodBounds._find_method_end lines (Z.of_nat i) = Ok (-1) ->
  UnsafeArrayIndexAccessRule._has_bounds_check lines (Z.of_nat i)
    container_name index_var = Ok false.
Proof.
  intros Hl Hun. unfold UnsafeArrayIndexAccessRule._has_bounds_check,
    UnsafeArrayIndexAccessRule._find_method_start,
    UnsafeArrayIndexAccessRule._find_method_end.
  destruct (find_method_start_total lines i line Hl) as [s Hs].
  destruct (find_method_end_total lines i line Hl) as [e He].
  rewrite Hs, bind_Ok, He, bind_Ok.
  destruct Hun as [H|H]; rewrite H in *.
  - injection Hs as <-. reflexivity.
  - injection He as <-. by rewrite orb_true_r.
Qed.

Lemma has_null_check_unresolved (lines : list string) (i : nat) (line : string)
    (object_name : string) :
  lines !! i = Some line ->
  MethodBounds._find_method_start lines (Z.of_nat i) = Ok (-1)
  \/ MethodBounds._find_method_end lines (Z.of_nat i) = Ok (-1) ->
  UnsafeNullableObjectAccessRule._has_null_check lines (Z.of_nat i) object_name
  = Ok false.
Proof.
  intros Hl Hun. unfold UnsafeNullableObjectAccessRule._has_null_check,
    UnsafeNullableObjectAccessRule._find_method_start,
    UnsafeNullableObjectAccessRule._find_method_end.
  destruct (find_method_start_total lines i line Hl) as [s Hs].
  destruct (find_method_end_total lines i line Hl) as [e He].
  rewrite Hs, bind_Ok, He, bind_Ok.
  destruct Hun as [H|H]; rewrite H in *.
  - injection Hs as <-. reflexivity.
  - injection He as <-. by rewrite orb_true_r.
Qed.

(** A completed loop has yielded everything its body yielded at every
    line. *)
Lemma for_enumerate_complete (body : unit -> Z -> string -> gen unit)
    (ls : list string) (i0 : Z) (k : nat) (line : string) (d : dict) :
  outcome (for_enumerate body tt i0 ls) = Ok tt ->
  ls !! k = Some line ->
  In d (yielded (body tt (i0 + Z.of_nat k) line)) ->
  In d (yielded (for_enumerate body tt i0 ls)).
Proof.
  revert i0 k. induction ls as [|l ls IH]; intros i0 k Hok Hl Hd; [done|].
  cbn [for_enumerate] in *. unfold mbind, traced_bind in *.
  destruct (outcome (body tt i0 l)) as [[]|e] eqn:Hb; [|discriminate].
  cbn [emitted outcome] in *. apply in_or_app.
  destruct k as [|k]; cbn in Hl.
  - injection Hl as ->. left. by rewrite Z.add_0_r in Hd.
  - right. apply (IH (i0 + 1) k Hok Hl).
    by replace (i0 + 1 + Z.of_nat k) with (i0 + Z.of_nat (S k)) by lia.
Qed.

Lemma traced_bind_In_l {W A B} (m : traced W A) (k : A -> traced W B) (w : W) :
  In w (emitted m) -> In w (emitted (m ≫= k)).
Proof.
  unfold mbind, traced_bind. destruct (outcome m); cbn [emitted]; [|auto].
  intros H. apply in_or_app. by left.
Qed.

(** C3 (amended). In [UnsafeArrayIndexAccessRule] and
    [UnsafeNullableObjectAccessRule], when no enclosing method start or no
    method end is found for a line that matches the risky pattern, the
    search for a guard answers that there is none, without raising, and the
    rule reports the occurrence as a finding of severity HIGH at that line;
    the finding is among those of the file whenever the analysis of the
    file completes. *)
Theorem C3_unresolved_boundary_reported (file_path : string)
    (lines : list string) (i : nat) (line : string) :
  lines !! i = Some line ->
  blank_or_comment (strip line) = false ->
  MethodBounds._find_method_start lines (Z.of_nat i) = Ok (-1)
  \/ MethodBounds._find_method_end lines (Z.of_nat i) = Ok (-1) ->
  (forall m,
     regex_search false UnsafeArrayIndexAccessRule.ARRAY_ACCESS_PATTERN line
     = Some m ->
     let d :=
       issue (Z.of_nat i + 1) (strip line)
         ("Unsafe array access: `" +:+ group m 1 +:+ "[" +:+ group m 2
          +:+ "]` without bounds checking. This can cause IndexOutOfBoundsException.")
         "HIGH" in
     UnsafeArrayIndexAccessRule._has_bounds_check lines (Z.of_nat i)
       (group m 1) (group m 2) = Ok false
     /\ UnsafeArrayIndexAccessRule.check_array lines (Z.of_nat i) line
        = Gen [d] (Ok tt)
     /\ In d (yielded (UnsafeArrayIndexAccessRule.body lines tt (Z.of_nat i) line))
     /\ outcome (UnsafeArrayIndexAccessRule.body lines tt (Z.of_nat i) line) = Ok tt
     /\ (outcome (UnsafeArrayIndexAccessRule.analyze_file file_path lines) = Ok tt ->
         In d (yielded (UnsafeArrayIndexAccessRule.analyze_file file_path lines))))
  /\ (forall m,
        regex_search false UnsafeNullableObjectAccessRule.METHOD_CALL_PATTERN line
        = Some m ->
        found (regex_search false
                 UnsafeNullableObjectAccessRule.SAFE_CALL_PATTERN line) = false ->
        UnsafeNullableObjectAccessRule._is_likely_nullable lines (group m 1)
        = Ok true ->
        let d :=
          issue (Z.of_nat i + 1) (strip line)
            ("Unsafe method call: `" +:+ group m 1 +:+ "." +:+ group m 2
             +:+ "()` called without null check. This can cause NullPointerException if "
             +:+ group m 1 +:+ " is null.")
            "HIGH" in
        UnsafeNullableObjectAccessRule._has_null_check lines (Z.of_nat i)
          (group m 1) = Ok false
        /\ UnsafeNullableObjectAccessRule.body lines tt (Z.of_nat i) line
           = Gen [d] (Ok tt)
        /\ (outcome (UnsafeNullableObjectAccessRule.analyze_file file_path lines)
            = Ok tt ->
            In d (yielded (UnsafeNullableObjectAccessRule.analyze_file
                             file_path lines)))).
Proof.
  intros Hl Hnb Hun. split.
  - intros m Hm d.
    pose proof (has_bounds_check_unresolved lines i line (group m 1) (group m 2)
                  Hl Hun) as Hb.
    assert (Hc : UnsafeArrayIndexAccessRule.check_array lines (Z.of_nat i) line
                 = Gen [d] (Ok tt)).
    { unfold UnsafeArrayIndexAccessRule.check_array. cbv zeta.
      rewrite Hm, Hb, lift_Ok_bind. reflexivity. }
    assert (Hbody : In d (yielded (UnsafeArrayIndexAccessRule.body lines tt
                                     (Z.of_nat i) line))).
    { unfold UnsafeArrayIndexAccessRule.body. cbv zeta. rewrite Hnb.
      apply traced_bind_In_l. rewrite Hc. by left. }
    split; [exact Hb|]. split; [exact Hc|]. split; [exact Hbody|]. split.
    { unfold UnsafeArrayIndexAccessRule.body. cbv zeta. rewrite Hnb, Hc.
      erewrite traced_bind_Ok by reflexivity. cbn [outcome].
      unfold UnsafeArrayIndexAccessRule.check_string. cbv zeta.
      destruct (regex_search false
                  UnsafeArrayIndexAccessRule.STRING_ACCESS_PATTERN line) as [sm|];
        [|reflexivity].
      rewrite (has_bounds_check_unresolved lines i line _ _ Hl Hun), lift_Ok_bind.
      reflexivity. }
    intros Hok. unfold UnsafeArrayIndexAccessRule.analyze_file in *.
    by apply (for_enumerate_complete _ lines 0 i line).
  - intros m Hm Hsafe Hnull d.
    pose proof (has_null_check_unresolved lines i line (group m 1) Hl Hun) as Hb.
    assert (Hbody : UnsafeNullableObjectAccessRule.body lines tt (Z.of_nat i) line
                    = Gen [d] (Ok tt)).
    { unfold UnsafeNullableObjectAccessRule.body. cbv zeta.
      rewrite Hnb, Hm, Hsafe, Hnull, lift_Ok_bind, Hb, lift_Ok_bind.
      reflexivity. }
    split; [exact Hb|]. split; [exact Hbody|].
    intros Hok. unfold UnsafeNullableObjectAccessRule.analyze_file in *.
    apply (for_enumerate_complete _ lines 0 i line); auto.
    change (0 + Z.of_nat i) with (Z.of_nat i). rewrite Hbody. by left.
Qed.

Lemma C3_unresolved_boundary_reported_witness :
  UnsafeArrayIndexAccessRule.check_array lines_D 0 "x = arr[i];"
  = Gen [issue 1 "x = arr[i];"
           "Unsafe array access: `arr[i]` without bounds checking. This can cause IndexOutOfBoundsException."
           "HIGH"] (Ok tt).
Proof.
  refine (proj1 (proj2 (proj1
    (C3_unresolved_boundary_reported "A.java" lines_D 0 "x = arr[i];"
       eq_refl eq_refl (or_introl eq_refl))
    (Match 4 "arr[i]" [(2%nat, "i"); (1%nat, "arr")]) _))).
  vm_compute. reflexivity.
Defined.

(** C3 as stated fails: the single line of [lines_D] lies in no method,
    so no method start is found for it, and [UnsafeArrayIndexAccessRule]
    reports the array access on it; likewise
    [UnsafeNullableObjectAccessRule] reports the call on the single line
    of [lines_E]. *)
Lemma C3_counterexample :
  MethodBounds._find_method_start lines_D 0 = Ok (-1)
  /\ (fun d : dict => (d !! "line_num", d !! "severity"))
       <$> yielded (UnsafeArrayIndexAccessRule.analyze_file "A.java" lines_D)
     = [(Some (VInt 1), Some (VStr "HIGH"))]
  /\ MethodBounds._find_method_start lines_E 0 = Ok (-1)
  /\ (fun d : dict => (d !! "line_num", d !! "severity"))
       <$> yielded (UnsafeNullableObjectAccessRule.analyze_file "A.java" lines_E)
     = [(Some (VInt 1), Some (VStr "HIGH"))].
Proof. repeat split; vm_compute; reflexivity. Qed.

(** * Further properties *)

(** ** Scanner engine: formatting *)

(** X1. With a rule that has an issue type and a suggestion, formatting an
    issue raises [KeyError] exactly when the issue has no line number or
    no code, the line number being looked up first; otherwise the finding
    has the eight keys of a finding and no other, whatever other keys the
    rule put in the issue, and a missing detail becomes the empty
    string. *)
Theorem format_issue_cases (fs : FileSystem) (file_path : string)
    (rule : Rule) (d : dict) (ty sg : string) :
  issue_type rule = Ok ty ->
  suggestion rule = Ok sg ->
  match d !! "line_num", d !! "code" with
  | None, _ =>
      CodeScanner._format_issue fs file_path rule d = Raise (KeyError "line_num")
  | Some _, None =>
      CodeScanner._format_issue fs file_path rule d = Raise (KeyError "code")
  | Some n, Some c =>
      exists finding,
        CodeScanner._format_issue fs file_path rule d = Ok finding
        /\ dom finding = finding_keys
        /\ finding !! "file_path" = Some (VStr file_path)
        /\ finding !! "line_num" = Some n
        /\ finding !! "issue_type" = Some (VStr ty)
        /\ finding !! "code" = Some c
        /\ finding !! "context_code"
           = Some (VStr (CodeScanner._get_context_lines fs file_path n 10))
        /\ finding !! "suggestion" = Some (VStr sg)
        /\ finding !! "rule_name" = Some (VStr (name rule))
        /\ finding !! "detail" = Some (dict_get d "detail" (VStr ""))
  end.
Proof.
  intros Hty Hsg. unfold CodeScanner._format_issue, getitem.
  destruct (d !! "line_num") as [n|]; [|reflexivity].
  rewrite !bind_Ok, Hty, bind_Ok.
  destruct (d !! "code") as [c|]; [|reflexivity].
  rewrite bind_Ok, Hsg, bind_Ok.
  eexists. split; [reflexivity|].
  split; [|repeat split; by simplify_map_eq].
  unfold finding_keys. rewrite !dom_insert_L, dom_empty_L. cbn. set_solver.
Qed.

Lemma format_issue_cases_witness :
  exists finding,
    CodeScanner._format_issue fs_one_file "repo/A.kt"
      StrictFailedRequirementExceptionRule.rule
      (<["note" := VStr "x"]> (<["code" := VStr "c"]> (<["line_num" := VInt 2]> ∅)))
    = Ok finding
    /\ dom finding = finding_keys
    /\ finding !! "file_path" = Some (VStr "repo/A.kt")
    /\ finding !! "line_num" = Some (VInt 2)
    /\ finding !! "issue_type"
       = Some (VStr StrictFailedRequirementExceptionRule.issue_type)
    /\ finding !! "code" = Some (VStr "c")
    /\ finding !! "context_code"
       = Some (VStr (CodeScanner._get_context_lines fs_one_file "repo/A.kt"
                       (VInt 2) 10))
    /\ finding !! "suggestion"
       = Some (VStr StrictFailedRequirementExceptionRule.suggestion)
    /\ finding !! "rule_name" = Some (VStr "StrictFailedRequirementExceptionRule")
    /\ finding !! "detail" = Some (VStr "").
Proof.
  exact (format_issue_cases fs_one_file "repo/A.kt"
           StrictFailedRequirementExceptionRule.rule
           (<["note" := VStr "x"]> (<["code" := VStr "c"]> (<["line_num" := VInt 2]> ∅)))
           StrictFailedRequirementExceptionRule.issue_type
           StrictFailedRequirementExceptionRule.suggestion eq_refl eq_refl).
Defined.

(** X2. When the context of a finding cannot be extracted, formatting still
    succeeds: the finding carries the text of the error in place of the
    context, both when the file cannot be opened again and when a rule
    gives a string for the line number. *)
Theorem format_issue_context_unavailable (fs : FileSystem) (file_path : string)
    (rule : Rule) (d : dict) (ty sg : string) (n c : pyval) :
  issue_type rule = Ok ty ->
  suggestion rule = Ok sg ->
  d !! "line_num" = Some n ->
  d !! "code" = Some c ->
  exists finding,
    CodeScanner._format_issue fs file_path rule d = Ok finding
    /\ (forall e, open_readlines fs file_path = Raise e ->
          finding !! "context_code"
          = Some (VStr ("Unable to get context code: " +:+ str_exn e)))
    /\ (forall lines s, open_readlines fs file_path = Ok lines -> n = VStr s ->
          finding !! "context_code"
          = Some (VStr "Unable to get context code: unsupported operand type(s) for -: 'str' and 'int'")).
Proof.
  intros Hty Hsg Hn Hc. unfold CodeScanner._format_issue, getitem.
  rewrite Hn, !bind_Ok, Hty, bind_Ok, Hc, bind_Ok, Hsg, bind_Ok.
  eexists. split; [reflexivity|]. split.
  - intros e He. simplify_map_eq. unfold CodeScanner._get_context_lines.
    by rewrite He.
  - intros lines s Hl ->. simplify_map_eq.
    unfold CodeScanner._get_context_lines. by rewrite Hl.
Qed.

Lemma format_issue_context_unavailable_witness :
  exists finding,
    CodeScanner._format_issue fs_unreadable "repo/B.kt"
      UnsafeStartActivityRule.rule (issue 1 "startActivity(i)" "" "HIGH")
    = Ok finding
    /\ (forall e, open_readlines fs_unreadable "repo/B.kt" = Raise e ->
          finding !! "context_code"
          = Some (VStr ("Unable to get context code: " +:+ str_exn e)))
    /\ (forall lines s, open_readlines fs_unreadable "repo/B.kt" = Ok lines ->
          VInt 1 = VStr s ->
          finding !! "context_code"
          = Some (VStr "Unable to get context code: unsupported operand type(s) for -: 'str' and 'int'")).
Proof.
  apply (format_issue_context_unavailable fs_unreadable "repo/B.kt"
           UnsafeStartActivityRule.rule (issue 1 "startActivity(i)" "" "HIGH")
           UnsafeStartActivityRule.issue_type UnsafeStartActivityRule.suggestion
           (VInt 1) (VStr "startActivity(i)"));
    reflexivity.
Defined.

(** ** Scanner engine: where findings come from *)

Lemma In_hd {A} (d : A) (l : list A) : l <> [] -> In (hd d l) l.
Proof. destruct l; [done|]. intros _. by left. Qed.

Lemma append_issues_formatted fs file_path rule issues finding :
  In finding (fst (CodeScanner.append_issues fs file_path rule issues [])) ->
  exists d, In d issues
    /\ CodeScanner._format_issue fs file_path rule d = Ok finding.
Proof.
  induction issues as [|d issues IH]; simpl; [done|].
  destruct (CodeScanner._format_issue fs file_path rule d) as [f|e] eqn:Hf;
    simpl; [|done].
  rewrite append_issues_acc. simpl. intros [<-|Hin].
  - exists d. auto.
  - destruct (IH Hin) as (d' & ? & ?). exists d'. auto.
Qed.

Lemma run_rule_formatted fs file_path lines rule finding :
  In finding (fst (CodeScanner.run_rule fs file_path lines rule [])) ->
  exists d, In d (yielded (analyze_file rule file_path lines))
    /\ CodeScanner._format_issue fs file_path rule d = Ok finding.
Proof.
  unfold CodeScanner.run_rule. intros H. apply (append_issues_formatted fs).
  destruct (CodeScanner.append_issues fs file_path rule
              (yielded (analyze_file rule file_path lines)) []) as [l [[]|e]];
    exact H.
Qed.

Lemma run_rules_formatted fs file_path lines rules finding :
  In finding (fst (CodeScanner.run_rules fs file_path lines rules [])) ->
  exists rule d, In rule rules
    /\ In d (yielded (analyze_file rule file_path lines))
    /\ CodeScanner._format_issue fs file_path rule d = Ok finding.
Proof.
  induction rules as [|r rules IH]; simpl; [done|].
  rewrite (run_rule_acc _ _ _ _ []). simpl.
  destruct (CodeScanner.run_rule fs file_path lines r []) as [l [[]|e]] eqn:Hr;
    simpl.
  - rewrite run_rules_acc. simpl. intros H. apply in_app_or in H as [H|H].
    + assert (Hl : In finding (fst (CodeScanner.run_rule fs file_path lines r [])))
        by (by rewrite Hr).
      destruct (run_rule_formatted _ _ _ _ _ Hl) as (d & ? & ?).
      exists r, d. auto.
    + destruct (IH H) as (r' & d & ? & ? & ?). exists r', d. auto.
  - intros H.
    assert (Hl : In finding (fst (CodeScanner.run_rule fs file_path lines r [])))
      by (by rewrite Hr).
    destruct (run_rule_formatted _ _ _ _ _ Hl) as (d & ? & ?).
    exists r, d. auto.
Qed.

Lemma scan_finding_source self fs repo_path finding :
  In finding (flat_map (file_findings self fs) (candidates (os_walk fs repo_path))) ->
  exists path lines rule d,
    In path (candidates (os_walk fs repo_path))
    /\ open_readlines fs path = Ok lines
    /\ In rule (CodeScanner.rules self)
    /\ In d (yielded (analyze_file rule path lines))
    /\ CodeScanner._format_issue fs path rule d = Ok finding.
Proof.
  intros Hin. apply in_flat_map in Hin as (path & Hpath & Hin).
  unfold file_findings, file_run in Hin.
  destruct (open_readlines fs path) as [lines|e] eqn:Hopen; [|destruct Hin].
  destruct (run_rules_formatted _ _ _ _ _ Hin) as (rule & d & ? & ? & ?).
  exists path, lines, rule, d. auto.
Qed.

(** X3. Every finding of a scan is the formatted form of an issue that a
    registered rule yielded on the lines of a candidate file that could be
    read: the engine invents no finding and takes none from files of
    other kinds. *)
Theorem scan_finding_provenance (self : CodeScanner.self) (fs : FileSystem)
    (repo_path : string) (all_issues : list dict) (finding : dict) :
  outcome (CodeScanner.scan_repository self fs repo_path) = Ok all_issues ->
  In finding all_issues ->
  exists path lines rule d,
    In path (candidates (os_walk fs repo_path))
    /\ open_readlines fs path = Ok lines
    /\ In rule (CodeScanner.rules self)
    /\ In d (yielded (analyze_file rule path lines))
    /\ CodeScanner._format_issue fs path rule d = Ok finding.
Proof.
  rewrite scan_outcome. intros [= <-]. apply scan_finding_source.
Qed.

Lemma scan_finding_provenance_witness :
  exists path lines rule d,
    In path (candidates (os_walk fs_one_file "repo"))
    /\ open_readlines fs_one_file path = Ok lines
    /\ In rule (CodeScanner.rules scanner_one)
    /\ In d (yielded (analyze_file rule path lines))
    /\ CodeScanner._format_issue fs_one_file path rule d
       = Ok (hd ∅ (findings_of
                     (CodeScanner.scan_repository scanner_one fs_one_file "repo"))).
Proof.
  apply (scan_finding_provenance scanner_one fs_one_file "repo"
           (findings_of (CodeScanner.scan_repository scanner_one fs_one_file "repo"))).
  - unfold findings_of. rewrite scan_outcome. reflexivity.
  - apply In_hd. intros Heq. apply (f_equal length) in Heq.
    vm_compute in Heq. discriminate.
Defined.

(** ** Scanner engine: a rule that raises *)

Lemma run_rules_app fs file_path lines (rules1 rules2 : list Rule) :
  snd (CodeScanner.run_rules fs file_path lines rules1 []) = Ok tt ->
  CodeScanner.run_rules fs file_path lines (rules1 ++ rules2) []
  = CodeScanner.run_rules fs file_path lines rules2
      (fst (CodeScanner.run_rules fs file_path lines rules1 [])).
Proof.
  induction rules1 as [|r rules1 IH]; [reflexivity|]. simpl.
  destruct (CodeScanner.run_rule fs file_path lines r []) as [l [[]|e]] eqn:Hr;
    simpl; [|discriminate].
  rewrite (run_rules_acc _ _ _ rules1 l), (run_rules_acc _ _ _ (rules1 ++ rules2) l).
  simpl. intros Hok. rewrite (IH Hok).
  rewrite (run_rules_acc _ _ _ rules2
             (l ++ fst (CodeScanner.run_rules fs file_path lines rules1 []))).
  rewrite (run_rules_acc _ _ _ rules2
             (fst (CodeScanner.run_rules fs file_path lines rules1 []))).
  simpl. by rewrite app_assoc.
Qed.

(** X4. When a rule raises on a file, the handler of the file logs the error;
    the findings appended for that file before the error are kept, those
    of the rule itself included, and the rules registered after it are not
    run on that file. *)
Theorem rule_error_stops_file (self : CodeScanner.self) (fs : FileSystem)
    (file_path : string) (lines : list string) (rules1 rules2 : list Rule)
    (r : Rule) (e : exn) (acc : list dict) :
  open_readlines fs file_path = Ok lines ->
  CodeScanner.rules self = rules1 ++ r :: rules2 ->
  snd (CodeScanner.run_rules fs file_path lines rules1 []) = Ok tt ->
  snd (CodeScanner.run_rule fs file_path lines r []) = Raise e ->
  CodeScanner.scan_file self fs file_path acc
  = Traced ["❌ Error processing file " +:+ file_path +:+ ": " +:+ str_exn e]
      (Ok (acc ++ fst (CodeScanner.run_rules fs file_path lines rules1 [])
               ++ fst (CodeScanner.run_rule fs file_path lines r []))).
Proof.
  intros Hopen Hrules H1 Hr.
  rewrite scan_file_spec. unfold file_log, file_findings, file_run.
  rewrite Hopen, Hrules, (run_rules_app _ _ _ _ _ H1). simpl.
  rewrite (run_rule_acc _ _ _ r).
  destruct (CodeScanner.run_rule fs file_path lines r []) as [l [[]|e']];
    simpl in *; [discriminate|].
  injection Hr as ->. reflexivity.
Qed.

Lemma rule_error_stops_file_witness :
  CodeScanner.scan_file
    {| CodeScanner.rules :=
         [UnsafeStartActivityRule.rule]
         ++ StrictFailedRequirementExceptionRule.rule
         :: [UnsafeBrowserIntentRule.rule] |}
    fs_C "repo/C.kt" []
  = Traced ["❌ Error processing file " +:+ "repo/C.kt" +:+ ": "
            +:+ str_exn IndexError]
      (Ok ([] ++ fst (CodeScanner.run_rules fs_C "repo/C.kt" lines_C
                        [UnsafeStartActivityRule.rule] [])
              ++ fst (CodeScanner.run_rule fs_C "repo/C.kt" lines_C
                        StrictFailedRequirementExceptionRule.rule []))).
Proof.
  apply (rule_error_stops_file _ fs_C "repo/C.kt" lines_C
           [UnsafeStartActivityRule.rule] [UnsafeBrowserIntentRule.rule]
           StrictFailedRequirementExceptionRule.rule IndexError []).
  - reflexivity.
  - reflexivity.
  - vm_compute. reflexivity.
  - vm_compute. reflexivity.
Defined.

(** ** Scanner engine: what the walk contributes *)

Lemma candidates_prune (walk : list (string * list string * list string)) :
  candidates ((fun '(root, dirs, files) =>
                 (root, @nil string, List.filter is_candidate files)) <$> walk)
  = candidates walk.
Proof.
  induction walk as [|[[root dirs] files] walk IH]; [reflexivity|].
  cbn [fmap list_fmap candidates flat_map] in *. fold (@candidates) in *.
  unfold candidates in IH. rewrite IH. f_equal. f_equal.
  induction files as [|f files IHf]; [reflexivity|]. simpl.
  destruct (is_candidate f) eqn:Hf; simpl; rewrite ?Hf, IHf; reflexivity.
Qed.

(** X5. A scan depends on the walk only through the Kotlin and Java files it
    lists and their order: the files of other kinds and the lists of
    sub-directories change neither the findings nor what is printed. *)
Theorem scan_opens_candidates_only (self : CodeScanner.self) (fs : FileSystem)
    (repo_path : string) :
  CodeScanner.scan_repository self (prune fs) repo_path
  = CodeScanner.scan_repository self fs repo_path.
Proof.
  rewrite !scan_repository_spec.
  change (os_walk (prune fs) repo_path)
    with ((fun '(root, dirs, files) =>
             (root, @nil string, List.filter is_candidate files))
            <$> os_walk fs repo_path).
  rewrite candidates_prune.
  rewrite (flat_map_ext_in (file_log self (prune fs)) (file_log self fs)),
    (flat_map_ext_in (file_findings self (prune fs)) (file_findings self fs));
    [reflexivity| |];
    intros path _; unfold file_log, file_findings;
    by rewrite (file_run_ext self (prune fs) fs path).
Qed.

(** X6. The order of the enumeration only decides the order of the output:
    two trees that list the same candidate files with the same contents,
    in any order, give the same findings and print the same lines, each
    up to a permutation. *)
Theorem scan_order_only_permutes (self : CodeScanner.self)
    (fs1 fs2 : FileSystem) (repo_path : string) :
  Permutation (candidates (os_walk fs1 repo_path))
              (candidates (os_walk fs2 repo_path)) ->
  (forall path, In path (candidates (os_walk fs1 repo_path)) ->
     open_readlines fs1 path = open_readlines fs2 path) ->
  Permutation
    (findings_of (CodeScanner.scan_repository self fs1 repo_path))
    (findings_of (CodeScanner.scan_repository self fs2 repo_path))
  /\ Permutation
       (printed (CodeScanner.scan_repository self fs1 repo_path))
       (printed (CodeScanner.scan_repository self fs2 repo_path)).
Proof.
  intros Hp Hr. unfold findings_of. rewrite !scan_repository_spec.
  cbn [outcome emitted].
  rewrite (flat_map_ext_in (file_findings self fs1) (file_findings self fs2)),
    (flat_map_ext_in (file_log self fs1) (file_log self fs2)).
  - split; by apply Permutation_flat_map.
  - intros path Hin. unfold file_log.
    by rewrite (file_run_ext _ _ _ _ (Hr path Hin)).
  - intros path Hin. unfold file_findings.
    by rewrite (file_run_ext _ _ _ _ (Hr path Hin)).
Qed.

Lemma scan_order_only_permutes_witness :
  Permutation
    (findings_of (CodeScanner.scan_repository scanner_one fs_unreadable "repo"))
    (findings_of (CodeScanner.scan_repository scanner_one fs_unreadable_rev "repo"))
  /\ Permutation
       (printed (CodeScanner.scan_repository scanner_one fs_unreadable "repo"))
       (printed (CodeScanner.scan_repository scanner_one fs_unreadable_rev "repo")).
Proof.
  apply (scan_order_only_permutes scanner_one fs_unreadable fs_unreadable_rev "repo").
  - apply perm_swap.
  - reflexivity.
Defined.

(** ** Reporter: a finding without a path *)

Lemma group_by_file_missing (issues : list dict) (f : dict) (g : groups) :
  In f issues -> f !! "file_path" = None ->
  group_by_file issues g = Raise (KeyError "file_path").
Proof.
  revert g. induction issues as [|x issues IH]; intros g; [intros []|].
  intros Hin Hf. cbn [group_by_file]. unfold getitem.
  destruct (x !! "file_path") as [v|] eqn:Hx; [|reflexivity].
  rewrite bind_Ok. apply IH; [|exact Hf].
  destruct Hin as [->|Hin]; [congruence|exact Hin].
Qed.

(** X7. The reporter groups all the findings before it prints any of them:
    when one finding of the list, wherever it stands, has no file path,
    the report is the summary line alone and ends with [KeyError]. *)
Theorem report_missing_file_path (issues : list dict) (f : dict) :
  In f issues -> f !! "file_path" = None ->
  report_issues issues
  = Traced [summary_line issues] (Raise (KeyError "file_path")).
Proof.
  intros Hin Hf. destruct issues as [|x issues]; [destruct Hin|].
  unfold report_issues.
  rewrite (group_by_file_missing (x :: issues) f [] Hin Hf). reflexivity.
Qed.

Lemma report_missing_file_path_witness :
  report_issues [finding_at "repo/A.kt" 7; issue 2 "addView(x)" "" "HIGH"]
  = Traced [summary_line [finding_at "repo/A.kt" 7; issue 2 "addView(x)" "" "HIGH"]]
      (Raise (KeyError "file_path")).
Proof.
  apply (report_missing_file_path _ (issue 2 "addView(x)" "" "HIGH")).
  - right. left. reflexivity.
  - reflexivity.
Defined.

(** ** Reporter: the sections in full *)

Lemma print_file_sorted (p : pyval) (l : list dict) :
  Forall wf_finding l ->
  exists ordered,
    sorted l (fun x => getitem x "line_num") = Ok ordered
    /\ print_file p l = Traced (file_section (p, ordered)) (Ok tt).
Proof.
  intros Hwf. destruct (sorted_by_line_num l Hwf) as (ordered & Hs & Hp & Hso).
  exists ordered. split; [exact Hs|].
  assert (Hwf' : Forall wf_finding ordered).
  { apply List.Forall_forall. intros f Hf.
    eapply List.Forall_forall; [exact Hwf|]. eapply Permutation_in; eauto. }
  unfold print_file. rewrite Hs, lift_Ok_bind, (print_issues_ok ordered Hwf').
  reflexivity.
Qed.

Lemma print_files_sorted (g : groups) :
  Forall (fun pl => Forall wf_finding (snd pl)) g ->
  exists grouped : groups,
    print_files g = Traced (flat_map file_section grouped) (Ok tt)
    /\ Forall2 (fun pl pl' =>
                  fst pl' = fst pl
                  /\ sorted (snd pl) (fun x => getitem x "line_num")
                     = Ok (snd pl')) g grouped.
Proof.
  induction 1 as [|[p l] g Hl _ IH].
  - exists []. split; [reflexivity|constructor].
  - destruct IH as (grouped & Hg & Hall).
    destruct (print_file_sorted p l Hl) as (ordered & Hs & Hf).
    exists ((p, ordered) :: grouped). split.
    + cbn [print_files flat_map]. rewrite Hf, Hg. reflexivity.
    + constructor; auto.
Qed.

(** The whole report: the sections follow the keys of the grouping, and
    the section of a key holds what [sorted] returns on the findings of
    that key. *)
Lemma report_issues_sections (issues : list dict) :
  issues <> [] -> Forall wf_finding issues ->
  exists (keys : list pyval) (grouped : groups),
    report_issues issues
    = Traced (summary_line issues :: flat_map file_section grouped) (Ok tt)
    /\ List.NoDup keys
    /\ (forall f, In f issues ->
          exists v, f !! "file_path" = Some v /\ In v keys)
    /\ Forall2 (fun p pl' =>
                  fst pl' = p
                  /\ sorted (List.filter (path_is p) issues)
                       (fun x => getitem x "line_num") = Ok (snd pl'))
         keys grouped.
Proof.
  intros Hne Hwf.
  destruct (group_by_file_spec issues [] [] Hwf) as (keys & Hg & Hnd & Hcov).
  { constructor. }
  { intros f []. }
  cbn [app] in Hg, Hcov.
  change (groups_of [] []) with (@nil (pyval * list dict)) in Hg.
  destruct (print_files_sorted (groups_of issues keys)) as (grouped & Hp & Hall).
  { apply List.Forall_forall. intros pl Hpl.
    apply list_elem_of_In, list_elem_of_fmap in Hpl as (p & -> & _). cbn [snd].
    apply List.Forall_forall. intros f Hf. apply List.filter_In in Hf as [Hf _].
    eapply List.Forall_forall; [exact Hwf|exact Hf]. }
  exists keys, grouped. split; [|split; [exact Hnd|split; [exact Hcov|] ] ].
  - destruct issues as [|f issues]; [done|].
    unfold report_issues. rewrite Hg, lift_Ok_bind, Hp. reflexivity.
  - clear Hg Hp Hcov Hnd. unfold groups_of in Hall.
    revert grouped Hall. induction keys as [|k keys IH]; intros grouped Hall.
    + inversion Hall. constructor.
    + cbn [fmap list_fmap] in Hall.
      inversion Hall as [|? pl' ? grouped' [Hfst Hs] Hrest]; subst.
      constructor; [auto|]. by apply IH.
Qed.

(** *** [sorted] keeps the order of equal keys *)







(** *** Every finding in one section *)







(** ** Rules: the boundaries of a method *)

Lemma py_range_down_S (n : nat) :
  py_range_down (Z.of_nat (S n)) (-1)
  = Z.of_nat (S n) :: py_range_down (Z.of_nat n) (-1).
Proof.
  unfold py_range_down.
  rewrite (seqZ_cons 0 (Z.of_nat (S n) - -1)) by lia.
  rewrite fmap_cons. f_equal.
  replace (Z.pred (Z.of_nat (S n) - -1)) with (Z.of_nat n - -1) by lia.
  replace (Z.succ 0) with (1 + 0) by lia.
  rewrite <- fmap_add_seqZ, <- list_fmap_compose.
  apply list_fmap_ext. intros _ k _. cbn. lia.
Qed.

Lemma py_range_down_0 : py_range_down (Z.of_nat 0) (-1) = [0].
Proof. reflexivity. Qed.

Lemma find_method_start_step (lines : list string) (n : nat) (l : string) :
  lines !! n = Some l ->
  MethodBounds._find_method_start lines (Z.of_nat n)
  = if is_method_header l then Ok (Z.of_nat n)
    else match n with
         | O => Ok (-1)
         | S n' => MethodBounds._find_method_start lines (Z.of_nat n')
         end.
Proof.
  intros Hl. unfold MethodBounds._find_method_start.
  destruct n as [|n'].
  - rewrite py_range_down_0. cbn [MethodBounds._find_method_start_loop].
    pose proof (py_index_lookup lines 0 l Hl) as Hp.
    change (Z.of_nat 0) with 0 in *. rewrite Hp, bind_Ok.
    unfold is_method_header. reflexivity.
  - rewrite py_range_down_S. cbn [MethodBounds._find_method_start_loop].
    rewrite (py_index_lookup lines (S n') l Hl), bind_Ok.
    unfold is_method_header. reflexivity.
Qed.

(** X10. At a line of the file, [_find_method_start] returns the nearest line
    at or above it that holds a visibility keyword and both parentheses,
    and -1 exactly when no line at or above it does. A Kotlin function
    declared without a visibility keyword is therefore never a start. *)
Theorem find_method_start_nearest (lines : list string) (i : nat)
    (line : string) :
  lines !! i = Some line ->
  exists z,
    MethodBounds._find_method_start lines (Z.of_nat i) = Ok z
    /\ ((z = -1
         /\ forall (j : nat) l, (j <= i)%nat -> lines !! j = Some l ->
              is_method_header l = false)
        \/ (exists (k : nat) l,
              z = Z.of_nat k /\ (k <= i)%nat /\ lines !! k = Some l
              /\ is_method_header l = true
              /\ forall (j : nat) l', (k < j <= i)%nat -> lines !! j = Some l' ->
                   is_method_header l' = false)).
Proof.
  revert line. induction i as [|i IH]; intros line Hl.
  - rewrite (find_method_start_step lines 0 line Hl).
    destruct (is_method_header line) eqn:Hh.
    + exists 0. split; [reflexivity|]. right. exists 0%nat, line.
      repeat split; auto. intros j l' Hj. lia.
    + exists (-1). split; [reflexivity|]. left. split; [reflexivity|].
      intros j l Hj Hjl. assert (j = 0%nat) as -> by lia. congruence.
  - rewrite (find_method_start_step lines (S i) line Hl).
    destruct (is_method_header line) eqn:Hh.
    + exists (Z.of_nat (S i)). split; [reflexivity|]. right.
      exists (S i), line. repeat split; auto. intros j l' Hj. lia.
    + destruct (lookup_lt_is_Some_2 lines i) as [prev Hprev].
      { apply lookup_lt_Some in Hl. lia. }
      destruct (IH prev Hprev) as (z & Hz & Hcase). exists z.
      split; [exact Hz|]. destruct Hcase as [[-> Hnone]|(k & l & -> & Hk & Hkl & Hhk & Hbetween)].
      * left. split; [reflexivity|]. intros j l Hj Hjl.
        destruct (decide (j = S i)) as [->|Hne]; [congruence|].
        apply (Hnone j l); [lia|exact Hjl].
      * right. exists k, l. repeat split; auto. intros j l' Hj Hjl.
        destruct (decide (j = S i)) as [->|Hne]; [congruence|].
        apply (Hbetween j l'); [lia|exact Hjl].
Qed.

Lemma find_method_start_nearest_witness :
  exists z,
    MethodBounds._find_method_start lines_F (Z.of_nat 2) = Ok z
    /\ ((z = -1
         /\ forall (j : nat) l, (j <= 2)%nat -> lines_F !! j = Some l ->
              is_method_header l = false)
        \/ (exists (k : nat) l,
              z = Z.of_nat k /\ (k <= 2)%nat /\ lines_F !! k = Some l
              /\ is_method_header l = true
              /\ forall (j : nat) l', (k < j <= 2)%nat -> lines_F !! j = Some l' ->
                   is_method_header l' = false)).
Proof.
  apply (find_method_start_nearest lines_F 2 ("    return arr[i];" +:+ LF)).
  reflexivity.
Defined.

Lemma find_method_end_loop_spec (lines : list string) (m : nat) :
  forall (a : nat) (brace_count : Z) (in_method : bool),
  (a + m <= length lines)%nat ->
  exists z,
    MethodBounds._find_method_end_loop lines brace_count in_method
      (seqZ (Z.of_nat a) (Z.of_nat m)) = Ok z
    /\ (z = -1
        \/ exists (k : nat) l,
             z = Z.of_nat k /\ (a <= k < a + m)%nat /\ lines !! k = Some l
             /\ str_in "}" l = true
             /\ (in_method = true
                 \/ exists (j : nat) lj, (a <= j <= k)%nat /\ lines !! j = Some lj
                      /\ str_in "{" lj = true)).
Proof.
  induction m as [|m IH]; intros a brace_count in_method Hlen.
  - exists (-1). split; [reflexivity|by left].
  - rewrite (seqZ_cons (Z.of_nat a) (Z.of_nat (S m))) by lia.
    replace (Z.succ (Z.of_nat a)) with (Z.of_nat (S a)) by lia.
    replace (Z.pred (Z.of_nat (S m))) with (Z.of_nat m) by lia.
    destruct (lookup_lt_is_Some_2 lines a) as [l Hl]; [lia|].
    cbn [MethodBounds._find_method_end_loop].
    rewrite (py_index_lookup lines a l Hl), bind_Ok.
    assert (Hrec : forall bc im,
      (im = true -> in_method = true \/ str_in "{" l = true) ->
      exists z,
        MethodBounds._find_method_end_loop lines bc im
          (seqZ (Z.of_nat (S a)) (Z.of_nat m)) = Ok z
        /\ (z = -1
            \/ exists (k : nat) l0,
                 z = Z.of_nat k /\ (a <= k < a + S m)%nat /\ lines !! k = Some l0
                 /\ str_in "}" l0 = true
                 /\ (in_method = true
                     \/ exists (j : nat) lj, (a <= j <= k)%nat
                          /\ lines !! j = Some lj /\ str_in "{" lj = true))).
    { intros bc im Him.
      destruct (IH (S a) bc im) as (z & Hz & Hcase); [lia|].
      exists z. split; [exact Hz|].
      destruct Hcase as [->|(k & l0 & -> & Hk & Hkl & Hclose & Hopen)];
        [by left|].
      right. exists k, l0. repeat split; auto; try lia.
      destruct Hopen as [Him'|(j & lj & Hj & Hjl & Hjo)].
      - destruct (Him Him') as [?|Ho]; [by left|].
        right. exists a, l. repeat split; auto; lia.
      - right. exists j, lj. repeat split; auto; lia. }
    destruct (str_in "{" l) eqn:Ho; destruct (str_in "}" l) eqn:Hc.
    + destruct (true && (brace_count + count_char l "{" - count_char l "}" =? 0)).
      * exists (Z.of_nat a). split; [reflexivity|]. right. exists a, l.
        repeat split; auto; try lia. right. exists a, l. repeat split; auto.
      * apply Hrec. auto.
    + apply Hrec. auto.
    + destruct (in_method && (brace_count - count_char l "}" =? 0)) eqn:Hb.
      * exists (Z.of_nat a). split; [reflexivity|]. right. exists a, l.
        repeat split; auto; try lia. left.
        by apply andb_true_iff in Hb as [-> _].
      * apply Hrec. auto.
    + apply Hrec. auto.
Qed.

(** X11. At a line of the file, [_find_method_end] returns -1 or a line at or
    below it that holds a closing brace, and then some line between the
    two, ends included, holds an opening brace: the braces opened above
    the current line are never counted. *)
Theorem find_method_end_needs_open_brace (lines : list string) (i : nat)
    (line : string) :
  lines !! i = Some line ->
  exists z,
    MethodBounds._find_method_end lines (Z.of_nat i) = Ok z
    /\ (z = -1
        \/ exists (k : nat) l,
             z = Z.of_nat k /\ (i <= k < length lines)%nat
             /\ lines !! k = Some l /\ str_in "}" l = true
             /\ exists (j : nat) lj, (i <= j <= k)%nat /\ lines !! j = Some lj
                  /\ str_in "{" lj = true).
Proof.
  intros Hl. apply lookup_lt_Some in Hl.
  unfold MethodBounds._find_method_end, py_range, len.
  replace (Z.of_nat (length lines) - Z.of_nat i)
    with (Z.of_nat (length lines - i)) by lia.
  destruct (find_method_end_loop_spec lines (length lines - i) i 0 false)
    as (z & Hz & Hcase); [lia|].
  exists z. split; [exact Hz|].
  destruct Hcase as [->|(k & l & -> & Hk & Hkl & Hclose & Hopen)]; [by left|].
  right. exists k, l. repeat split; auto; try lia.
  destruct Hopen as [?|Hopen]; [discriminate|exact Hopen].
Qed.

Lemma find_method_end_needs_open_brace_witness :
  exists z,
    MethodBounds._find_method_end lines_F (Z.of_nat 0) = Ok z
    /\ (z = -1
        \/ exists (k : nat) l,
             z = Z.of_nat k /\ (0 <= k < length lines_F)%nat
             /\ lines_F !! k = Some l /\ str_in "}" l = true
             /\ exists (j : nat) lj, (0 <= j <= k)%nat /\ lines_F !! j = Some lj
                  /\ str_in "{" lj = true).
Proof.
  apply (find_method_end_needs_open_brace lines_F 0
           ("public int get(int[] arr, int i) {" +:+ LF)).
  reflexivity.
Defined.

Lemma find_method_end_no_open_brace (lines : list string) (i : nat)
    (line : string) :
  lines !! i = Some line ->
  (forall (j : nat) l, (i <= j)%nat -> lines !! j = Some l ->
     str_in "{" l = false) ->
  MethodBounds._find_method_end lines (Z.of_nat i) = Ok (-1).
Proof.
  intros Hl Hno. apply lookup_lt_Some in Hl.
  unfold MethodBounds._find_method_end, py_range, len.
  replace (Z.of_nat (length lines) - Z.of_nat i)
    with (Z.of_nat (length lines - i)) by lia.
  destruct (find_method_end_loop_spec lines (length lines - i) i 0 false)
    as (z & Hz & [->|(k & l & _ & _ & _ & _ & Hopen)]); [lia|exact Hz|].
  destruct Hopen as [?|(j & lj & Hj & Hjl & Hjo)]; [discriminate|].
  rewrite (Hno j lj) in Hjo; [discriminate|lia|exact Hjl].
Qed.

(** X12. When no line from the current one to the end of the file holds an
    opening brace, which is the case of a statement inside the last
    method of a file whose braces open on earlier lines, the end of the
    method is not found: the search for a guard returns [False] without
    reading any line, for bounds checks and for null checks alike, and
    an array access on the line is reported whatever the lines above
    check. *)
Theorem guard_above_is_not_seen (lines : list string) (i : nat)
    (line : string) :
  lines !! i = Some line ->
  (forall (j : nat) l, (i <= j)%nat -> lines !! j = Some l ->
     str_in "{" l = false) ->
  MethodBounds._find_method_end lines (Z.of_nat i) = Ok (-1)
  /\ (forall container_name index_var,
        UnsafeArrayIndexAccessRule._has_bounds_check lines (Z.of_nat i)
          container_name index_var = Ok false)
  /\ (forall object_name,
        UnsafeNullableObjectAccessRule._has_null_check lines (Z.of_nat i)
          object_name = Ok false)
  /\ (forall m,
        regex_search false UnsafeArrayIndexAccessRule.ARRAY_ACCESS_PATTERN line
        = Some m ->
        UnsafeArrayIndexAccessRule.check_array lines (Z.of_nat i) line
        = Gen [issue (Z.of_nat i + 1) (strip line)
                 ("Unsafe array access: `" +:+ group m 1 +:+ "[" +:+ group m 2
                  +:+ "]` without bounds checking. This can cause IndexOutOfBoundsException.")
                 "HIGH"] (Ok tt)).
Proof.
  intros Hl Hno.
  pose proof (find_method_end_no_open_brace lines i line Hl Hno) as Hend.
  split; [exact Hend|]. split; [|split].
  - intros c v. apply (has_bounds_check_unresolved lines i line); auto.
  - intros o. apply (has_null_check_unresolved lines i line); auto.
  - intros m Hm. unfold UnsafeArrayIndexAccessRule.check_array. cbv zeta.
    rewrite Hm, (has_bounds_check_unresolved lines i line _ _ Hl (or_intror Hend)),
      lift_Ok_bind.
    reflexivity.
Qed.

Lemma guard_above_is_not_seen_witness :
  MethodBounds._find_method_end lines_F (Z.of_nat 2) = Ok (-1)
  /\ (forall container_name index_var,
        UnsafeArrayIndexAccessRule._has_bounds_check lines_F (Z.of_nat 2)
          container_name index_var = Ok false)
  /\ (forall object_name,
        UnsafeNullableObjectAccessRule._has_null_check lines_F (Z.of_nat 2)
          object_name = Ok false)
  /\ (forall m,
        regex_search false UnsafeArrayIndexAccessRule.ARRAY_ACCESS_PATTERN
          ("    return arr[i];" +:+ LF)
        = Some m ->
        UnsafeArrayIndexAccessRule.check_array lines_F (Z.of_nat 2)
          ("    return arr[i];" +:+ LF)
        = Gen [issue (Z.of_nat 2 + 1) (strip ("    return arr[i];" +:+ LF))
                 ("Unsafe array access: `" +:+ group m 1 +:+ "[" +:+ group m 2
                  +:+ "]` without bounds checking. This can cause IndexOutOfBoundsException.")
                 "HIGH"] (Ok tt)).
Proof.
  apply (guard_above_is_not_seen lines_F 2 ("    return arr[i];" +:+ LF)).
  - reflexivity.
  - intros j l Hj Hjl.
    destruct j as [|[|[|[|j] ] ] ]; [lia|lia| | |discriminate];
      injection Hjl as <-; reflexivity.
Defined.

(** ** Rules: what the loops over the lines yield *)

Ltac yields_eq H :=
  repeat first
    [ apply traced_bind_In in H as [H | (? & ? & H)]
    | match type of H with
      | In _ (emitted (if ?c then _ else _)) => destruct c eqn:?
      | In _ (emitted (match ?x with _ => _ end)) => destruct x eqn:?
      | In _ (emitted (mret _)) => destruct H
      | In _ (emitted (lift _)) => destruct H
      | In _ (emitted (yield _)) => destruct H as [<- | []]
      | In _ [] => destruct H
      end ].

Ltac reports :=
  split; [assumption|]; do 2 eexists; split; [reflexivity|];
  repeat match goal with
         | |- context [if ?c then _ else _] => destruct c
         end;
  cbn [In]; tauto.

Ltac returns :=
  repeat match goal with
         | |- context [if ?c then _ else _] => destruct c
         | |- context [match ?x with Some _ => _ | None => _ end] => destruct x
         end;
  eexists; reflexivity.

Lemma for_enumerate_yields {St} (body : St -> Z -> string -> gen St)
    (ls : list string) :
  forall st i d, In d (yielded (for_enumerate body st i ls)) ->
    exists st' (k : nat) line,
      ls !! k = Some line /\ In d (yielded (body st' (i + Z.of_nat k) line)).
Proof.
  induction ls as [|line ls IH]; intros st i d H; [destruct H|].
  cbn [for_enumerate] in H.
  apply traced_bind_In in H as [H | (st' & _ & H)].
  - exists st, 0%nat, line. split; [reflexivity|].
    by replace (i + Z.of_nat 0) with i by lia.
  - destruct (IH _ _ _ H) as (st'' & k & l & Hl & Hd).
    exists st'', (S k), l. split; [exact Hl|].
    by replace (i + Z.of_nat (S k)) with (i + 1 + Z.of_nat k) by lia.
Qed.

Lemma for_enumerate_reports {St} (body : St -> Z -> string -> gen St)
    (lines : list string) (st : St) (d : dict) :
  (forall st i line d, In d (yielded (body st i line)) -> reports_line i line d) ->
  In d (yielded (for_enumerate body st 0 lines)) ->
  exists (i : nat) line,
    lines !! i = Some line /\ reports_line (Z.of_nat i) line d.
Proof.
  intros Hbody H.
  destruct (for_enumerate_yields body lines st 0 d H) as (st' & k & l & Hl & Hd).
  exists k, l. split; [exact Hl|]. apply (Hbody st'). exact Hd.
Qed.

Lemma for_enumerate_returns {St} (body : St -> Z -> string -> gen St)
    (ls : list string) :
  (forall st i line, exists st', outcome (body st i line) = Ok st') ->
  forall st i, outcome (for_enumerate body st i ls) = Ok tt.
Proof.
  intros Hbody. induction ls as [|line ls IH]; intros st i; [reflexivity|].
  cbn [for_enumerate]. destruct (Hbody st i line) as [st' Hst].
  rewrite (traced_bind_Ok _ _ st' Hst). cbn [outcome]. apply IH.
Qed.

Lemma UnsafeStartActivityRule_reports st i line d :
  In d (yielded (UnsafeStartActivityRule.body st i line)) ->
  reports_line i line d.
Proof.
  unfold UnsafeStartActivityRule.body. cbv zeta. intros H.
  yields_eq H; reports.
Qed.

Lemma UnsafeArrayIndexAccessRule_reports lines st i line d :
  In d (yielded (UnsafeArrayIndexAccessRule.body lines st i line)) ->
  reports_line i line d.
Proof.
  unfold UnsafeArrayIndexAccessRule.body, UnsafeArrayIndexAccessRule.check_array,
    UnsafeArrayIndexAccessRule.check_string. cbv zeta. intros H.
  yields_eq H; reports.
Qed.

Lemma UnsafeNullableObjectAccessRule_reports lines st i line d :
  In d (yielded (UnsafeNullableObjectAccessRule.body lines st i line)) ->
  reports_line i line d.
Proof.
  unfold UnsafeNullableObjectAccessRule.body. cbv zeta. intros H.
  yields_eq H; reports.
Qed.

Lemma StrictFailedRequirementExceptionRule_reports lines st i line d :
  In d (yielded (StrictFailedRequirementExceptionRule.body lines st i line)) ->
  reports_line i line d.
Proof.
  unfold StrictFailedRequirementExceptionRule.body. cbv zeta. intros H.
  yields_eq H; reports.
Qed.

Lemma UnsafeBrowserIntentRule_reports st i line d :
  In d (yielded (UnsafeBrowserIntentRule.body st i line)) ->
  reports_line i line d.
Proof.
  unfold UnsafeBrowserIntentRule.body. cbv zeta. intros H.
  yields_eq H; reports.
Qed.

Lemma StrictQuickTileForegroundStartRule_reports lines st i line d :
  In d (yielded (StrictQuickTileForegroundStartRule.body lines st i line)) ->
  reports_line i line d.
Proof.
  unfold StrictQuickTileForegroundStartRule.body. cbv zeta. intros H.
  yields_eq H; reports.
Qed.

Lemma StrictWithResumedUsageRule_reports lines st i line d :
  In d (yielded (StrictWithResumedUsageRule.body lines st i line)) ->
  reports_line i line d.
Proof.
  unfold StrictWithResumedUsageRule.body. cbv zeta. intros H.
  yields_eq H; reports.
Qed.

Lemma StrictRepeatOnLifecycleCreatedInitRule_reports lines st i line d :
  In d (yielded (StrictRepeatOnLifecycleCreatedInitRule.body lines st i line)) ->
  reports_line i line d.
Proof.
  unfold StrictRepeatOnLifecycleCreatedInitRule.body. cbv zeta. intros H.
  yields_eq H; reports.
Qed.

Lemma StrictFileProviderAuthorityRule_reports st i line d :
  In d (yielded (StrictFileProviderAuthorityRule.body st i line)) ->
  reports_line i line d.
Proof.
  unfold StrictFileProviderAuthorityRule.body. cbv zeta. intros H.
  yields_eq H; reports.
Qed.

Lemma StrictFileProviderHelperSignatureRule_reports st i line d :
  In d (yielded (StrictFileProviderHelperSignatureRule.body st i line)) ->
  reports_line i line d.
Proof.
  unfold StrictFileProviderHelperSignatureRule.body. cbv zeta. intros H.
  yields_eq H; reports.
Qed.

Lemma StrictSponsorBlockApiUrlRule_reports st i line d :
  In d (yielded (StrictSponsorBlockApiUrlRule.body st i line)) ->
  reports_line i line d.
Proof.
  unfold StrictSponsorBlockApiUrlRule.body. cbv zeta. intros H.
  yields_eq H; reports.
Qed.

Lemma StrictHttpUrlSchemeRule_reports st i line d :
  In d (yielded (StrictHttpUrlSchemeRule.body st i line)) ->
  reports_line i line d.
Proof.
  unfold StrictHttpUrlSchemeRule.body. cbv zeta. intros H.
  yields_eq H; reports.
Qed.

Lemma StrictFragmentDialogStateLossRule_reports lines st i line d :
  In d (yielded (StrictFragmentDialogStateLossRule.body lines st i line)) ->
  reports_line i line d.
Proof.
  unfold StrictFragmentDialogStateLossRule.body. cbv zeta. intros H.
  yields_eq H; reports.
Qed.

(** The rule about tile services reports on the file as a whole. *)
Lemma StrictTilePendingIntentWorkaroundRule_yields file_path lines d :
  In d (yielded (StrictTilePendingIntentWorkaroundRule.analyze_file
                   file_path lines)) ->
  lines <> []
  /\ exists detail,
       d = issue 1 "PendingIntent workaround incomplete" detail "MEDIUM".
Proof.
  unfold StrictTilePendingIntentWorkaroundRule.analyze_file. cbv zeta.
  intros H.
  destruct (negb (endswith file_path ".kt")); [destruct H|].
  destruct lines as [|l lines]; [vm_compute in H; destruct H|].
  split; [discriminate|]. yields_eq H. eexists. reflexivity.
Qed.

Lemma StrictPeertubeChannelIdParsingRule_yields file_path lines d :
  In d (yielded (StrictPeertubeChannelIdParsingRule.analyze_file
                   file_path lines)) ->
  exists detail, d = issue 1 "PeerTube link handler patterns" detail "MEDIUM".
Proof.
  unfold StrictPeertubeChannelIdParsingRule.analyze_file. cbv zeta. intros H.
  yields_eq H; eexists; reflexivity.
Qed.

(** *** Line rules *)

Lemma line_rules_yield (rule : Rule) (file_path : string)
    (lines : list string) (d : dict) :
  In rule line_rules ->
  In d (yielded (analyze_file rule file_path lines)) ->
  exists (i : nat) line,
    lines !! i = Some line /\ reports_line (Z.of_nat i) line d.
Proof.
  intros Hrule Hd. unfold line_rules in Hrule. cbn [In] in Hrule.
  repeat (destruct Hrule as [<-|Hrule]); [..|destruct Hrule];
    cbn [analyze_file UnsafeStartActivityRule.rule UnsafeArrayIndexAccessRule.rule
           UnsafeNullableObjectAccessRule.rule
           StrictFailedRequirementExceptionRule.rule UnsafeBrowserIntentRule.rule
           StrictQuickTileForegroundStartRule.rule StrictWithResumedUsageRule.rule
           StrictRepeatOnLifecycleCreatedInitRule.rule
           StrictFileProviderAuthorityRule.rule
           StrictFileProviderHelperSignatureRule.rule
           StrictSponsorBlockApiUrlRule.rule StrictHttpUrlSchemeRule.rule
           StrictFragmentDialogStateLossRule.rule] in Hd;
    unfold UnsafeStartActivityRule.analyze_file,
      UnsafeArrayIndexAccessRule.analyze_file,
      UnsafeNullableObjectAccessRule.analyze_file,
      StrictFailedRequirementExceptionRule.analyze_file,
      UnsafeBrowserIntentRule.analyze_file,
      StrictQuickTileForegroundStartRule.analyze_file,
      StrictWithResumedUsageRule.analyze_file,
      StrictRepeatOnLifecycleCreatedInitRule.analyze_file,
      StrictFileProviderAuthorityRule.analyze_file,
      StrictFileProviderHelperSignatureRule.analyze_file,
      StrictSponsorBlockApiUrlRule.analyze_file,
      StrictHttpUrlSchemeRule.analyze_file,
      StrictFragmentDialogStateLossRule.analyze_file in Hd;
    try match type of Hd with
        | In _ (emitted (if ?c then _ else _)) => destruct c; [destruct Hd|]
        end;
    revert Hd; apply for_enumerate_reports.
  - apply UnsafeStartActivityRule_reports.
  - apply UnsafeArrayIndexAccessRule_reports.
  - apply UnsafeNullableObjectAccessRule_reports.
  - apply StrictFailedRequirementExceptionRule_reports.
  - apply UnsafeBrowserIntentRule_reports.
  - apply StrictQuickTileForegroundStartRule_reports.
  - apply StrictWithResumedUsageRule_reports.
  - apply StrictRepeatOnLifecycleCreatedInitRule_reports.
  - apply StrictFileProviderAuthorityRule_reports.
  - apply StrictFileProviderHelperSignatureRule_reports.
  - apply StrictSponsorBlockApiUrlRule_reports.
  - apply StrictHttpUrlSchemeRule_reports.
  - apply StrictFragmentDialogStateLossRule_reports.
Qed.

(** X13. For each of the thirteen rules that report inside their loop over
    the lines, every issue is about a line of the file that is neither
    blank nor a line comment: its line number is the position of that
    line, its code is that line without the surrounding white space, and
    its severity is HIGH, MEDIUM or LOW. *)
Theorem line_rules_quote_their_line (rule : Rule) (file_path : string)
    (lines : list string) (d : dict) :
  In rule line_rules ->
  In d (yielded (analyze_file rule file_path lines)) ->
  exists (i : nat) (line detail severity : string),
    lines !! i = Some line
    /\ blank_or_comment (strip line) = false
    /\ d !! "line_num" = Some (VInt (Z.of_nat i + 1))
    /\ d !! "code" = Some (VStr (strip line))
    /\ d !! "detail" = Some (VStr detail)
    /\ d !! "severity" = Some (VStr severity)
    /\ In severity ["HIGH"; "MEDIUM"; "LOW"].
Proof.
  intros Hrule Hd.
  destruct (line_rules_yield rule file_path lines d Hrule Hd)
    as (i & line & Hl & Hnb & detail & severity & -> & Hsev).
  exists i, line, detail, severity. by repeat split.
Qed.

Lemma lines_G_yields :
  yielded (analyze_file StrictWithResumedUsageRule.rule "repo/G.kt" lines_G)
  = [issue 2 "repeatOnLifecycle(Lifecycle.State.RESUMED) {"
       "repeatOnLifecycle(RESUMED) used for UI/navigation; prefer withResumed to avoid state issues."
       "HIGH";
     issue 6 "repeatOnLifecycle(Lifecycle.State.RESUMED) { }"
       "repeatOnLifecycle(RESUMED) used for UI/navigation; prefer withResumed to avoid state issues."
       "MEDIUM"].
Proof.
  vm_cast_no_check
    (eq_refl (yielded (analyze_file StrictWithResumedUsageRule.rule
                         "repo/G.kt" lines_G))).
Qed.

Lemma line_rules_quote_their_line_witness :
  exists (i : nat) (line detail severity : string),
    lines_G !! i = Some line
    /\ blank_or_comment (strip line) = false
    /\ issue 2 "repeatOnLifecycle(Lifecycle.State.RESUMED) {"
         "repeatOnLifecycle(RESUMED) used for UI/navigation; prefer withResumed to avoid state issues."
         "HIGH" !! "line_num" = Some (VInt (Z.of_nat i + 1))
    /\ issue 2 "repeatOnLifecycle(Lifecycle.State.RESUMED) {"
         "repeatOnLifecycle(RESUMED) used for UI/navigation; prefer withResumed to avoid state issues."
         "HIGH" !! "code" = Some (VStr (strip line))
    /\ issue 2 "repeatOnLifecycle(Lifecycle.State.RESUMED) {"
         "repeatOnLifecycle(RESUMED) used for UI/navigation; prefer withResumed to avoid state issues."
         "HIGH" !! "detail" = Some (VStr detail)
    /\ issue 2 "repeatOnLifecycle(Lifecycle.State.RESUMED) {"
         "repeatOnLifecycle(RESUMED) used for UI/navigation; prefer withResumed to avoid state issues."
         "HIGH" !! "severity" = Some (VStr severity)
    /\ In severity ["HIGH"; "MEDIUM"; "LOW"].
Proof.
  apply (line_rules_quote_their_line StrictWithResumedUsageRule.rule
           "repo/G.kt" lines_G).
  - do 6 right. left. reflexivity.
  - rewrite lines_G_yields. left. reflexivity.
Defined.

Lemma further_rules_cases (rule : Rule) :
  In rule further_rules ->
  rule = StrictTilePendingIntentWorkaroundRule.rule \/ In rule line_rules.
Proof.
  unfold further_rules, line_rules. cbn [In]. intros H.
  repeat (destruct H as [<-|H]); try destruct H; tauto.
Qed.

(** X14. For each of the ten further rules, every issue has an integer line
    number between 1 and the number of lines of the file, with no
    condition on the file: the rule that reports on the file as a whole
    files its issue at line 1 only when the file has a line. *)
Theorem further_rules_line_numbers (rule : Rule) (file_path : string)
    (lines : list string) (d : dict) :
  In rule further_rules ->
  In d (yielded (analyze_file rule file_path lines)) ->
  exists n, d !! "line_num" = Some (VInt n) /\ 1 <= n <= len lines.
Proof.
  intros Hrule Hd. destruct (further_rules_cases rule Hrule) as [->|Hline].
  - apply StrictTilePendingIntentWorkaroundRule_yields in Hd
      as (Hne & detail & ->).
    exists 1. split; [reflexivity|]. destruct lines; [done|].
    unfold len. cbn [length]. lia.
  - destruct (line_rules_yield rule file_path lines d Hline Hd)
      as (i & line & Hl & _ & detail & severity & -> & _).
    exists (Z.of_nat i + 1). split; [reflexivity|].
    apply lookup_lt_Some in Hl. unfold len. lia.
Qed.

Lemma further_rules_line_numbers_witness :
  exists n,
    issue 6 "repeatOnLifecycle(Lifecycle.State.RESUMED) { }"
      "repeatOnLifecycle(RESUMED) used for UI/navigation; prefer withResumed to avoid state issues."
      "MEDIUM" !! "line_num" = Some (VInt n)
    /\ 1 <= n <= len lines_G.
Proof.
  apply (further_rules_line_numbers StrictWithResumedUsageRule.rule
           "repo/G.kt" lines_G).
  - do 3 right. left. reflexivity.
  - rewrite lines_G_yields. right. left. reflexivity.
Defined.

(** *** Groups that take part in every match *)

Lemma cap_lookup_cons (j m : nat) (v : string) (caps : captures) :
  is_Some (cap_lookup j caps) -> is_Some (cap_lookup j ((m, v) :: caps)).
Proof. intros H. cbn [cap_lookup]. by destruct (Nat.eqb m j). Qed.

Lemma rmatch_caps (n : nat) (r : regex) :
  forall {R} (ic : bool) (s : string) (caps : captures)
         (k : string -> captures -> option R) (x : R),
  rmatch ic r s caps k = Some x ->
  exists s' caps',
    k s' caps' = Some x
    /\ (forall j, is_Some (cap_lookup j caps) -> is_Some (cap_lookup j caps'))
    /\ (always_sets n r = true -> is_Some (cap_lookup n caps')).
Proof.
  induction r as [|c| |neg items|r1 IH1 r2 IH2|r1 IH1 r2 IH2|r IH|m r IH];
    intros R ic s caps k x H; cbn [rmatch always_sets] in *.
  - exists s, caps. by repeat split.
  - destruct s as [|a s']; [discriminate|].
    destruct (char_eq ic a c); [|discriminate].
    exists s', caps. by repeat split.
  - destruct s as [|a s']; [discriminate|].
    destruct (ord a =? 10)%N; [discriminate|].
    exists s', caps. by repeat split.
  - destruct s as [|a s']; [discriminate|].
    destruct (in_set ic neg items a); [|discriminate].
    exists s', caps. by repeat split.
  - apply IH1 in H as (s1 & caps1 & H & Hm1 & Hs1).
    apply IH2 in H as (s2 & caps2 & H & Hm2 & Hs2).
    exists s2, caps2. split; [exact H|]. split; [auto|].
    intros Ha. apply orb_true_iff in Ha as [Ha|Ha]; auto.
  - destruct (rmatch ic r1 s caps k) as [y|] eqn:H1.
    + injection H as ->. apply IH1 in H1 as (s1 & caps1 & H & Hm1 & Hs1).
      exists s1, caps1. split; [exact H|]. split; [auto|].
      intros Ha. apply andb_true_iff in Ha as [Ha _]. auto.
    + apply IH2 in H as (s2 & caps2 & H & Hm2 & Hs2).
      exists s2, caps2. split; [exact H|]. split; [auto|].
      intros Ha. apply andb_true_iff in Ha as [_ Ha]. auto.
  - revert H. generalize (String.length s) at 1. intros fuel.
    revert s caps. induction fuel as [|fuel IHf]; intros s caps H.
    + exists s, caps. by repeat split.
    + match type of H with
      | match ?e with _ => _ end = _ => destruct e as [y|] eqn:Hr
      end.
      * injection H as ->. apply IH in Hr as (s1 & caps1 & H & Hm1 & _).
        destruct (String.length s1 <? String.length s)%nat; [|discriminate].
        apply IHf in H as (s2 & caps2 & H & Hm2 & _).
        exists s2, caps2. split; [exact H|]. split; [auto|discriminate].
      * exists s, caps. by repeat split.
  - apply IH in H as (s1 & caps1 & H & Hm1 & Hs1).
    exists s1, ((m, consumed s s1) :: caps1). split; [exact H|]. split.
    + intros j Hj. by apply cap_lookup_cons, Hm1.
    + intros Ha. apply orb_true_iff in Ha as [Ha|Ha].
      * apply Nat.eqb_eq in Ha as ->. cbn [cap_lookup].
        by rewrite Nat.eqb_refl.
      * by apply cap_lookup_cons, Hs1.
Qed.

(** A group that every match of the pattern goes through is never [None]
    in a match object. *)
Lemma regex_search_group (n : nat) (ic : bool) (r : regex) (s : string)
    (m : match_obj) :
  always_sets n r = true ->
  regex_search ic r s = Some m ->
  exists g, group_opt m n = Some g.
Proof.
  intros Ha. unfold regex_search. generalize 0%nat as pos.
  induction s as [|a s IH]; intros pos; cbn [search_from].
  - destruct (rmatch ic r "" [] _) as [y|] eqn:Hr; [|discriminate].
    intros [= ->].
    apply (rmatch_caps n) in Hr as (s' & caps' & [= <-] & _ & Hs).
    destruct (Hs Ha) as [g Hg]. by exists g.
  - destruct (rmatch ic r (String a s) [] _) as [y|] eqn:Hr.
    + intros [= ->].
      apply (rmatch_caps n) in Hr as (s' & caps' & [= <-] & _ & Hs).
      destruct (Hs Ha) as [g Hg]. by exists g.
    + apply IH.
Qed.

(** *** Rules that cannot raise *)

Lemma UnsafeStartActivityRule_returns st i line :
  exists st', outcome (UnsafeStartActivityRule.body st i line) = Ok st'.
Proof. unfold UnsafeStartActivityRule.body. cbv zeta. returns. Qed.

Lemma UnsafeBrowserIntentRule_returns st i line :
  exists st', outcome (UnsafeBrowserIntentRule.body st i line) = Ok st'.
Proof. unfold UnsafeBrowserIntentRule.body. cbv zeta. returns. Qed.

Lemma StrictQuickTileForegroundStartRule_returns lines st i line :
  exists st',
    outcome (StrictQuickTileForegroundStartRule.body lines st i line) = Ok st'.
Proof. unfold StrictQuickTileForegroundStartRule.body. cbv zeta. returns. Qed.

Lemma StrictWithResumedUsageRule_returns lines st i line :
  exists st', outcome (StrictWithResumedUsageRule.body lines st i line) = Ok st'.
Proof. unfold StrictWithResumedUsageRule.body. cbv zeta. returns. Qed.

Lemma StrictRepeatOnLifecycleCreatedInitRule_returns lines st i line :
  exists st',
    outcome (StrictRepeatOnLifecycleCreatedInitRule.body lines st i line)
    = Ok st'.
Proof.
  unfold StrictRepeatOnLifecycleCreatedInitRule.body. cbv zeta. returns.
Qed.

Lemma StrictFileProviderAuthorityRule_returns st i line :
  exists st', outcome (StrictFileProviderAuthorityRule.body st i line) = Ok st'.
Proof. unfold StrictFileProviderAuthorityRule.body. cbv zeta. returns. Qed.

Lemma StrictFileProviderHelperSignatureRule_returns st i line :
  exists st',
    outcome (StrictFileProviderHelperSignatureRule.body st i line) = Ok st'.
Proof. unfold StrictFileProviderHelperSignatureRule.body. cbv zeta. returns. Qed.

Lemma has_http_scheme_group (n : nat) (r : regex) (s : string) (m : match_obj) :
  always_sets n r = true ->
  regex_search false r s = Some m ->
  exists b, has_http_scheme (group_opt m n) = Ok b.
Proof.
  intros Ha Hm. destruct (regex_search_group n false r s m Ha Hm) as [g ->].
  by eexists.
Qed.

Lemma bad_literal_group (n : nat) (r : regex) (s : string) (m : match_obj) :
  always_sets n r = true ->
  regex_search false r s = Some m ->
  exists b, StrictHttpUrlSchemeRule.bad_literal (group_opt m n) = Ok b.
Proof.
  intros Ha Hm. destruct (regex_search_group n false r s m Ha Hm) as [g ->].
  unfold StrictHttpUrlSchemeRule.bad_literal.
  destruct (String.eqb g ""); by eexists.
Qed.

Lemma StrictSponsorBlockApiUrlRule_returns st i line :
  exists st', outcome (StrictSponsorBlockApiUrlRule.body st i line) = Ok st'.
Proof.
  unfold StrictSponsorBlockApiUrlRule.body. cbv zeta.
  destruct (blank_or_comment (strip line)); [by eexists|].
  destruct (regex_search false
              StrictSponsorBlockApiUrlRule.LITERAL_URL_CALL_PATTERN (strip line))
    as [m|] eqn:Hm.
  - destruct (has_http_scheme_group 1
                StrictSponsorBlockApiUrlRule.LITERAL_URL_CALL_PATTERN
                (strip line) m eq_refl Hm) as [b ->].
    rewrite lift_Ok_bind. returns.
  - returns.
Qed.

Lemma StrictHttpUrlSchemeRule_returns st i line :
  exists st', outcome (StrictHttpUrlSchemeRule.body st i line) = Ok st'.
Proof.
  unfold StrictHttpUrlSchemeRule.body. cbv zeta.
  destruct (blank_or_comment (strip line)); [by eexists|].
  destruct (regex_search false
              StrictHttpUrlSchemeRule.REQUEST_BUILDER_URL_PATTERN (strip line))
    as [m1|] eqn:Hm1;
    destruct (regex_search false
                StrictHttpUrlSchemeRule.HTTPURL_GET_PATTERN (strip line))
      as [m2|] eqn:Hm2;
    try (destruct (bad_literal_group 1
                     StrictHttpUrlSchemeRule.REQUEST_BUILDER_URL_PATTERN
                     (strip line) m1 eq_refl Hm1) as [b1 ->];
         rewrite lift_Ok_bind);
    try (destruct (bad_literal_group 2
                     StrictHttpUrlSchemeRule.HTTPURL_GET_PATTERN
                     (strip line) m2 eq_refl Hm2) as [b2 ->];
         rewrite lift_Ok_bind);
    returns.
Qed.

Lemma StrictFragmentDialogStateLossRule_returns lines st i line :
  exists st',
    outcome (StrictFragmentDialogStateLossRule.body lines st i line) = Ok st'.
Proof. unfold StrictFragmentDialogStateLossRule.body. cbv zeta. returns. Qed.

Lemma quiet_rules_return (rule : Rule) (file_path : string)
    (lines : list string) :
  In rule quiet_rules ->
  outcome (analyze_file rule file_path lines) = Ok tt.
Proof.
  unfold quiet_rules, further_rules. cbn [In]. intros H.
  repeat (destruct H as [<-|H]); [..|destruct H];
    cbn [analyze_file UnsafeStartActivityRule.rule
           StrictPeertubeChannelIdParsingRule.rule UnsafeBrowserIntentRule.rule
           StrictQuickTileForegroundStartRule.rule
           StrictTilePendingIntentWorkaroundRule.rule
           StrictWithResumedUsageRule.rule
           StrictRepeatOnLifecycleCreatedInitRule.rule
           StrictFileProviderAuthorityRule.rule
           StrictFileProviderHelperSignatureRule.rule
           StrictSponsorBlockApiUrlRule.rule StrictHttpUrlSchemeRule.rule
           StrictFragmentDialogStateLossRule.rule];
    unfold UnsafeStartActivityRule.analyze_file,
      StrictPeertubeChannelIdParsingRule.analyze_file,
      UnsafeBrowserIntentRule.analyze_file,
      StrictQuickTileForegroundStartRule.analyze_file,
      StrictTilePendingIntentWorkaroundRule.analyze_file,
      StrictWithResumedUsageRule.analyze_file,
      StrictRepeatOnLifecycleCreatedInitRule.analyze_file,
      StrictFileProviderAuthorityRule.analyze_file,
      StrictFileProviderHelperSignatureRule.analyze_file,
      StrictSponsorBlockApiUrlRule.analyze_file,
      StrictHttpUrlSchemeRule.analyze_file,
      StrictFragmentDialogStateLossRule.analyze_file;
    cbv zeta;
    try match goal with
        | |- outcome (if ?c then _ else _) = _ => destruct c; [reflexivity|]
        end;
    try apply for_enumerate_returns.
  - apply UnsafeStartActivityRule_returns.
  - repeat match goal with
           | |- outcome (if ?c then _ else _) = _ => destruct c; try reflexivity
           end.
  - apply UnsafeBrowserIntentRule_returns.
  - apply StrictQuickTileForegroundStartRule_returns.
  - match goal with
    | |- outcome (if ?c then _ else _) = _ => destruct c; reflexivity
    end.
  - apply StrictWithResumedUsageRule_returns.
  - apply StrictRepeatOnLifecycleCreatedInitRule_returns.
  - apply StrictFileProviderAuthorityRule_returns.
  - apply StrictFileProviderHelperSignatureRule_returns.
  - apply StrictSponsorBlockApiUrlRule_returns.
  - apply StrictHttpUrlSchemeRule_returns.
  - apply StrictFragmentDialogStateLossRule_returns.
Qed.

Lemma quiet_rules_cases (rule : Rule) :
  In rule quiet_rules ->
  rule = StrictTilePendingIntentWorkaroundRule.rule
  \/ rule = StrictPeertubeChannelIdParsingRule.rule
  \/ In rule line_rules.
Proof.
  unfold quiet_rules, further_rules, line_rules. cbn [In]. intros H.
  repeat (destruct H as [<-|H]); try destruct H; tauto.
Qed.

Lemma quiet_rules_issue (rule : Rule) (file_path : string)
    (lines : list string) (d : dict) :
  In rule quiet_rules ->
  In d (yielded (analyze_file rule file_path lines)) ->
  exists n code detail severity, d = issue n code detail severity.
Proof.
  intros Hrule Hd. destruct (quiet_rules_cases rule Hrule) as [->|[->|Hline] ].
  - apply StrictTilePendingIntentWorkaroundRule_yields in Hd
      as (_ & detail & ->). by repeat eexists.
  - apply StrictPeertubeChannelIdParsingRule_yields in Hd as (detail & ->).
    by repeat eexists.
  - destruct (line_rules_yield rule file_path lines d Hline Hd)
      as (i & line & _ & _ & detail & severity & -> & _). by repeat eexists.
Qed.

Lemma quiet_rules_texts (rule : Rule) :
  In rule quiet_rules ->
  exists ty sg, issue_type rule = Ok ty /\ suggestion rule = Ok sg.
Proof.
  unfold quiet_rules, further_rules. cbn [In]. intros H.
  repeat (destruct H as [<-|H]); [..|destruct H]; by repeat eexists.
Qed.

Lemma format_issue_of_issue fs file_path rule ty sg n code detail severity :
  issue_type rule = Ok ty -> suggestion rule = Ok sg ->
  exists finding,
    CodeScanner._format_issue fs file_path rule (issue n code detail severity)
    = Ok finding.
Proof.
  intros Hty Hsg.
  assert (Hc : issue n code detail severity !! "code" = Some (VStr code))
    by (unfold issue; by simplify_map_eq).
  unfold CodeScanner._format_issue, getitem.
  rewrite issue_line_num, !bind_Ok, Hty, bind_Ok, Hc, bind_Ok, Hsg, bind_Ok.
  by eexists.
Qed.

Lemma append_issues_total fs file_path rule (issues : list dict) :
  (forall d, In d issues ->
     exists f, CodeScanner._format_issue fs file_path rule d = Ok f) ->
  snd (CodeScanner.append_issues fs file_path rule issues []) = Ok tt
  /\ Forall2 (fun d f => CodeScanner._format_issue fs file_path rule d = Ok f)
       issues (fst (CodeScanner.append_issues fs file_path rule issues [])).
Proof.
  induction issues as [|d issues IH]; intros H.
  - split; [reflexivity|constructor].
  - destruct (H d) as [f Hf]; [by left|].
    destruct IH as [Hs Hall]; [intros d' Hd'; apply H; by right|].
    cbn [CodeScanner.append_issues]. rewrite Hf, append_issues_acc.
    cbn [fst snd app]. split; [exact Hs|]. by constructor.
Qed.

Lemma run_rule_quiet fs file_path lines (r : Rule) :
  In r quiet_rules ->
  snd (CodeScanner.run_rule fs file_path lines r []) = Ok tt
  /\ Forall2 (fun d f => CodeScanner._format_issue fs file_path r d = Ok f)
       (yielded (analyze_file r file_path lines))
       (fst (CodeScanner.run_rule fs file_path lines r [])).
Proof.
  intros Hq. unfold CodeScanner.run_rule.
  destruct (append_issues_total fs file_path r
              (yielded (analyze_file r file_path lines))) as [Hs Hall].
  { intros d Hd.
    destruct (quiet_rules_issue r file_path lines d Hq Hd)
      as (n & code & detail & severity & ->).
    destruct (quiet_rules_texts r Hq) as (ty & sg & Hty & Hsg).
    by apply (format_issue_of_issue fs file_path r ty sg). }
  destruct (CodeScanner.append_issues fs file_path r
              (yielded (analyze_file r file_path lines)) []) as [l st].
  cbn [fst snd] in *. subst st. cbn [fst snd].
  split; [apply quiet_rules_return; exact Hq|exact Hall].
Qed.

(** X15. Twelve rules have no operation that can raise: on every file their
    generator runs to its end, every issue they yield is formatted, and
    the scanner appends exactly one finding for each issue. They satisfy
    the condition under which removing a rule leaves the findings of the
    other rules as they were. *)
Theorem quiet_rules_never_raise (r : Rule) (fs : FileSystem)
    (file_path : string) (lines : list string) :
  In r quiet_rules ->
  outcome (analyze_file r file_path lines) = Ok tt
  /\ snd (CodeScanner.run_rule fs file_path lines r []) = Ok tt
  /\ length (fst (CodeScanner.run_rule fs file_path lines r []))
     = length (yielded (analyze_file r file_path lines)).
Proof.
  intros Hq. destruct (run_rule_quiet fs file_path lines r Hq) as [Hs Hall].
  split; [by apply quiet_rules_return|]. split; [exact Hs|].
  symmetry. by apply Forall2_length in Hall.
Qed.

Lemma quiet_rules_never_raise_witness :
  outcome (analyze_file UnsafeBrowserIntentRule.rule "repo/C.kt" lines_C) = Ok tt
  /\ snd (CodeScanner.run_rule fs_C "repo/C.kt" lines_C
            UnsafeBrowserIntentRule.rule []) = Ok tt
  /\ length (fst (CodeScanner.run_rule fs_C "repo/C.kt" lines_C
                    UnsafeBrowserIntentRule.rule []))
     = length (yielded (analyze_file UnsafeBrowserIntentRule.rule
                          "repo/C.kt" lines_C)).
Proof.
  apply (quiet_rules_never_raise UnsafeBrowserIntentRule.rule fs_C
           "repo/C.kt" lines_C).
  do 2 right. left. reflexivity.
Defined.

Lemma run_rules_status_isolation fs file_path lines
    (rules1 rules2 : list Rule) (r : Rule) :
  snd (CodeScanner.run_rule fs file_path lines r []) = Ok tt ->
  snd (CodeScanner.run_rules fs file_path lines (rules1 ++ r :: rules2) [])
  = snd (CodeScanner.run_rules fs file_path lines (rules1 ++ rules2) []).
Proof.
  intros Hok. induction rules1 as [|r1 rules1 IH].
  - cbn [app CodeScanner.run_rules].
    destruct (CodeScanner.run_rule fs file_path lines r []) as [l st].
    cbn [snd] in Hok. subst st. by rewrite run_rules_acc.
  - cbn [app CodeScanner.run_rules].
    destruct (CodeScanner.run_rule fs file_path lines r1 []) as [l [[]|e]];
      [|reflexivity].
    rewrite (run_rules_acc _ _ _ (rules1 ++ r :: rules2) l).
    rewrite (run_rules_acc _ _ _ (rules1 ++ rules2) l).
    cbn [snd]. exact IH.
Qed.

(** X16. Removing one of the twelve rules that cannot raise from the rule list
    changes nothing but the findings that carry its name, on every tree:
    the other findings are the same in the same order, and so is every
    line the scan prints. *)
Theorem quiet_rule_isolation (fs : FileSystem) (repo_path : string)
    (rules1 rules2 : list Rule) (r : Rule) :
  In r quiet_rules ->
  exists (log : list string) (full reduced : list dict),
    CodeScanner.scan_repository
      {| CodeScanner.rules := rules1 ++ r :: rules2 |} fs repo_path
    = Traced log (Ok full)
    /\ CodeScanner.scan_repository
         {| CodeScanner.rules := rules1 ++ rules2 |} fs repo_path
       = Traced log (Ok reduced)
    /\ List.filter (fun f => negb (of_rule (name r) f)) full
       = List.filter (fun f => negb (of_rule (name r) f)) reduced.
Proof.
  intros Hq. rewrite !scan_repository_spec.
  assert (Hok : forall path lines,
            snd (CodeScanner.run_rule fs path lines r []) = Ok tt)
    by (intros path lines; apply (run_rule_quiet fs path lines r Hq)).
  eexists. eexists. eexists. split; [reflexivity|]. split.
  - f_equal. apply flat_map_ext_in. intros path _.
    unfold file_log, file_run. cbn [CodeScanner.rules].
    destruct (open_readlines fs path) as [lines|e]; [|reflexivity].
    by rewrite (run_rules_status_isolation fs path lines rules1 rules2 r).
  - induction (candidates (os_walk fs repo_path)) as [|path paths IH];
      [reflexivity|].
    cbn [flat_map]. rewrite !List.filter_app. f_equal; [|exact IH].
    unfold file_findings, file_run. cbn [CodeScanner.rules].
    destruct (open_readlines fs path) as [lines|e]; [|reflexivity].
    apply run_rules_isolation. apply Hok.
Qed.

Lemma quiet_rule_isolation_witness :
  exists (log : list string) (full reduced : list dict),
    CodeScanner.scan_repository
      {| CodeScanner.rules :=
           [StrictFailedRequirementExceptionRule.rule]
           ++ UnsafeBrowserIntentRule.rule :: [UnsafeStartActivityRule.rule] |}
      fs_C "repo"
    = Traced log (Ok full)
    /\ CodeScanner.scan_repository
         {| CodeScanner.rules :=
              [StrictFailedRequirementExceptionRule.rule]
              ++ [UnsafeStartActivityRule.rule] |} fs_C "repo"
       = Traced log (Ok reduced)
    /\ List.filter (fun f => negb (of_rule "UnsafeBrowserIntentRule" f)) full
       = List.filter (fun f => negb (of_rule "UnsafeBrowserIntentRule" f)) reduced.
Proof.
  apply (quiet_rule_isolation fs_C "repo"
           [StrictFailedRequirementExceptionRule.rule]
           [UnsafeStartActivityRule.rule] UnsafeBrowserIntentRule.rule).
  do 2 right. left. reflexivity.
Defined.

(** ** Scanner engine: a scan with rules that cannot raise *)

Lemma run_rules_quiet fs file_path lines (rules : list Rule) :
  (forall r, In r rules -> In r quiet_rules) ->
  snd (CodeScanner.run_rules fs file_path lines rules []) = Ok tt
  /\ Forall2 (fun '(path, r, d) f => CodeScanner._format_issue fs path r d = Ok f)
       (flat_map (fun r => (fun d => (file_path, r, d))
                             <$> yielded (analyze_file r file_path lines)) rules)
       (fst (CodeScanner.run_rules fs file_path lines rules [])).
Proof.
  induction rules as [|r rules IH]; intros Hq.
  - split; [reflexivity|constructor].
  - destruct IH as [Hs Hall]; [intros r' Hr'; apply Hq; by right|].
    destruct (run_rule_quiet fs file_path lines r) as [Hr Hallr];
      [apply Hq; by left|].
    cbn [CodeScanner.run_rules flat_map].
    destruct (CodeScanner.run_rule fs file_path lines r []) as [l st].
    cbn [fst snd] in *. subst st. rewrite run_rules_acc. cbn [fst snd].
    split; [exact Hs|]. apply Forall2_app; [|exact Hall].
    apply Forall2_fmap_l. exact Hallr.
Qed.

(** X17. With rules that cannot raise, a scan is complete and in order: it
    prints a line only for the candidate files that cannot be opened, and
    its result holds one finding for each issue that each rule yields on
    each candidate file, the files in the order of the walk, the rules in
    the order of registration, the issues in the order of their yields. *)
Theorem quiet_scan_complete (self : CodeScanner.self) (fs : FileSystem)
    (repo_path : string) :
  (forall r, In r (CodeScanner.rules self) -> In r quiet_rules) ->
  exists all_issues : list dict,
    CodeScanner.scan_repository self fs repo_path
    = Traced (flat_map (open_log fs) (candidates (os_walk fs repo_path)))
        (Ok all_issues)
    /\ Forall2 (fun '(path, r, d) f =>
                  CodeScanner._format_issue fs path r d = Ok f)
         (flat_map (yielded_in self fs) (candidates (os_walk fs repo_path)))
         all_issues.
Proof.
  intros Hq. rewrite scan_repository_spec. eexists. split.
  - f_equal. apply flat_map_ext_in. intros path _.
    unfold file_log, open_log, file_run.
    destruct (open_readlines fs path) as [lines|e]; [|reflexivity].
    by rewrite (proj1 (run_rules_quiet fs path lines _ Hq)).
  - induction (candidates (os_walk fs repo_path)) as [|path paths IH];
      [constructor|].
    cbn [flat_map]. apply Forall2_app; [|exact IH].
    unfold yielded_in, file_findings, file_run.
    destruct (open_readlines fs path) as [lines|e]; [|constructor].
    apply (run_rules_quiet fs path lines _ Hq).
Qed.

Lemma quiet_scan_complete_witness :
  exists all_issues : list dict,
    CodeScanner.scan_repository scanner_quiet fs_G "repo"
    = Traced (flat_map (open_log fs_G) (candidates (os_walk fs_G "repo")))
        (Ok all_issues)
    /\ Forall2 (fun '(path, r, d) f =>
                  CodeScanner._format_issue fs_G path r d = Ok f)
         (flat_map (yielded_in scanner_quiet fs_G)
            (candidates (os_walk fs_G "repo")))
         all_issues.
Proof.
  apply (quiet_scan_complete scanner_quiet fs_G "repo").
  intros r [<-|[<-|[] ] ].
  - do 5 right. left. reflexivity.
  - do 2 right. left. reflexivity.
Defined.

(** ** Rules: the order of the issues *)

Lemma traced_bind_emitted {W A B} (m : traced W A) (k : A -> traced W B) :
  emitted (m ≫= k)
  = emitted m ++ match outcome m with
                 | Ok a => emitted (k a)
                 | Raise _ => []
                 end.
Proof.
  unfold mbind, traced_bind. destruct (outcome m); cbn [emitted];
    [reflexivity|by rewrite app_nil_r].
Qed.

Lemma Sorted_const_app (c : Z) (l1 l2 : list Z) :
  Forall (fun n => n = c) l1 -> Forall (fun n => c <= n) l2 ->
  Sorted Z.le l2 -> Sorted Z.le (l1 ++ l2).
Proof.
  intros H1 H2 Hs. induction l1 as [|x l1 IH]; [exact Hs|].
  inversion H1 as [|? ? Hx H1']; subst. cbn [app].
  constructor; [by apply IH|].
  destruct l1 as [|y l1]; cbn [app].
  - destruct H2 as [|z l2 Hz _]; constructor. exact Hz.
  - constructor. inversion H1'; subst. lia.
Qed.

Lemma for_enumerate_sorted {St} (body : St -> Z -> string -> gen St)
    (ls : list string) :
  (forall st i line d, In d (yielded (body st i line)) -> line_of d = i + 1) ->
  forall st i,
    Sorted Z.le (line_of <$> yielded (for_enumerate body st i ls))
    /\ Forall (fun n => i + 1 <= n)
         (line_of <$> yielded (for_enumerate body st i ls)).
Proof.
  intros Hbody. induction ls as [|line ls IH]; intros st i.
  - split; constructor.
  - cbn [for_enumerate]. rewrite traced_bind_emitted, fmap_app.
    assert (H1 : Forall (fun n => n = i + 1)
                   (line_of <$> yielded (body st i line))).
    { apply List.Forall_forall. intros n Hn.
      apply list_elem_of_In, list_elem_of_fmap in Hn as (d & -> & Hd).
      apply (Hbody st i line). by apply list_elem_of_In. }
    assert (H2 : Sorted Z.le
                   (line_of <$> match outcome (body st i line) with
                                | Ok a => yielded (for_enumerate body a (i + 1) ls)
                                | Raise _ => []
                                end)
                 /\ Forall (fun n => i + 1 + 1 <= n)
                      (line_of <$> match outcome (body st i line) with
                                   | Ok a => yielded (for_enumerate body a (i + 1) ls)
                                   | Raise _ => []
                                   end)).
    { destruct (outcome (body st i line)) as [st'|e]; [apply IH|].
      split; constructor. }
    destruct H2 as [Hs Hge]. split.
    + apply (Sorted_const_app (i + 1)); [exact H1| |exact Hs].
      eapply List.Forall_impl; [|exact Hge]. cbn. intros; lia.
    + apply List.Forall_app. split.
      * eapply List.Forall_impl; [|exact H1]. cbn. intros; lia.
      * eapply List.Forall_impl; [|exact Hge]. cbn. intros; lia.
Qed.

Lemma reports_line_of (i : Z) (line : string) (d : dict) :
  reports_line i line d -> line_of d = i + 1.
Proof.
  intros (_ & detail & severity & -> & _). unfold line_of.
  by rewrite issue_line_num.
Qed.

Lemma line_rules_shape (rule : Rule) (file_path : string) (lines : list string) :
  In rule line_rules ->
  analyze_file rule file_path lines = mret tt
  \/ exists (St : Type) (body : St -> Z -> string -> gen St) (st : St),
       analyze_file rule file_path lines = for_enumerate body st 0 lines
       /\ forall st i line d,
            In d (yielded (body st i line)) -> reports_line i line d.
Proof.
  intros Hrule. unfold line_rules in Hrule. cbn [In] in Hrule.
  repeat (destruct Hrule as [<-|Hrule]); [..|destruct Hrule];
    cbn [analyze_file UnsafeStartActivityRule.rule UnsafeArrayIndexAccessRule.rule
           UnsafeNullableObjectAccessRule.rule
           StrictFailedRequirementExceptionRule.rule UnsafeBrowserIntentRule.rule
           StrictQuickTileForegroundStartRule.rule StrictWithResumedUsageRule.rule
           StrictRepeatOnLifecycleCreatedInitRule.rule
           StrictFileProviderAuthorityRule.rule
           StrictFileProviderHelperSignatureRule.rule
           StrictSponsorBlockApiUrlRule.rule StrictHttpUrlSchemeRule.rule
           StrictFragmentDialogStateLossRule.rule];
    unfold UnsafeStartActivityRule.analyze_file,
      UnsafeArrayIndexAccessRule.analyze_file,
      UnsafeNullableObjectAccessRule.analyze_file,
      StrictFailedRequirementExceptionRule.analyze_file,
      UnsafeBrowserIntentRule.analyze_file,
      StrictQuickTileForegroundStartRule.analyze_file,
      StrictWithResumedUsageRule.analyze_file,
      StrictRepeatOnLifecycleCreatedInitRule.analyze_file,
      StrictFileProviderAuthorityRule.analyze_file,
      StrictFileProviderHelperSignatureRule.analyze_file,
      StrictSponsorBlockApiUrlRule.analyze_file,
      StrictHttpUrlSchemeRule.analyze_file,
      StrictFragmentDialogStateLossRule.analyze_file;
    try match goal with
        | |- (if ?c then _ else _) = _ \/ _ => destruct c; [by left|]
        end;
    right; eexists; eexists; eexists; (split; [reflexivity|]).
  - apply UnsafeStartActivityRule_reports.
  - apply UnsafeArrayIndexAccessRule_reports.
  - apply UnsafeNullableObjectAccessRule_reports.
  - apply StrictFailedRequirementExceptionRule_reports.
  - apply UnsafeBrowserIntentRule_reports.
  - apply StrictQuickTileForegroundStartRule_reports.
  - apply StrictWithResumedUsageRule_reports.
  - apply StrictRepeatOnLifecycleCreatedInitRule_reports.
  - apply StrictFileProviderAuthorityRule_reports.
  - apply StrictFileProviderHelperSignatureRule_reports.
  - apply StrictSponsorBlockApiUrlRule_reports.
  - apply StrictHttpUrlSchemeRule_reports.
  - apply StrictFragmentDialogStateLossRule_reports.
Qed.

(** X18. Each of the thirteen rules that report inside their loop yields its
    issues in the order of the lines: the line numbers of the issues of
    one file never decrease, also when the rule raises part way. *)
Theorem line_rules_yield_in_line_order (rule : Rule) (file_path : string)
    (lines : list string) :
  In rule line_rules ->
  Sorted Z.le (line_of <$> yielded (analyze_file rule file_path lines)).
Proof.
  intros Hrule.
  destruct (line_rules_shape rule file_path lines Hrule)
    as [->|(St & body & st & -> & Hbody)]; [constructor|].
  apply for_enumerate_sorted. intros st' i line d Hd.
  by apply (reports_line_of i line), (Hbody st').
Qed.

Lemma line_rules_yield_in_line_order_witness :
  Sorted Z.le
    (line_of <$> yielded (analyze_file StrictWithResumedUsageRule.rule
                            "repo/G.kt" lines_G)).
Proof.
  apply (line_rules_yield_in_line_order StrictWithResumedUsageRule.rule
           "repo/G.kt" lines_G).
  do 6 right. left. reflexivity.
Defined.

(** ** From the scan to the report *)

Lemma known_rules_int_line (rule : Rule) (file_path : string)
    (lines : list string) (d : dict) :
  In rule (modelled_rules ++ further_rules) ->
  In d (yielded (analyze_file rule file_path lines)) ->
  exists n, d !! "line_num" = Some (VInt n).
Proof.
  intros Hrule Hd.
  assert (Hcases : rule = StrictPeertubeChannelIdParsingRule.rule
                   \/ rule = StrictTilePendingIntentWorkaroundRule.rule
                   \/ In rule line_rules).
  { unfold modelled_rules, further_rules, line_rules in *.
    cbn [In app] in *.
    repeat (destruct Hrule as [<-|Hrule]); try destruct Hrule; tauto. }
  destruct Hcases as [->|[->|Hline] ].
  - exists 1. by apply (StrictPeertubeChannelIdParsingRule_line file_path lines).
  - apply StrictTilePendingIntentWorkaroundRule_yields in Hd
      as (_ & detail & ->). by exists 1.
  - destruct (line_rules_yield rule file_path lines d Hline Hd)
      as (i & line & _ & _ & detail & severity & -> & _).
    eexists. apply issue_line_num.
Qed.

Lemma report_issues_ok (issues : list dict) :
  Forall wf_finding issues -> outcome (report_issues issues) = Ok tt.
Proof.
  intros Hwf. destruct issues as [|f issues]; [reflexivity|].
  destruct (report_issues_sections (f :: issues)) as (keys & grouped & Hr & _);
    [discriminate|exact Hwf|].
  by rewrite Hr.
Qed.

(** X19. The result of a scan with any of the fifteen rules modelled here can
    always be printed: every finding has the keys the reporter reads and
    an integer line number, so the reporter returns without raising, and
    its first line gives the number of findings or says that there are
    none. *)
Theorem scan_then_report_returns (self : CodeScanner.self) (fs : FileSystem)
    (repo_path : string) :
  (forall r, In r (CodeScanner.rules self) ->
     In r (modelled_rules ++ further_rules)) ->
  let all_issues :=
    findings_of (CodeScanner.scan_repository self fs repo_path) in
  Forall wf_finding all_issues
  /\ outcome (report_issues all_issues) = Ok tt
  /\ head (printed (report_issues all_issues))
     = Some (if decide (all_issues = [])
             then LF +:+ "🎉 Scan completed! No issues found."
             else summary_line all_issues).
Proof.
  intros Hrules all_issues.
  assert (Hwf : Forall wf_finding all_issues).
  { unfold all_issues, findings_of. rewrite scan_outcome.
    apply List.Forall_forall. intros finding Hin.
    destruct (scan_finding_source self fs repo_path finding Hin)
      as (path & lines & rule & d & _ & _ & Hrule & Hd & Hf).
    apply (format_issue_wf fs path rule d finding Hf).
    apply (known_rules_int_line rule path lines d); [by apply Hrules|exact Hd]. }
  split; [exact Hwf|]. split; [by apply report_issues_ok|].
  destruct all_issues as [|f issues] eqn:E; [reflexivity|].
  destruct (report_issues_sections (f :: issues)) as (keys & grouped & Hr & _);
    [discriminate|exact Hwf|].
  rewrite Hr. reflexivity.
Qed.

Lemma scan_then_report_returns_witness :
  let all_issues :=
    findings_of (CodeScanner.scan_repository scanner_quiet fs_G "repo") in
  Forall wf_finding all_issues
  /\ outcome (report_issues all_issues) = Ok tt
  /\ head (printed (report_issues all_issues))
     = Some (if decide (all_issues = [])
             then LF +:+ "🎉 Scan completed! No issues found."
             else summary_line all_issues).
Proof.
  apply (scan_then_report_returns scanner_quiet fs_G "repo").
  intros r [<-|[<-|[] ] ].
  - do 8 right. left. reflexivity.
  - do 5 right. left. reflexivity.
Defined.

(** X20. The context of a finding of one of the thirteen rules that report
    inside their loop shows the reported line: the finding names a line
    of the file it was found in, quotes it stripped, and its context is
    the window of ten lines on each side of that line, cut at the ends of
    the file, in which the line itself stands. *)
Theorem scan_context_shows_reported_line (self : CodeScanner.self)
    (fs : FileSystem) (repo_path : string) (all_issues : list dict)
    (finding : dict) :
  (forall r, In r (CodeScanner.rules self) -> In r line_rules) ->
  outcome (CodeScanner.scan_repository self fs repo_path) = Ok all_issues ->
  In finding all_issues ->
  exists (path : string) (lines : list string) (i : nat) (line : string),
    let n := Z.of_nat i + 1 in
    open_readlines fs path = Ok lines
    /\ lines !! i = Some line
    /\ finding !! "file_path" = Some (VStr path)
    /\ finding !! "line_num" = Some (VInt n)
    /\ finding !! "code" = Some (VStr (strip line))
    /\ finding !! "context_code"
       = Some (VStr (join LF (render_line n
                                <$> window (n - 10) (n + 10)
                                      (enumerate_from 1 lines))))
    /\ In (n, line) (window (n - 10) (n + 10) (enumerate_from 1 lines)).
Proof.
  intros Hrules. rewrite scan_outcome. intros [= <-] Hin.
  destruct (scan_finding_source self fs repo_path finding Hin)
    as (path & lines & rule & d & _ & Hopen & Hrule & Hd & Hf).
  destruct (line_rules_yield rule path lines d (Hrules rule Hrule) Hd)
    as (i & line & Hl & _ & detail & severity & -> & _).
  exists path, lines, i, line. cbv zeta.
  assert (Hc : issue (Z.of_nat i + 1) (strip line) detail severity !! "code"
               = Some (VStr (strip line)))
    by (unfold issue; by simplify_map_eq).
  unfold CodeScanner._format_issue, getitem in Hf.
  rewrite issue_line_num, !bind_Ok in Hf.
  destruct (issue_type rule) as [ty|]; [|discriminate]. rewrite bind_Ok, Hc in Hf.
  rewrite bind_Ok in Hf.
  destruct (suggestion rule) as [sg|]; [|discriminate]. rewrite bind_Ok in Hf.
  injection Hf as <-.
  rewrite (get_context_lines_read fs path lines _ _ Hopen).
  split; [exact Hopen|]. split; [exact Hl|].
  split; [by simplify_map_eq|]. split; [by simplify_map_eq|].
  split; [by simplify_map_eq|]. split; [by simplify_map_eq|].
  unfold window. apply List.filter_In. split.
  - apply list_elem_of_In, (list_elem_of_lookup_2 _ i).
    rewrite (enumerate_from_lookup lines 1 i line Hl). f_equal. f_equal. lia.
  - cbn [fst]. apply andb_true_iff. split; apply Z.leb_le; lia.
Qed.

Lemma scan_context_shows_reported_line_witness :
  exists (path : string) (lines : list string) (i : nat) (line : string),
    let n := Z.of_nat i + 1 in
    open_readlines fs_G path = Ok lines
    /\ lines !! i = Some line
    /\ hd ∅ (findings_of (CodeScanner.scan_repository scanner_quiet fs_G "repo"))
         !! "file_path" = Some (VStr path)
    /\ hd ∅ (findings_of (CodeScanner.scan_repository scanner_quiet fs_G "repo"))
         !! "line_num" = Some (VInt n)
    /\ hd ∅ (findings_of (CodeScanner.scan_repository scanner_quiet fs_G "repo"))
         !! "code" = Some (VStr (strip line))
    /\ hd ∅ (findings_of (CodeScanner.scan_repository scanner_quiet fs_G "repo"))
         !! "context_code"
       = Some (VStr (join LF (render_line n
                                <$> window (n - 10) (n + 10)
                                      (enumerate_from 1 lines))))
    /\ In (n, line) (window (n - 10) (n + 10) (enumerate_from 1 lines)).
Proof.
  apply (scan_context_shows_reported_line scanner_quiet fs_G "repo"
           (findings_of (CodeScanner.scan_repository scanner_quiet fs_G "repo"))).
  - intros r [<-|[<-|[] ] ].
    + do 6 right. left. reflexivity.
    + do 4 right. left. reflexivity.
  - unfold findings_of. rewrite scan_outcome. reflexivity.
  - apply In_hd. intros Heq. apply (f_equal length) in Heq.
    vm_compute in Heq. discriminate.
Defined.

(** ** [StrictFailedRequirementExceptionRule]: the name of the method *)

Lemma lstrip_head (s : string) (a : ascii) (t : string) :
  lstrip s = String a t -> isspace a = false.
Proof.
  induction s as [|c s IH]; [discriminate|]. cbn [lstrip].
  destruct (isspace c) eqn:Hc; [exact IH|]. intros [= <- _]. exact Hc.
Qed.

Lemma rstrip_head (s : string) (a : ascii) (t : string) :
  rstrip s = String a t -> exists t', s = String a t'.
Proof.
  destruct s as [|c s]; [discriminate|]. cbn [rstrip].
  destruct (rstrip s); [destruct (isspace c)|]; intros [= <- _]; eauto.
Qed.

Lemma strip_head (s : string) (a : ascii) (t : string) :
  strip s = String a t -> isspace a = false.
Proof.
  unfold strip. intros H. apply rstrip_head in H as [t' H].
  by apply lstrip_head in H.
Qed.

Lemma split_ws_from_cur (s cur : string) :
  cur <> "" -> split_ws_from s cur <> [].
Proof.
  revert cur. induction s as [|a s IH]; intros cur Hcur; cbn [split_ws_from].
  - destruct (String.eqb_spec cur ""); [done|discriminate].
  - destruct (isspace a).
    + destruct (String.eqb_spec cur ""); [done|discriminate].
    + apply IH. by destruct cur.
Qed.

Lemma py_index_last {A} (l : list A) :
  l <> [] -> exists x, py_index l (-1) = Ok x.
Proof.
  intros Hne. unfold py_index. cbv zeta.
  assert (Hlen : 0 < len l) by (destruct l; [done|unfold len; cbn [length]; lia]).
  change (-1 <? 0) with true. cbv iota.
  destruct (Z.leb_spec 0 (-1 + len l)); [|lia].
  destruct (Z.ltb_spec (-1 + len l) (len l)); [|lia]. cbn [andb].
  destruct (lookup_lt_is_Some_2 l (Z.to_nat (-1 + len l))) as [x Hx];
    [unfold len in *; lia|].
  rewrite Hx. by eexists.
Qed.

Lemma split_char_head (s : string) (c a : ascii) :
  Ascii.eqb a c = false ->
  exists x xs, split_char (String a s) c = String a x :: xs.
Proof.
  intros Ha. cbn [split_char]. rewrite Ha.
  destruct (split_char s c); by repeat eexists.
Qed.

(** [stripped_line.split('(')[0].split()[-1]] raises exactly when the
    stripped line starts with the parenthesis. *)
Lemma method_name_of_cases (line : string) :
  strip line <> "" ->
  if startswith (strip line) "("
  then StrictFailedRequirementExceptionRule.method_name_of (strip line)
       = Raise IndexError
  else exists method_name,
         StrictFailedRequirementExceptionRule.method_name_of (strip line)
         = Ok method_name.
Proof.
  intros Hne. destruct (strip line) as [|a s] eqn:Hs; [done|].
  pose proof (strip_head line a s Hs) as Ha.
  unfold startswith. destruct (Ascii.eqb a "(") eqn:Hp.
  - apply Ascii.eqb_eq in Hp as ->. destruct s; reflexivity.
  - destruct s as [|b s]; cbn [startswith];
      unfold StrictFailedRequirementExceptionRule.method_name_of.
    + cbn [split_char]. rewrite Hp.
      change (py_index [String a ""] 0) with (Ok (String a "")).
      rewrite bind_Ok. unfold split_ws. cbn [split_ws_from]. rewrite Ha.
      by eexists.
    + destruct (split_char_head (String b s) "(" a Hp) as (x & xs & ->).
      change (py_index (String a x :: xs) 0)
        with (py_index (String a x :: xs) (Z.of_nat 0)).
      rewrite (py_index_lookup (String a x :: xs) 0 (String a x) eq_refl),
        bind_Ok.
      unfold split_ws. cbn [split_ws_from]. rewrite Ha.
      apply py_index_last, split_ws_from_cur. discriminate.
Qed.

Lemma leaves_method_total (lines : list string)
    (st : StrictFailedRequirementExceptionRule.state) (i : Z)
    (line stripped_line : string) :
  0 <= i < len lines ->
  exists b,
    StrictFailedRequirementExceptionRule.leaves_method lines st i line
      stripped_line = Ok b.
Proof.
  intros Hi. unfold StrictFailedRequirementExceptionRule.leaves_method.
  destruct (StrictFailedRequirementExceptionRule.in_method st
            && String.eqb stripped_line "}"
            && (StrictFailedRequirementExceptionRule.method_start st <? i));
    [|by eexists].
  destruct (Z.ltb_spec 0 i); [|by eexists].
  destruct (py_index_in_range lines (i - 1)) as (prev & _ & ->); [lia|].
  rewrite bind_Ok. destruct (0 <? len_str (strip prev)); by eexists.
Qed.

Lemma failed_requirement_body_outcome (lines : list string)
    (st : StrictFailedRequirementExceptionRule.state) (i : Z) (line : string) :
  0 <= i < len lines ->
  if nameless_method_line line
  then outcome (StrictFailedRequirementExceptionRule.body lines st i line)
       = Raise IndexError
  else exists st',
         outcome (StrictFailedRequirementExceptionRule.body lines st i line)
         = Ok st'.
Proof.
  intros Hi. unfold nameless_method_line, enters_method,
    StrictFailedRequirementExceptionRule.body. cbv zeta.
  destruct (blank_or_comment (strip line)) eqn:Hb; cbn [negb andb];
    [by eexists|].
  destruct (str_in "fun " (strip line) || str_in "void " (strip line)
            || str_in "override fun " (strip line)); cbn [andb].
  - assert (Hne : strip line <> "").
    { intros Heq. rewrite Heq in Hb. discriminate. }
    pose proof (method_name_of_cases line Hne) as Hm.
    destruct (startswith (strip line) "(").
    + rewrite Hm. reflexivity.
    + destruct Hm as [method_name ->]. rewrite lift_Ok_bind. by eexists.
  - destruct (leaves_method_total lines st i line (strip line) Hi) as [b ->].
    rewrite lift_Ok_bind. destruct b; [by eexists|]. returns.
Qed.

Lemma failed_requirement_loop_outcome (lines ls : list string)
    (st : StrictFailedRequirementExceptionRule.state) (i : Z) :
  0 <= i -> i + len ls <= len lines ->
  outcome (for_enumerate (StrictFailedRequirementExceptionRule.body lines)
             st i ls)
  = if existsb nameless_method_line ls then Raise IndexError else Ok tt.
Proof.
  revert st i. induction ls as [|line ls IH]; intros st i Hi Hlen;
    [reflexivity|].
  assert (Hl : len (line :: ls) = 1 + len ls)
    by (unfold len; cbn [length]; lia).
  assert (Hpos : 0 <= len ls) by (unfold len; lia).
  assert (Hin : 0 <= i < len lines) by lia.
  cbn [for_enumerate existsb].
  pose proof (failed_requirement_body_outcome lines st i line Hin) as Hb.
  destruct (nameless_method_line line); cbn [orb].
  - unfold mbind, traced_bind. rewrite Hb. reflexivity.
  - destruct Hb as [st' Hst].
    rewrite (traced_bind_Ok _ _ st' Hst). cbn [outcome].
    apply IH; lia.
Qed.

(** X21. [StrictFailedRequirementExceptionRule] raises [IndexError] on a
    Kotlin or Java file exactly when some line that is neither blank nor a
    line comment holds the text of a method start and, stripped, begins
    with a parenthesis, so that no name stands before it; on every other
    file the rule runs to its end. *)
Theorem failed_requirement_raises_iff (file_path : string)
    (lines : list string) :
  outcome (StrictFailedRequirementExceptionRule.analyze_file file_path lines)
  = if (endswith file_path ".kt" || endswith file_path ".java")
       && existsb nameless_method_line lines
    then Raise IndexError
    else Ok tt.
Proof.
  unfold StrictFailedRequirementExceptionRule.analyze_file.
  destruct (endswith file_path ".kt" || endswith file_path ".java");
    cbn [negb andb]; [|reflexivity].
  apply failed_requirement_loop_outcome; lia.
Qed.

(** ** Scanner engine: a scan always returns *)

